(** * Sentinela BD: POI dwell monitoring, SLA deviations and N1-N4 escalation

    A shallow embedding of the deviation-detection core of the repository,
    and its properties.

    The embedding, one module per source file:
    - [Py]: the Python built-ins the scripts rely on (strings, dictionaries
      in insertion order, [min], [max], [sort], [datetime]);
    - [Detector]: the cloud function [deviation-detector/main.py]
      (candidate level, escalation decision, confidence score, alert title,
      persisted alert states, one run);
    - [Enhanced]: [sistema_deteccao_desvios_enhanced.py] (SLA evaluation per
      branch and group, classifier and ladder of that script);
    - [Relatorio]: [gerar_relatorio_pontos_notaveis.py] (POI group
      resolution, consolidation of consecutive events);
    - [Backup]: [pontos_notaveis_ids_especificos_backup_20250807_131955.py]
      (consolidation with related groups);
    - [DetectorServices]: the rest of the cloud function (loading of the
      thresholds, publishing, the counts of a run);
    - [EnhancedPipeline], [EnhancedCycle]: the rest of the SLA script
      (events of the API, adaptive windows, escalation of a group, rows and
      metrics; one detection cycle);
    - [RelatorioEventos]: the rest of the report generator (branch of a POI,
      filter and rows of the events of the API).

    Then the vocabulary in which the properties are stated ([...Spec]), sample
    data, the lemmas ([...Facts]), the properties C1 to C10 and further
    properties of the code.

    Python strings are modelled as byte strings (the UTF-8 encoding of the
    source text), dictionaries whose iteration order matters as association
    lists in insertion order, the Firestore collection as a finite map,
    floating-point hours as rationals, and what the external services do
    (reads and writes that may fail, the clock, [strptime], [lower], [round])
    as parameters. *)

From Stdlib Require Import ZArith QArith Qminmax Lqa Lia List Bool Ascii String
  Permutation.
From stdpp Require Import gmap strings.
Import ListNotations.

(** ** Python built-ins used by the scripts *)

Module Py.

(** The outcome of a call that may raise. *)
Inductive Result (A : Type) : Type :=
| Return (a : A)
| Raise.
Arguments Return {A} a.
Arguments Raise {A}.

Definition bind {A B : Type} (r : Result A) (f : A -> Result B) : Result B :=
  match r with
  | Return a => f a
  | Raise => Raise
  end.

(** A loop that appends what each round yields, unless a round raises. *)
Fixpoint for_each {A B : Type} (f : A -> Result (list B)) (l : list A)
  : Result (list B) :=
  match l with
  | [] => Return []
  | x :: l' => bind (f x) (fun ys => bind (for_each f l') (fun zs => Return (ys ++ zs)))
  end.

(** [s.replace(old, '')] for a non-empty [old]: occurrences are removed
    from left to right, without overlap.  [skip] counts the characters of
    the occurrence being removed that are still to be dropped. *)
Fixpoint remove_from (old : string) (skip : nat) (s : string) : string :=
  match s with
  | EmptyString => EmptyString
  | String c s' =>
      match skip with
      | S k => remove_from old k s'
      | O =>
          if String.prefix old s
          then remove_from old (String.length old - 1) s'
          else String c (remove_from old O s')
      end
  end.

Definition str_remove (old s : string) : string := remove_from old 0 s.

(** [sub in s] *)
Fixpoint contains (sub s : string) : bool :=
  if String.prefix sub s then true
  else match s with
       | EmptyString => false
       | String _ s' => contains sub s'
       end.

(** The characters of a string kept by [f]. *)
Fixpoint str_filter (f : ascii -> bool) (s : string) : string :=
  match s with
  | EmptyString => EmptyString
  | String c s' => if f c then String c (str_filter f s') else str_filter f s'
  end.

(** [s.split('_', 1)]: the text before and after the first underscore,
    or nothing when there is none (the result then has one element). *)
Fixpoint split_underscore (s : string) : option (string * string) :=
  match s with
  | EmptyString => None
  | String c s' =>
      if Ascii.eqb c "_" then Some (EmptyString, s')
      else match split_underscore s' with
           | Some (a, b) => Some (String c a, b)
           | None => None
           end
  end.

(** *** Dictionaries in insertion order *)

Fixpoint dict_get {V : Type} (d : list (string * V)) (k : string) : option V :=
  match d with
  | [] => None
  | (k', v) :: d' => if String.eqb k' k then Some v else dict_get d' k
  end.

(** [d[k] = v] *)
Fixpoint dict_set {V : Type} (k : string) (v : V) (d : list (string * V))
  : list (string * V) :=
  match d with
  | [] => [(k, v)]
  | (k', v') :: d' =>
      if String.eqb k' k then (k', v) :: d' else (k', v') :: dict_set k v d'
  end.

(** [d[k].append(x)] on a [defaultdict(list)], and also
    [if k not in d: d[k] = []] followed by [d[k].append(x)]. *)
Fixpoint dict_append {A : Type} (k : string) (x : A) (d : list (string * list A))
  : list (string * list A) :=
  match d with
  | [] => [(k, [x])]
  | (k', xs) :: d' =>
      if String.eqb k' k then (k', xs ++ [x]) :: d' else (k', xs) :: dict_append k x d'
  end.

(** Grouping a list by a key, one [dict_append] per element. *)
Definition group_by {A : Type} (key : A -> string) (l : list A)
  : list (string * list A) :=
  fold_left (fun d x => dict_append (key x) x d) l [].

(** [min(l, key=key)] and [max(l, key=key)] on a list that starts with
    [best]: the first element that reaches the extremum. *)
Fixpoint min_by {A : Type} (key : A -> Z) (best : A) (l : list A) : A :=
  match l with
  | [] => best
  | x :: l' => min_by key (if Z.ltb (key x) (key best) then x else best) l'
  end.

Fixpoint max_by {A : Type} (key : A -> Z) (best : A) (l : list A) : A :=
  match l with
  | [] => best
  | x :: l' => max_by key (if Z.ltb (key best) (key x) then x else best) l'
  end.

(** [l.sort(key=key)]: the stable sort, by insertion from the right. *)
Fixpoint insert_by {A : Type} (key : A -> Z) (x : A) (l : list A) : list A :=
  match l with
  | [] => [x]
  | y :: l' => if Z.leb (key x) (key y) then x :: y :: l' else y :: insert_by key x l'
  end.

Definition sort_by {A : Type} (key : A -> Z) (l : list A) : list A :=
  fold_right (insert_by key) [] l.

(** [int(q)]: truncation towards zero. *)
Definition int_of_Q (q : Q) : Z := Z.quot (Qnum q) (Zpos (Qden q)).

(** *** [datetime]

    A [datetime] is its wall-clock reading, in microseconds counted from
    1970-01-01T00:00:00 on the same wall clock, and its UTC offset in
    microseconds, absent for a naive value. *)
Local Open Scope Z_scope.

Record datetime : Type := mk_datetime {
  wall : Z;
  utcoffset : option Z
}.

Definition us_per_second : Z := 1000000.
Definition us_per_hour : Z := 3600 * us_per_second.
Definition us_per_day : Z := 24 * us_per_hour.

Definition timezone (hours : Z) : Z := hours * us_per_hour.

(** [a - b], in microseconds; mixing naive and aware values raises
    [TypeError]. *)
Definition dt_sub (a b : datetime) : Result Z :=
  match utcoffset a, utcoffset b with
  | None, None => Return (wall a - wall b)
  | Some oa, Some ob => Return ((wall a - oa) - (wall b - ob))
  | _, _ => Raise
  end.

(** [td.total_seconds() / 3600] *)
Definition hours_of_us (us : Z) : Q := us # 3600000000.

(** [dt + timedelta(days=n)] *)
Definition dt_add_days (dt : datetime) (n : Z) : datetime :=
  {| wall := wall dt + n * us_per_day; utcoffset := utcoffset dt |}.

(** [dt.replace(minute=0, second=0, microsecond=0)] *)
Definition replace_minute_second_microsecond_0 (dt : datetime) : datetime :=
  {| wall := wall dt - wall dt mod us_per_hour; utcoffset := utcoffset dt |}.

(** [dt.astimezone(tz)]; a naive value is taken to be in the system's
    local time, whose offset is [system_offset]. *)
Definition astimezone (system_offset : Z) (tz : Z) (dt : datetime) : datetime :=
  let off := match utcoffset dt with Some o => o | None => system_offset end in
  {| wall := wall dt - off + tz; utcoffset := Some tz |}.

(** Calendar fields of a wall-clock reading (proleptic Gregorian
    calendar, as in Python's [datetime]). *)
Definition civil_from_days (days : Z) : Z * Z * Z :=
  let z := days + 719468 in
  let era := z / 146097 in
  let doe := z - era * 146097 in
  let yoe := (doe - doe / 1460 + doe / 36524 - doe / 146096) / 365 in
  let y := yoe + era * 400 in
  let doy := doe - (365 * yoe + yoe / 4 - yoe / 100) in
  let mp := (5 * doy + 2) / 153 in
  let d := doy - (153 * mp + 2) / 5 + 1 in
  let m := if mp <? 10 then mp + 3 else mp - 9 in
  (if m <=? 2 then y + 1 else y, m, d).

Definition days_from_civil (y m d : Z) : Z :=
  let y := if m <=? 2 then y - 1 else y in
  let era := y / 400 in
  let yoe := y - era * 400 in
  let doy := (153 * (if 2 <? m then m - 3 else m + 9) + 2) / 5 + d - 1 in
  let doe := yoe * 365 + yoe / 4 - yoe / 100 + doy in
  era * 146097 + doe - 719468.

(** [datetime(y, m, d, H, M, S)], naive. *)
Definition datetime_of (y m d H M S : Z) : datetime :=
  {| wall := days_from_civil y m d * us_per_day + H * us_per_hour
             + M * 60 * us_per_second + S * us_per_second;
     utcoffset := None |}.

Definition year (dt : datetime) : Z := fst (fst (civil_from_days (wall dt / us_per_day))).
Definition month (dt : datetime) : Z := snd (fst (civil_from_days (wall dt / us_per_day))).
Definition day (dt : datetime) : Z := snd (civil_from_days (wall dt / us_per_day)).
Definition hour (dt : datetime) : Z := (wall dt mod us_per_day) / us_per_hour.
Definition minute (dt : datetime) : Z := (wall dt mod us_per_hour) / (60 * us_per_second).
Definition second (dt : datetime) : Z := (wall dt mod (60 * us_per_second)) / us_per_second.

Definition digit (n : Z) : ascii := ascii_of_nat (48 + Z.to_nat (n mod 10))%nat.
Definition pad2 (n : Z) : string :=
  String (digit (n / 10)) (String (digit n) EmptyString).
Definition pad4 (n : Z) : string :=
  String (digit (n / 1000)) (String (digit (n / 100)) (pad2 n)).

(** [dt.strftime('%d%m%Y')], [dt.strftime('%H%M%S')],
    [dt.strftime('%Y%m%d_%H%M%S')] *)
Definition strftime_dmY (dt : datetime) : string :=
  pad2 (day dt) +:+ pad2 (month dt) +:+ pad4 (year dt).
Definition strftime_HMS (dt : datetime) : string :=
  pad2 (hour dt) +:+ pad2 (minute dt) +:+ pad2 (second dt).
Definition strftime_Ymd_HMS (dt : datetime) : string :=
  pad4 (year dt) +:+ pad2 (month dt) +:+ pad2 (day dt) +:+ "_" +:+ strftime_HMS dt.

End Py.

Import Py.

(** ** The deviation detector (cloud function [deviation-detector]) *)

Module Detector.

Local Open Scope Z_scope.

(** [CAMPO_GRANDE_TZ = timezone(timedelta(hours=-4))] *)
Definition CAMPO_GRANDE_TZ : Z := timezone (-4).

(** The four alert levels, the only values [_calculate_alert_level]
    returns and [_update_alert_state] stores. *)
Inductive Level : Type := N1 | N2 | N3 | N4.

Definition Level_eqb (a b : Level) : bool :=
  match a, b with
  | N1, N1 | N2, N2 | N3, N3 | N4, N4 => true
  | _, _ => false
  end.

Definition level_name (l : Level) : string :=
  match l with N1 => "N1" | N2 => "N2" | N3 => "N3" | N4 => "N4" end.

(** [level_hierarchy = {'N1': 1, 'N2': 2, 'N3': 3, 'N4': 4}] *)
Definition level_hierarchy (l : Level) : Z :=
  match l with N1 => 1 | N2 => 2 | N3 => 3 | N4 => 4 end.

(** A thresholds dictionary: some of the four keys may be missing. *)
Definition Thresholds : Type := Level -> option Q.

(** [{'N1': 2, 'N2': 4, 'N3': 8, 'N4': 12}] *)
Definition default_hours (l : Level) : Q :=
  match l with N1 => 2 | N2 => 4 | N3 => 8 | N4 => 12 end.

Definition default_thresholds : Thresholds := fun l => Some (default_hours l).

(** [thresholds.get(level, default)] *)
Definition thresholds_get (thresholds : Thresholds) (l : Level) (default : Q) : Q :=
  match thresholds l with Some q => q | None => default end.

(** The threshold in force for a level: the entry of the dictionary, or
    the default that [_calculate_alert_level] passes to [get]. *)
Definition threshold_of (thresholds : Thresholds) (l : Level) : Q :=
  thresholds_get thresholds l (default_hours l).

(** The value stored under ['last_alert_sent']. *)
Inductive LastAlertSent : Type :=
| Absent                      (* no such key, [None] or an empty string *)
| IsoString (dt : datetime)   (* a string that [fromisoformat] reads as [dt] *)
| NotIso.                     (* any other value: [replace] or [fromisoformat] raises *)

Record EscalationEntry : Type := {
  entry_level : Level;
  entry_timestamp_iso : datetime;
  entry_duration_hours : Z;
  entry_alert_sent : bool
}.

(** A document of the [alert_states] collection, with the fields that
    [_update_alert_state] writes and [_should_escalate] reads (the copies of
    the creation time and of the default thresholds are left out).  The
    levels are those that the detector itself stores. *)
Record AlertState : Type := {
  st_filial : string;
  st_poi_name : string;
  st_poi_normalized : string;
  st_vehicle_plate : string;
  st_vehicle_id : string;
  st_current_level : option Level;
  st_active : bool;                       (* ['state'] is ['active'] *)
  st_first_detection : datetime;
  st_last_updated : datetime;
  st_escalation_history : list EscalationEntry;
  st_alert_count : Z;
  st_last_alert_title : string;
  st_consecutive_hours : Z;
  st_entry_timestamp : option datetime;
  st_actual_duration_hours : Q;
  st_deviation_magnitude : Q;
  st_ttl : datetime;
  st_last_alert_sent : LastAlertSent
}.

(** A row of [_get_active_poi_sessions]. *)
Record Session : Type := {
  vehicle_plate : string;
  vehicle_id : string;
  poi_name : string;
  poi_group : string;
  filial : string;
  entry_timestamp : option datetime;
  duration_hours : Q
}.

Record Deviation : Type := {
  dev_deviation_id : string;
  dev_filial : string;
  dev_poi_name : string;
  dev_poi_normalized : string;
  dev_vehicle_plate : string;
  dev_vehicle_id : string;
  dev_current_level : Level;
  dev_duration_hours : Q;
  dev_threshold_breached : Q;
  dev_detection_timestamp : datetime;
  dev_entry_timestamp : option datetime;
  dev_previous_state : option AlertState;
  dev_confidence_score : Q
}.

Definition special_chars : list string :=
  ["Â¿"; "?"; "-"; "."; "/"; "\"; "("; ")"; "["; "]"]%string.

Definition normalize_poi_name (poi_name : string) : string :=
  let normalized := str_remove " " poi_name in
  fold_left (fun normalized char => str_remove char normalized) special_chars normalized.

(** ['session_key'], as [_get_active_poi_sessions] fills it in. *)
Definition session_key (s : Session) : string :=
  filial s +:+ "_" +:+ normalize_poi_name (poi_name s) +:+ "_" +:+ vehicle_plate s.

Definition _calculate_alert_level (duration_hours : Q) (thresholds : Thresholds)
  : option Level :=
  if Qle_bool (thresholds_get thresholds N4 12) duration_hours then Some N4
  else if Qle_bool (thresholds_get thresholds N3 8) duration_hours then Some N3
  else if Qle_bool (thresholds_get thresholds N2 4) duration_hours then Some N2
  else if Qle_bool (thresholds_get thresholds N1 2) duration_hours then Some N1
  else None.

(** The re-alert rules of [_should_escalate] for an unchanged level. *)
Definition realert_due (new_level : Level) (hours_since_last_alert : Q) : bool :=
  match new_level with
  | N1 => Qle_bool 4 hours_since_last_alert
  | N2 => Qle_bool 2 hours_since_last_alert
  | N3 | N4 => Qle_bool 1 hours_since_last_alert
  end.

Definition _should_escalate (new_level : Level) (current_state : option AlertState)
    (detection_timestamp : datetime) : bool :=
  match current_state with
  | None => true
  | Some st =>
      match st_current_level st with
      | None => true
      | Some current_level =>
          if level_hierarchy current_level <? level_hierarchy new_level then true
          else if Level_eqb new_level current_level then
            match st_last_alert_sent st with
            | Absent => false
            | NotIso => true
            | IsoString last_alert_dt =>
                match dt_sub detection_timestamp last_alert_dt with
                | Raise => true
                | Return us => realert_due new_level (hours_of_us us)
                end
            end
          else false
      end
  end.

Definition _calculate_confidence_score (session : Session)
    (current_state : option AlertState) : Q :=
  let score := 1%Q in
  let score :=
    match entry_timestamp session with
    | None => (score * (7 # 10))%Q
    | Some _ => score
    end in
  let score :=
    if (poi_group session =? "")%string || (poi_group session =? "Unknown")%string
    then (score * (9 # 10))%Q else score in
  let score :=
    match current_state with
    | Some st =>
        if (1 <? length (st_escalation_history st))%nat
        then (score * (11 # 10))%Q else score
    | None => score
    end in
  if Qle_bool score 1 then score else 1%Q.

Definition _analyze_session_for_deviation (session : Session)
    (current_states : gmap string AlertState)
    (poi_thresholds : gmap string Thresholds)
    (detection_timestamp : datetime) : Result (option Deviation) :=
  let thresholds := default default_thresholds (poi_thresholds !! poi_name session) in
  match _calculate_alert_level (duration_hours session) thresholds with
  | None => Return None
  | Some current_level =>
      let current_state := current_states !! session_key session in
      if negb (_should_escalate current_level current_state detection_timestamp)
      then Return None
      else
        let confidence_score := _calculate_confidence_score session current_state in
        match thresholds current_level with
        | None => Raise
        | Some threshold =>
            Return (Some {|
              dev_deviation_id :=
                session_key session +:+ "_" +:+ level_name current_level +:+ "_"
                +:+ strftime_Ymd_HMS detection_timestamp;
              dev_filial := filial session;
              dev_poi_name := poi_name session;
              dev_poi_normalized := normalize_poi_name (poi_name session);
              dev_vehicle_plate := vehicle_plate session;
              dev_vehicle_id := vehicle_id session;
              dev_current_level := current_level;
              dev_duration_hours := duration_hours session;
              dev_threshold_breached := threshold;
              dev_detection_timestamp := detection_timestamp;
              dev_entry_timestamp := entry_timestamp session;
              dev_previous_state := current_state;
              dev_confidence_score := confidence_score
            |})
        end
  end.

(** [_generate_alert_title]; [system_offset] is the UTC offset of the
    machine's local time, which [astimezone] uses for a naive value. *)
Definition _generate_alert_title (system_offset : Z) (deviation : Deviation) : string :=
  let closed_hour :=
    replace_minute_second_microsecond_0 (dev_detection_timestamp deviation) in
  let local_time := astimezone system_offset CAMPO_GRANDE_TZ closed_hour in
  let date_str := strftime_dmY local_time in
  let time_str := strftime_HMS local_time in
  dev_filial deviation +:+ "_" +:+ dev_poi_normalized deviation +:+ "_"
  +:+ level_name (dev_current_level deviation) +:+ "_" +:+ date_str +:+ "_" +:+ time_str.

(** The environment of one run: whether the name [asyncio] is bound when
    the entry point runs (the module imports it only under [__main__]),
    whether the query on [alert_states] succeeds, and, for each deviation,
    whether the BigQuery load job, once its rows are serialised, and the
    Firestore write succeed. *)
Record Services : Type := {
  asyncio_imported : bool;
  firestore_read_ok : bool;
  bigquery_job_ok : Deviation -> bool;
  firestore_write_ok : Deviation -> bool
}.

(** [_get_current_alert_states]: the active documents, or the empty
    dictionary when the query raises. *)
Definition _get_current_alert_states (io : Services)
    (alert_states : gmap string AlertState) : gmap string AlertState :=
  if firestore_read_ok io
  then filter (fun kv => st_active (snd kv) = true) alert_states
  else ∅.

Definition deviation_session_key (deviation : Deviation) : string :=
  dev_filial deviation +:+ "_" +:+ dev_poi_normalized deviation +:+ "_"
  +:+ dev_vehicle_plate deviation.

(** The success path of [_update_alert_state]. *)
Definition _update_alert_state (system_offset : Z) (deviation : Deviation)
    (alert_states : gmap string AlertState) : gmap string AlertState :=
  let session_key := deviation_session_key deviation in
  let escalation_entry := {|
    entry_level := dev_current_level deviation;
    entry_timestamp_iso := dev_detection_timestamp deviation;
    entry_duration_hours := int_of_Q (dev_duration_hours deviation);
    entry_alert_sent := false
  |} in
  match alert_states !! session_key with
  | Some current_data =>
      <[session_key := {|
        st_filial := st_filial current_data;
        st_poi_name := st_poi_name current_data;
        st_poi_normalized := st_poi_normalized current_data;
        st_vehicle_plate := st_vehicle_plate current_data;
        st_vehicle_id := st_vehicle_id current_data;
        st_current_level := Some (dev_current_level deviation);
        st_active := st_active current_data;
        st_first_detection := st_first_detection current_data;
        st_last_updated := dev_detection_timestamp deviation;
        st_escalation_history :=
          st_escalation_history current_data ++ [escalation_entry];
        st_alert_count := st_alert_count current_data + 1;
        st_last_alert_title := _generate_alert_title system_offset deviation;
        st_consecutive_hours := int_of_Q (dev_duration_hours deviation);
        st_entry_timestamp := st_entry_timestamp current_data;
        st_actual_duration_hours := dev_duration_hours deviation;
        st_deviation_magnitude :=
          (dev_duration_hours deviation - dev_threshold_breached deviation)%Q;
        st_ttl := st_ttl current_data;
        st_last_alert_sent := st_last_alert_sent current_data
      |}]> alert_states
  | None =>
      <[session_key := {|
        st_filial := dev_filial deviation;
        st_poi_name := dev_poi_name deviation;
        st_poi_normalized := dev_poi_normalized deviation;
        st_vehicle_plate := dev_vehicle_plate deviation;
        st_vehicle_id := dev_vehicle_id deviation;
        st_current_level := Some (dev_current_level deviation);
        st_active := true;
        st_first_detection := dev_detection_timestamp deviation;
        st_last_updated := dev_detection_timestamp deviation;
        st_escalation_history := [escalation_entry];
        st_alert_count := 1;
        st_last_alert_title := _generate_alert_title system_offset deviation;
        st_consecutive_hours := int_of_Q (dev_duration_hours deviation);
        st_entry_timestamp := dev_entry_timestamp deviation;
        st_actual_duration_hours := dev_duration_hours deviation;
        st_deviation_magnitude :=
          (dev_duration_hours deviation - dev_threshold_breached deviation)%Q;
        st_ttl := dt_add_days (dev_detection_timestamp deviation) 7;
        st_last_alert_sent := Absent
      |}]> alert_states
  end.

(** The Python types of the values of a row, as far as [json.dumps]
    tells them apart. *)
Inductive PyType : Type :=
| py_str | py_list_of_str | py_number | py_bool | py_None
| py_datetime | py_date.

(** [json.dumps] raises TypeError for a [datetime] or a [date] object. *)
Definition json_serializable (t : PyType) : bool :=
  match t with
  | py_datetime | py_date => false
  | _ => true
  end.

(** The keys of [deviation_record] in [store_deviation], each with the type
    of its value. *)
Definition deviation_record (deviation : Deviation) : list (string * PyType) :=
  [("deviation_id", py_str);
   ("detection_timestamp", py_datetime);
   ("filial", py_str);
   ("poi_name", py_str);
   ("poi_group", py_str);
   ("affected_vehicles", py_list_of_str);
   ("deviation_type", py_str);
   ("severity_level", py_str);
   ("threshold_breached", py_str);
   ("actual_value", py_number);
   ("expected_value", py_number);
   ("analysis_window_start",
    match dev_entry_timestamp deviation with
    | Some _ => py_datetime
    | None => py_None
    end);
   ("analysis_window_end", py_datetime);
   ("detection_date", py_date);
   ("alert_count", py_number);
   ("is_resolved", py_bool);
   ("confidence_score", py_number);
   ("alert_title", py_str);
   ("alert_message", py_str)]%string.

(** [load_table_from_json([deviation_record], ...)] followed by
    [job.result()]: the client serialises every row with [json.dumps] before
    it submits the job. *)
Definition bigquery_load_ok (io : Services) (deviation : Deviation) : bool :=
  forallb (fun entry => json_serializable (snd entry)) (deviation_record deviation)
  && bigquery_job_ok io deviation.

(** [store_deviation]: the collection afterwards and the returned flag.
    Building the record formats the entry timestamp, which raises when it
    is missing; a load that raises skips the state update; a failed state
    update is logged inside [_update_alert_state]. *)
Definition store_deviation (system_offset : Z) (io : Services)
    (alert_states : gmap string AlertState) (deviation : Deviation)
  : gmap string AlertState * bool :=
  match dev_entry_timestamp deviation with
  | None => (alert_states, false)
  | Some _ =>
      if bigquery_load_ok io deviation then
        if firestore_write_ok io deviation
        then (_update_alert_state system_offset deviation alert_states, true)
        else (alert_states, true)
      else (alert_states, false)
  end.

(** [detect_deviations], for the sessions that
    [_get_active_poi_sessions] returned and the thresholds that
    [_get_poi_thresholds] returned; a session whose analysis raises is
    skipped. *)
Definition detect_deviations (io : Services) (alert_states : gmap string AlertState)
    (poi_thresholds : gmap string Thresholds) (detection_timestamp : datetime)
    (active_sessions : list Session) : list Deviation :=
  let current_states := _get_current_alert_states io alert_states in
  flat_map
    (fun session =>
       match _analyze_session_for_deviation session current_states poi_thresholds
               detection_timestamp with
       | Return (Some deviation) => [deviation]
       | _ => []
       end)
    active_sessions.

Definition store_deviations (system_offset : Z) (io : Services)
    (alert_states : gmap string AlertState) (deviations : list Deviation)
  : gmap string AlertState :=
  fold_left (fun states deviation => fst (store_deviation system_offset io states deviation))
    deviations alert_states.

(** One run of the entry point [detect_poi_deviations]: the deviations
    handed to the alert manager and the [alert_states] collection
    afterwards.  Where [asyncio] is not bound the first [asyncio.run] raises
    NameError, which the entry point catches: it returns an error status,
    with nothing detected, stored or published. *)
Definition detect_poi_deviations (system_offset : Z) (io : Services)
    (alert_states : gmap string AlertState) (poi_thresholds : gmap string Thresholds)
    (detection_timestamp : datetime) (active_sessions : list Session)
  : list Deviation * gmap string AlertState :=
  if asyncio_imported io then
    let deviations :=
      detect_deviations io alert_states poi_thresholds detection_timestamp
        active_sessions in
    (deviations, store_deviations system_offset io alert_states deviations)
  else ([], alert_states).

(** The inputs of one run. *)
Record Run : Type := {
  run_io : Services;
  run_poi_thresholds : gmap string Thresholds;
  run_detection_timestamp : datetime;
  run_active_sessions : list Session
}.

(** The collection after a sequence of runs. *)
Definition run_all (system_offset : Z) (alert_states : gmap string AlertState)
    (runs : list Run) : gmap string AlertState :=
  fold_left
    (fun states r =>
       snd (detect_poi_deviations system_offset (run_io r) states (run_poi_thresholds r)
              (run_detection_timestamp r) (run_active_sessions r)))
    runs alert_states.

End Detector.

(** ** The SLA evaluator ([sistema_deteccao_desvios_enhanced.py]) *)

Module Enhanced.

Local Open Scope Z_scope.

(** An entry of [veiculos_ativos]. *)
Record Veiculo : Type := {
  placa : string;
  poi : string;
  filial : string;
  grupo : string;
  entrada : datetime;
  tempo_permanencia_horas : Q;
  evento_id : string
}.

(** An entry of [desvios_detectados]. *)
Record Desvio : Type := {
  desvio_filial : string;
  desvio_grupo : string;
  qtd_veiculos : Z;
  limite_sla : Z;
  excesso : Z;
  veiculos : list Veiculo;
  timestamp_verificacao : datetime
}.

(** [self.sla_limites] *)
Definition sla_limites : gmap string (gmap string Z) :=
  {[ "RRP" := {[ "Fábrica" := 6; "Terminal" := 12; "Manutenção" := 12;
                 "Ponto Apoio" := 6 ]};
     "TLS" := {[ "Fábrica" := 5; "Terminal" := 5; "Manutenção" := 10;
                 "Ponto Apoio" := 5 ]} ]}.

Definition pois_rrp : list string :=
  ["Manutencao JSL RRP"; "Carregamento Fabrica RRP"; "Buffer Frotas";
   "Abastecimento Frotas RRP"; "Oficina JSL"; "Posto Mutum"; "Agua Clara";
   "PA AGUA CLARA"; "Descarga Inocencia"; "Manuten¿¿o Geral JSL RRP"]%string.

Definition pois_tls : list string :=
  ["Carregamento Fabrica"; "AREA EXTERNA SUZANO"; "POSTO DE ABASTECIMENTO";
   "Fila abastecimento posto"; "PA Celulose"; "Manutencao Celulose";
   "MONTANINI"; "SELVIRIA"; "FILA DESCARGA APT"; "Descarga TAP";
   "Oficina Central JSL"; "PB Lopes"; "PB LOPES SCANIA"; "MS3 LAVA JATO";
   "REBUCCI"; "CEMAVI"; "FEISCAR"; "DIESELTRONIC"; "LM RADIADORES";
   "ALBINO"; "JDIESEL"; "ADEVAR"]%string.

Definition obter_filial_poi (poi_name : string) : string :=
  if existsb (String.eqb poi_name) pois_rrp then "RRP"
  else if existsb (String.eqb poi_name) pois_tls then "TLS"
  else "DESCONHECIDA".

(** [self.mapeamento_poi_grupo] *)
Definition mapeamento_poi_grupo : list (string * string) :=
  [("Oficina Central JSL", "Manutenção"); ("Carregamento Fabrica", "Fábrica");
   ("FILA DESCARGA APT", "Terminal"); ("Descarga TAP", "Terminal");
   ("PA Celulose", "Ponto Apoio"); ("CEMAVI", "Manutenção");
   ("JDIESEL", "Manutenção"); ("MONTANINI", "Manutenção");
   ("PB Lopes", "Manutenção"); ("PB LOPES SCANIA", "Manutenção");
   ("MS3 LAVA JATO", "Manutenção"); ("ADEVAR", "Manutenção");
   ("REBUCCI", "Manutenção"); ("FEISCAR", "Manutenção");
   ("LM RADIADORES", "Manutenção"); ("ALBINO", "Manutenção");
   ("DIESELTRONIC", "Manutenção"); ("Manutencao Celulose", "Manutenção");
   ("Descarga Inocencia", "Terminal"); ("Carregamento Fabrica RRP", "Fábrica");
   ("Manutencao JSL RRP", "Manutenção"); ("Oficina JSL", "Manutenção");
   ("Manuten¿¿o Geral JSL RRP", "Manutenção"); ("PA AGUA CLARA", "Ponto Apoio")]%string.

(** The classifier of the SLA scripts: the exception for the name with
    broken characters, then the exact entry, then the sentinel. *)
Definition obter_grupo_poi (poi_name : string) : string :=
  if contains "Geral JSL RRP" poi_name && contains "Manuten" poi_name
  then "Manutenção"
  else default "Não Mapeado"%string (dict_get mapeamento_poi_grupo poi_name).

(** [limites.get(filial, {}).get(grupo)] *)
Definition limite_de (limites : gmap string (gmap string Z)) (filial grupo : string)
  : option Z :=
  default ∅ (limites !! filial) !! grupo.

Definition chave_grupo (veiculo : Veiculo) : string :=
  filial veiculo +:+ "_" +:+ grupo veiculo.

(** The second loop of [analisar_desvios_sla], over the groups in
    insertion order; unpacking a key with no underscore raises. *)
Fixpoint verificar_grupos (limites : gmap string (gmap string Z))
    (timestamp : datetime) (grupos_veiculo : list (string * list Veiculo))
  : Result (list Desvio) :=
  match grupos_veiculo with
  | [] => Return []
  | (chave, veiculos_grupo) :: resto =>
      match split_underscore chave with
      | None => Raise
      | Some (filial, grupo) =>
          let qtd := Z.of_nat (length veiculos_grupo) in
          match limite_de limites filial grupo with
          | None => verificar_grupos limites timestamp resto
          | Some limite =>
              if limite <? qtd then
                bind (verificar_grupos limites timestamp resto)
                  (fun desvios =>
                     Return ({| desvio_filial := filial;
                                desvio_grupo := grupo;
                                qtd_veiculos := qtd;
                                limite_sla := limite;
                                excesso := qtd - limite;
                                veiculos := veiculos_grupo;
                                timestamp_verificacao := timestamp |} :: desvios))
              else verificar_grupos limites timestamp resto
          end
      end
  end.

Definition analisar_desvios_sla (limites : gmap string (gmap string Z))
    (veiculos_ativos : list Veiculo) (timestamp_verificacao : datetime)
  : Result (list Desvio) :=
  let grupos_veiculo := group_by chave_grupo veiculos_ativos in
  verificar_grupos limites timestamp_verificacao grupos_veiculo.

(** The group-level ladder of this script, on whole hours in deviation. *)
Definition calcular_proximo_nivel (horas_desvio : Z) : Detector.Level :=
  if 4 <=? horas_desvio then Detector.N4
  else if 2 <=? horas_desvio then Detector.N3
  else if 1 <=? horas_desvio then Detector.N2
  else Detector.N1.

End Enhanced.

(** ** The report generator ([gerar_relatorio_pontos_notaveis.py]) *)

Module Relatorio.

Local Open Scope Z_scope.

(** A processed event, a row of the report. *)
Record Evento : Type := {
  Filial : string;
  Placa_Veiculo : string;
  Descricao_POI : string;
  Grupo_POI : string;
  Data_Entrada : string;
  Data_Saida : string;
  Status : string;
  Duracao : Q;
  Data_Atualizacao : string;
  Customer_Child_Id : string;
  Vehicle_Id : string;
  Fence_Id : string
}.

Section Classifier.

(** [str.lower] *)
Variable lower : string -> string.

(** [obter_grupo_poi], on the table that [carregar_grupos] returns. *)
Definition obter_grupo_poi (grupos : list (string * string))
    (descricao_poi : string) : string :=
  if (match grupos with [] => true | _ => false end)
     || (descricao_poi =? "")%string
  then "Não Classificado"%string
  else
    match dict_get grupos descricao_poi with
    | Some grupo => grupo
    | None =>
        let descricao_lower := lower descricao_poi in
        match
          find (fun entry =>
                  contains (lower (fst entry)) descricao_lower
                  || contains descricao_lower (lower (fst entry)))
            grupos
        with
        | Some (_, grupo) => grupo
        | None => "Não Mapeado"%string
        end
    end.

End Classifier.

Section Consolidation.

(** [datetime.strptime(s, '%d/%m/%Y %H:%M:%S')], in seconds, or nothing
    when it raises; and [round(x, 2)]. *)
Variable strptime : string -> option Z.
Variable round2 : Q -> Q.

(** [datetime.min], in seconds from 1970-01-01T00:00:00. *)
Definition datetime_min : Z := days_from_civil 1 1 1 * 86400.

Definition parse_data (data_str : string) : Z :=
  if (data_str =? "")%string then datetime_min
  else match strptime data_str with
       | Some t => t
       | None => datetime_min
       end.

Definition parse_data_entrada (evento : Evento) : Z := parse_data (Data_Entrada evento).
Definition parse_data_saida (evento : Evento) : Z := parse_data (Data_Saida evento).

Definition calcular_duracao_formatada (data_entrada_str data_saida_str : string) : Q :=
  if (data_entrada_str =? "")%string || (data_saida_str =? "")%string then 0%Q
  else
    match strptime data_entrada_str, strptime data_saida_str with
    | Some entrada, Some saida =>
        let total_segundos := saida - entrada in
        if total_segundos <? 0 then 0%Q
        else round2 (total_segundos # 3600)
    | _, _ => 0%Q
    end.

Definition consolidar_sequencia_poi (sequencia_poi : list Evento) : option Evento :=
  match sequencia_poi with
  | [] => None
  | [evento] => Some evento
  | primeiro_evento :: resto =>
      let ultimo_evento_saida := max_by parse_data_saida primeiro_evento resto in
      Some {|
        Filial := Filial primeiro_evento;
        Placa_Veiculo := Placa_Veiculo primeiro_evento;
        Descricao_POI := Descricao_POI primeiro_evento;
        Grupo_POI := Grupo_POI primeiro_evento;
        Data_Entrada := Data_Entrada primeiro_evento;
        Data_Saida := Data_Saida ultimo_evento_saida;
        Status := str_remove " (Consolidado)" (Status primeiro_evento);
        Duracao :=
          calcular_duracao_formatada (Data_Entrada primeiro_evento)
            (Data_Saida ultimo_evento_saida);
        Data_Atualizacao := Data_Atualizacao ultimo_evento_saida;
        Customer_Child_Id := Customer_Child_Id primeiro_evento;
        Vehicle_Id := Vehicle_Id primeiro_evento;
        Fence_Id := Fence_Id primeiro_evento
      |}
  end.

(** The inner loop: the events that follow at [poi_atual], and what
    remains from the first event at another POI on. *)
Fixpoint sequencia (poi_atual : string) (eventos : list Evento)
  : list Evento * list Evento :=
  match eventos with
  | [] => ([], [])
  | evento_seguinte :: resto =>
      if (Descricao_POI evento_seguinte =? poi_atual)%string
      then let (seq, fim) := sequencia poi_atual resto in (evento_seguinte :: seq, fim)
      else ([], eventos)
  end.

(** The outer loop, with one unit of [fuel] per round. *)
Fixpoint consolidar_sequencias (fuel : nat) (eventos : list Evento) : list Evento :=
  match fuel with
  | O => []
  | S fuel' =>
      match eventos with
      | [] => []
      | evento_atual :: resto =>
          let (seq, fim) := sequencia (Descricao_POI evento_atual) resto in
          let sequencia_poi := evento_atual :: seq in
          (if (1 <? length sequencia_poi)%nat
           then match consolidar_sequencia_poi sequencia_poi with
                | Some evento_consolidado => [evento_consolidado]
                | None => []
                end
           else [evento_atual])
          ++ consolidar_sequencias fuel' fim
      end
  end.

(** What the body of the loop over vehicles appends for one vehicle. *)
Definition consolidar_veiculo (eventos_veiculo : list Evento) : list Evento :=
  let eventos_veiculo := sort_by parse_data_entrada eventos_veiculo in
  consolidar_sequencias (length eventos_veiculo) eventos_veiculo.

Definition consolidar_eventos_consecutivos (eventos_processados : list Evento)
  : list Evento :=
  let eventos_por_veiculo := group_by Placa_Veiculo eventos_processados in
  flat_map (fun entry => consolidar_veiculo (snd entry)) eventos_por_veiculo.

End Consolidation.

End Relatorio.

(** ** The earlier report generator, with related groups
       ([pontos_notaveis_ids_especificos_backup_20250807_131955.py]) *)

Module Backup.

Import Relatorio.
Local Open Scope Z_scope.

Definition GRUPOS_RELACIONADOS : list (list string) :=
  [["Fábrica"; "Carregamento"]; ["Terminal"; "Descarga"]]%string.

(** [grupo in conjunto] *)
Definition no_conjunto (conjunto : list string) (grupo : string) : bool :=
  existsb (String.eqb grupo) conjunto.

Section Consolidation.

Variable strptime : string -> option Z.
Variable round2 : Q -> Q.

(** [consolidar_grupos_relacionados]; [min] of an empty list raises. *)
Definition consolidar_grupos_relacionados (eventos_grupo : list Evento)
    (todos_eventos_relacionados : list Evento) (grupo_nome : string)
  : Result (option Evento) :=
  match eventos_grupo with
  | [] => Return None
  | primeiro_do_grupo :: resto_do_grupo =>
      match todos_eventos_relacionados with
      | [] => Raise
      | t :: ts =>
          let primeiro_evento_relacionado :=
            min_by (parse_data_entrada strptime) t ts in
          let ultimo_evento_grupo :=
            max_by (parse_data_saida strptime) primeiro_do_grupo resto_do_grupo in
          Return (Some {|
            Filial := Filial primeiro_do_grupo;
            Placa_Veiculo := Placa_Veiculo primeiro_do_grupo;
            Descricao_POI := grupo_nome;
            Grupo_POI := Grupo_POI primeiro_do_grupo;
            Data_Entrada := Data_Entrada primeiro_evento_relacionado;
            Data_Saida := Data_Saida ultimo_evento_grupo;
            Status := str_remove " (Consolidado)" (Status primeiro_do_grupo);
            Duracao :=
              calcular_duracao_formatada strptime round2
                (Data_Entrada primeiro_evento_relacionado)
                (Data_Saida ultimo_evento_grupo);
            Data_Atualizacao := Data_Atualizacao ultimo_evento_grupo;
            Customer_Child_Id := Customer_Child_Id primeiro_do_grupo;
            Vehicle_Id := Vehicle_Id primeiro_do_grupo;
            Fence_Id := Fence_Id primeiro_do_grupo
          |})
      end
  end.

(** The body of the loop over the specific groups of a related set. *)
Definition consolidar_grupo_especifico (todos_eventos_relacionados : list Evento)
    (entry : string * list Evento) : Result (list Evento) :=
  let (grupo_nome, eventos_grupo) := entry in
  if (1 <? length eventos_grupo)%nat
     || (length eventos_grupo <? length todos_eventos_relacionados)%nat
  then
    bind (consolidar_grupos_relacionados eventos_grupo todos_eventos_relacionados
            grupo_nome)
      (fun evento_consolidado =>
         match evento_consolidado with
         | Some e => Return [e]
         | None => Return []
         end)
  else
    match eventos_grupo with
    | e :: _ => Return [e]
    | [] => Raise
    end.

(** The body of the loop over [GRUPOS_RELACIONADOS]. *)
Definition consolidar_conjunto (eventos_grupos_relacionados : list Evento)
    (conjunto_relacionado : list string) : Result (list Evento) :=
  let todos_eventos_relacionados :=
    List.filter (fun e => no_conjunto conjunto_relacionado (Grupo_POI e))
      eventos_grupos_relacionados in
  match todos_eventos_relacionados with
  | [] => Return []
  | _ =>
      let grupos_especificos := group_by Grupo_POI todos_eventos_relacionados in
      for_each (consolidar_grupo_especifico todos_eventos_relacionados)
        grupos_especificos
  end.

Definition pertence_grupo_relacionado (evento : Evento) : bool :=
  existsb (fun conjunto => no_conjunto conjunto (Grupo_POI evento)) GRUPOS_RELACIONADOS.

(** What the body of the loop over vehicles appends for one vehicle:
    the related groups first, then the sequences of the other events. *)
Definition consolidar_veiculo (eventos_veiculo : list Evento) : Result (list Evento) :=
  let eventos_veiculo := sort_by (parse_data_entrada strptime) eventos_veiculo in
  let eventos_grupos_relacionados := List.filter pertence_grupo_relacionado eventos_veiculo in
  let eventos_restantes :=
    List.filter (fun e => negb (pertence_grupo_relacionado e)) eventos_veiculo in
  bind (match eventos_grupos_relacionados with
        | [] => Return []
        | _ => for_each (consolidar_conjunto eventos_grupos_relacionados)
                 GRUPOS_RELACIONADOS
        end)
    (fun relacionados =>
       Return (relacionados
               ++ consolidar_sequencias strptime round2 (length eventos_restantes)
                    eventos_restantes)).

Definition consolidar_eventos_consecutivos (eventos_processados : list Evento)
  : Result (list Evento) :=
  let eventos_por_veiculo := group_by Placa_Veiculo eventos_processados in
  for_each (fun entry => consolidar_veiculo (snd entry)) eventos_por_veiculo.

End Consolidation.

End Backup.

(** ** The deviation detector: thresholds configuration and publishing *)

Module DetectorServices.

Import Detector.
Local Open Scope Z_scope.

(** What [data.get('deviation_thresholds', {}).get('escalation_hours', ...)]
    finds in a document of [poi_configurations]. *)
Inductive EscalationHours : Type :=
| NoEscalationHours                     (* a key is missing: the default dictionary *)
| EscalationHoursGiven (th : Thresholds)
| NotADictionary.                       (* ['deviation_thresholds'] has no [get]: it raises *)

Record PoiConfiguration : Type := {
  cfg_poi_name : string;                (* empty when the key is missing or [None] *)
  cfg_escalation_hours : EscalationHours
}.

(** The loop of [_get_poi_thresholds] over the documents. *)
Fixpoint load_thresholds (docs : list PoiConfiguration)
    (thresholds : gmap string Thresholds) : Result (gmap string Thresholds) :=
  match docs with
  | [] => Return thresholds
  | data :: docs' =>
      if (cfg_poi_name data =? "")%string then load_thresholds docs' thresholds
      else
        match cfg_escalation_hours data with
        | NotADictionary => Raise
        | NoEscalationHours =>
            load_thresholds docs' (<[cfg_poi_name data := default_thresholds]> thresholds)
        | EscalationHoursGiven escalation_hours =>
            load_thresholds docs' (<[cfg_poi_name data := escalation_hours]> thresholds)
        end
  end.

(** [_get_poi_thresholds]: whatever raises, the result is the empty
    dictionary. *)
Definition _get_poi_thresholds (read_ok : bool) (docs : list PoiConfiguration)
  : gmap string Thresholds :=
  if read_ok then
    match load_thresholds docs ∅ with
    | Return thresholds => thresholds
    | Raise => ∅
    end
  else ∅.

(** The message published for a deviation (the text of the alert
    message is left out). *)
Record Message : Type := {
  msg_deviation_id : string;
  msg_filial : string;
  msg_poi_name : string;
  msg_poi_normalized : string;
  msg_vehicle_plate : string;
  msg_current_level : Level;
  msg_duration_hours : Q;
  msg_alert_title : string;
  msg_detection_timestamp : datetime;
  msg_confidence_score : Q
}.

(** Building [message_data]: [_generate_alert_message] formats the entry
    timestamp, which raises when there is none. *)
Definition message_data (system_offset : Z) (deviation : Deviation) : Result Message :=
  match dev_entry_timestamp deviation with
  | None => Raise
  | Some _ =>
      Return {|
        msg_deviation_id := dev_deviation_id deviation;
        msg_filial := dev_filial deviation;
        msg_poi_name := dev_poi_name deviation;
        msg_poi_normalized := dev_poi_normalized deviation;
        msg_vehicle_plate := dev_vehicle_plate deviation;
        msg_current_level := dev_current_level deviation;
        msg_duration_hours := dev_duration_hours deviation;
        msg_alert_title := _generate_alert_title system_offset deviation;
        msg_detection_timestamp := dev_detection_timestamp deviation;
        msg_confidence_score := dev_confidence_score deviation
      |}
  end.

(** The loop of [publish_deviation_alerts]: the messages whose publication
    completed, and the count, unless a round raised.  [publish_ok] tells
    whether [publish] and the wait on its future succeed. *)
Fixpoint publish_loop (system_offset : Z) (publish_ok : Deviation -> bool)
    (deviations : list Deviation) (published_count : Z) : list Message * Result Z :=
  match deviations with
  | [] => ([], Return published_count)
  | deviation :: rest =>
      match message_data system_offset deviation with
      | Raise => ([], Raise)
      | Return message =>
          if publish_ok deviation then
            let (sent, count) :=
              publish_loop system_offset publish_ok rest (published_count + 1) in
            (message :: sent, count)
          else ([], Raise)
      end
  end.

(** [publish_deviation_alerts]: the messages published and the returned
    count, which is 0 when anything raised. *)
Definition publish_deviation_alerts (system_offset : Z) (publish_ok : Deviation -> bool)
    (deviations : list Deviation) : list Message * Z :=
  match deviations with
  | [] => ([], 0)
  | _ =>
      let (sent, count) := publish_loop system_offset publish_ok deviations 0 in
      (sent, match count with Return n => n | Raise => 0 end)
  end.

(** The counts that [detect_poi_deviations] reports after detection:
    deviations, stored, published. *)
Definition stored_count (system_offset : Z) (io : Services)
    (alert_states : gmap string AlertState) (deviations : list Deviation) : Z :=
  snd (fold_left
         (fun acc deviation =>
            let (states, n) := acc : gmap string AlertState * Z in
            let (states', ok) := store_deviation system_offset io states deviation in
            (states', if ok then n + 1 else n))
         deviations (alert_states, 0)).

End DetectorServices.

(** ** The SLA script: events of the API, escalation, metrics
       ([sistema_deteccao_desvios_enhanced.py]) *)

Module EnhancedPipeline.

Import Enhanced.
Local Open Scope Z_scope.

(** [self.pois_filtrados = self.pois_rrp | self.pois_tls] *)
Definition pois_filtrados : list string := pois_rrp ++ pois_tls.

(** The value under ['dateInFence']. *)
Inductive DateInFence : Type :=
| NoDate                    (* missing, [None] or empty *)
| IsoDate (dt : datetime)   (* a string that [fromisoformat] reads as [dt] *)
| BadDate.                  (* any other value: [replace] or [fromisoformat] raises *)

(** An event of the API, with the fields that the script reads and the
    defaults of its [get] calls filled in. *)
Record ApiEvento : Type := {
  fenceDescription : string;
  status : Z;
  vehiclePlate : string;
  dateInFence : DateInFence;
  pontoNotavelId : string
}.

(** [janelas_grupo], as [buscar_veiculos_ativos] sets it. *)
Definition janelas_grupo : list (string * Q) :=
  [("Terminal", 24%Q); ("Fábrica", 24%Q); ("Ponto Apoio", 24%Q); ("Manutenção", 72%Q)]%string.

Section Zone.

(** The UTC offset of the machine's local time, which [astimezone] uses for
    a naive value, and the UTC offset of [America/Campo_Grande] at a UTC
    instant, both in microseconds. *)
Variable system_offset : Z.
Variable campo_grande : Z -> Z.

(** [dt.astimezone(CAMPO_GRANDE_TZ)] *)
Definition astimezone_campo_grande (dt : datetime) : datetime :=
  let off := match utcoffset dt with Some o => o | None => system_offset end in
  let utc := wall dt - off in
  {| wall := utc + campo_grande utc; utcoffset := Some (campo_grande utc) |}.

(** The body of the loop of [processar_eventos_api]: what one event
    appends to [veiculos_ativos]. *)
Definition processar_evento (janelas : list (string * Q)) (agora_local : datetime)
    (evento : ApiEvento) : list Veiculo :=
  let poi := fenceDescription evento in
  if negb (existsb (String.eqb poi) pois_filtrados) || negb (status evento =? 1) then []
  else
    let placa := vehiclePlate evento in
    match dateInFence evento with
    | NoDate | BadDate => []
    | IsoDate dt_entrada =>
        if (placa =? "")%string then []
        else
          let entrada_local := astimezone_campo_grande dt_entrada in
          match dt_sub agora_local entrada_local with
          | Raise => []
          | Return us =>
              let tempo_permanencia := hours_of_us us in
              let filial := obter_filial_poi poi in
              let grupo := obter_grupo_poi poi in
              if (grupo =? "Não Mapeado")%string then []
              else
                let janela_grupo := default 24%Q (dict_get janelas grupo) in
                if negb (Qle_bool tempo_permanencia janela_grupo) then []
                else
                  [{| placa := placa;
                      poi := poi;
                      filial := filial;
                      grupo := grupo;
                      entrada := entrada_local;
                      tempo_permanencia_horas := tempo_permanencia;
                      evento_id := pontoNotavelId evento |}]
          end
    end.

Definition processar_eventos_api (eventos : list ApiEvento) (janelas : list (string * Q))
    (agora_local : datetime) : list Veiculo :=
  flat_map (processar_evento janelas agora_local) eventos.

(** The loop of [buscar_veiculos_ativos] over the windows; [api] gives the
    events that the request for a window returns, or nothing when the
    request raises or its status is not 200. *)
Fixpoint tentar_janelas (api : Z -> option (list ApiEvento)) (agora_local : datetime)
    (janelas_horas : list Z) : list Veiculo :=
  match janelas_horas with
  | [] => []
  | janela_horas :: resto =>
      match api janela_horas with
      | Some eventos =>
          let veiculos_ativos := processar_eventos_api eventos janelas_grupo agora_local in
          if 10 <=? Z.of_nat (length veiculos_ativos) then veiculos_ativos
          else tentar_janelas api agora_local resto
      | None => tentar_janelas api agora_local resto
      end
  end.

Definition buscar_veiculos_ativos (token : bool) (api : Z -> option (list ApiEvento))
    (agora_local : datetime) : list Veiculo :=
  if negb token then []
  else tentar_janelas api agora_local [2; 6; 24; 72; 168].

End Zone.

(** *** Escalation *)

(** [dt.strftime('%Y%m%d')] *)
Definition strftime_Ymd (dt : datetime) : string :=
  pad4 (year dt) +:+ pad2 (month dt) +:+ pad2 (day dt).

Definition desvio_key (desvio : Desvio) : string :=
  desvio_filial desvio +:+ "_" +:+ desvio_grupo desvio +:+ "_"
  +:+ strftime_Ymd (timestamp_verificacao desvio).

(** What BigQuery answers about the table [escalacoes_niveis] during a run,
    and the clock: whether [obter_nivel_escalonamento_atual] finds an active
    row for a key (a query that raises finds none), the start of the
    deviation that [obter_horas_desvio] reads in that row (none when there
    is no row or the query raises), and [datetime.now(timezone.utc)] at that
    moment. *)
Record Escalacoes : Type := {
  nivel_atual_ativo : string -> bool;
  timestamp_inicio_desvio : string -> option datetime;
  agora_utc : string -> datetime
}.

Definition obter_horas_desvio (bq : Escalacoes) (desvio_key : string) : Z :=
  match timestamp_inicio_desvio bq desvio_key with
  | None => 1
  | Some inicio =>
      match dt_sub (agora_utc bq desvio_key) inicio with
      | Return us => int_of_Q (hours_of_us us) + 1
      | Raise => 1
      end
  end.

(** [self.niveis_escalonamento[nivel]['acao']] *)
Definition acao (nivel : Detector.Level) : string :=
  match nivel with
  | Detector.N1 => "registro_sistema"
  | Detector.N2 => "notificacao_supervisor"
  | Detector.N3 => "escalonamento_gerencial"
  | Detector.N4 => "escalonamento_executivo"
  end.

Record EventoDesvio : Type := {
  ev_evento_id : string;
  ev_execution_id : string;
  ev_timestamp_verificacao : datetime;
  ev_filial : string;
  ev_grupo : string;
  ev_placa_veiculo : string;
  ev_poi : string;
  ev_qtd_veiculos_grupo : Z;
  ev_limite_sla : Z;
  ev_excesso : Z;
  ev_data_entrada : datetime;
  ev_tempo_permanencia_horas : Q;
  ev_nivel_alerta : Detector.Level;
  ev_status_evento : string;
  ev_acao_realizada : string;
  ev_horas_em_desvio : Z
}.

(** The level and the hours in deviation that
    [processar_escalonamento_niveis] settles for a deviation. *)
Definition nivel_e_horas (bq : Escalacoes) (desvio : Desvio) : Detector.Level * Z :=
  let desvio_key := desvio_key desvio in
  if nivel_atual_ativo bq desvio_key then
    let horas_desvio := obter_horas_desvio bq desvio_key in
    (calcular_proximo_nivel horas_desvio, horas_desvio)
  else (Detector.N1, 1).

(** [processar_escalonamento_niveis]: the events generated (the writes to
    the table are left out). *)
Definition processar_escalonamento_niveis (bq : Escalacoes)
    (desvios_detectados : list Desvio) (execution_id : string) : list EventoDesvio :=
  flat_map
    (fun desvio =>
       let (nivel_atual, horas_desvio) := nivel_e_horas bq desvio in
       map (fun veiculo =>
              {| ev_evento_id :=
                   desvio_key desvio +:+ "_" +:+ Detector.level_name nivel_atual
                   +:+ "_" +:+ execution_id;
                 ev_execution_id := execution_id;
                 ev_timestamp_verificacao := timestamp_verificacao desvio;
                 ev_filial := desvio_filial desvio;
                 ev_grupo := desvio_grupo desvio;
                 ev_placa_veiculo := placa veiculo;
                 ev_poi := poi veiculo;
                 ev_qtd_veiculos_grupo := qtd_veiculos desvio;
                 ev_limite_sla := limite_sla desvio;
                 ev_excesso := excesso desvio;
                 ev_data_entrada := entrada veiculo;
                 ev_tempo_permanencia_horas := tempo_permanencia_horas veiculo;
                 ev_nivel_alerta := nivel_atual;
                 ev_status_evento := "ATIVO";
                 ev_acao_realizada := acao nivel_atual;
                 ev_horas_em_desvio := horas_desvio |})
         (veiculos desvio))
    desvios_detectados.

(** *** Rows and metrics *)

(** A row of the table [veiculos_ativos], with the fields that
    [persistir_veiculos_ativos] computes. *)
Record LinhaVeiculo : Type := {
  linha_placa_veiculo : string;
  linha_poi : string;
  linha_filial : string;
  linha_grupo : string;
  linha_limite_sla : Z;
  linha_qtd_grupo : Z;
  linha_status_sla : string;
  linha_em_desvio : bool
}.

(** The [rows_to_insert] of [persistir_veiculos_ativos]. *)
Definition rows_to_insert (limites : gmap string (gmap string Z))
    (veiculos_ativos : list Veiculo) : list LinhaVeiculo :=
  let grupos_info := group_by chave_grupo veiculos_ativos in
  map (fun veiculo =>
         let limite_sla := default 0 (limite_de limites (filial veiculo) (grupo veiculo)) in
         let qtd_grupo :=
           Z.of_nat (length (default [] (dict_get grupos_info (chave_grupo veiculo)))) in
         let em_desvio := limite_sla <? qtd_grupo in
         {| linha_placa_veiculo := placa veiculo;
            linha_poi := poi veiculo;
            linha_filial := filial veiculo;
            linha_grupo := grupo veiculo;
            linha_limite_sla := limite_sla;
            linha_qtd_grupo := qtd_grupo;
            linha_status_sla := if em_desvio then "DESVIO" else "OK";
            linha_em_desvio := em_desvio |})
    veiculos_ativos.

(** [self.sla_limites.items()], in the order of the source. *)
Definition sla_limites_items : list (string * list (string * Z)) :=
  [("RRP", [("Fábrica", 6); ("Terminal", 12); ("Manutenção", 12); ("Ponto Apoio", 6)]);
   ("TLS", [("Fábrica", 5); ("Terminal", 5); ("Manutenção", 10); ("Ponto Apoio", 5)])]%string.

Record Metrica : Type := {
  m_limite_sla : Z;
  m_qtd_veiculos : Z;
  m_percentual_ocupacao : Q;
  m_em_desvio : bool;
  m_nivel_desvio : option Detector.Level
}.

(** The entry of [calcular_metricas] for a branch and group. *)
Definition metrica_do_grupo (grupos_veiculo : list (string * list Veiculo))
    (desvios_detectados : list Desvio) (filial grupo : string) (limite : Z) : Metrica :=
  let chave_grupo := (filial +:+ "_" +:+ grupo)%string in
  let veiculos_grupo := default [] (dict_get grupos_veiculo chave_grupo) in
  let qtd := Z.of_nat (length veiculos_grupo) in
  let percentual := if 0 <? limite then (inject_Z qtd / inject_Z limite * 100)%Q else 0%Q in
  let em_desvio := limite <? qtd in
  let nivel_desvio :=
    if em_desvio
       && existsb (fun desvio => (desvio_filial desvio =? filial)%string
                                 && (desvio_grupo desvio =? grupo)%string)
            desvios_detectados
    then Some Detector.N1 else None in
  {| m_limite_sla := limite;
     m_qtd_veiculos := qtd;
     m_percentual_ocupacao := percentual;
     m_em_desvio := em_desvio;
     m_nivel_desvio := nivel_desvio |}.

Definition calcular_metricas (veiculos_ativos : list Veiculo)
    (desvios_detectados : list Desvio) : list (string * Metrica) :=
  let grupos_veiculo := group_by chave_grupo veiculos_ativos in
  fold_left
    (fun metricas filial_grupos =>
       fold_left
         (fun metricas grupo_limite =>
            dict_set (fst filial_grupos +:+ "_" +:+ fst grupo_limite)%string
              (metrica_do_grupo grupos_veiculo desvios_detectados (fst filial_grupos)
                 (fst grupo_limite) (snd grupo_limite))
              metricas)
         (snd filial_grupos) metricas)
    sla_limites_items [].

End EnhancedPipeline.

(** ** The SLA script: one detection cycle
       ([sistema_deteccao_desvios_enhanced.py]) *)

Module EnhancedCycle.

Import Enhanced EnhancedPipeline.
Local Open Scope Z_scope.

(** Whether [insert_rows_json] returns for the rows of each table; it
    raises otherwise.  The errors that it returns are only logged. *)
Record Insercoes : Type := {
  insert_veiculos_ativos : list LinhaVeiculo -> bool;
  insert_eventos_desvio : list EventoDesvio -> bool;
  insert_metricas_sla : list (string * Metrica) -> bool
}.

Definition persistir_veiculos_ativos (tabelas : Insercoes)
    (veiculos_ativos : list Veiculo) : Result unit :=
  match veiculos_ativos with
  | [] => Return tt
  | _ =>
      if insert_veiculos_ativos tabelas (rows_to_insert sla_limites veiculos_ativos)
      then Return tt else Raise
  end.

Definition persistir_eventos_desvio (tabelas : Insercoes)
    (eventos_desvio : list EventoDesvio) : Result unit :=
  if insert_eventos_desvio tabelas eventos_desvio then Return tt else Raise.

(** Unpacking [chave_grupo.split('_', 1)] raises for a key with no
    underscore. *)
Definition persistir_metricas_sla (tabelas : Insercoes)
    (metricas : list (string * Metrica)) : Result unit :=
  if forallb (fun entry => match split_underscore (fst entry) with
                           | Some _ => true
                           | None => false
                           end) metricas
  then if insert_metricas_sla tabelas metricas then Return tt else Raise
  else Raise.

Definition persistir_dados_bigquery (tabelas : Insercoes)
    (veiculos_ativos : list Veiculo) (eventos_desvio : list EventoDesvio)
    (metricas : list (string * Metrica)) : Result unit :=
  bind (persistir_veiculos_ativos tabelas veiculos_ativos) (fun _ =>
  bind (match eventos_desvio with
        | [] => Return tt
        | _ => persistir_eventos_desvio tabelas eventos_desvio
        end) (fun _ =>
  persistir_metricas_sla tabelas metricas)).

(** What [executar_deteccao_completa] returns (the processing time is left
    out). *)
Inductive Resultado : Type :=
| SemVeiculos   (* {"total_veiculos": 0, "total_desvios": 0, "total_eventos": 0} *)
| Sucesso (execution_id : string) (timestamp_verificacao : datetime)
    (total_veiculos total_desvios total_eventos : Z).

Definition total_veiculos (resultado : Resultado) : Z :=
  match resultado with SemVeiculos => 0 | Sucesso _ _ n _ _ => n end.
Definition total_desvios (resultado : Resultado) : Z :=
  match resultado with SemVeiculos => 0 | Sucesso _ _ _ n _ => n end.
Definition total_eventos (resultado : Resultado) : Z :=
  match resultado with SemVeiculos => 0 | Sucesso _ _ _ _ n => n end.

(** [executar_deteccao_completa]: [inicio_processamento] and [agora] are
    the clock readings of the cycle, [agora_local] the one of
    [buscar_veiculos_ativos].  Sending the metrics to Cloud Monitoring
    catches its own exceptions and is left out. *)
Definition executar_deteccao_completa (system_offset : Z) (campo_grande : Z -> Z)
    (token : bool) (api : Z -> option (list ApiEvento)) (agora_local : datetime)
    (inicio_processamento agora : datetime) (bq : Escalacoes) (tabelas : Insercoes)
  : Result Resultado :=
  let execution_id := ("exec_" +:+ strftime_Ymd_HMS inicio_processamento)%string in
  let hora_verificacao := replace_minute_second_microsecond_0 agora in
  let veiculos_ativos :=
    buscar_veiculos_ativos system_offset campo_grande token api agora_local in
  match veiculos_ativos with
  | [] => Return SemVeiculos
  | _ =>
      bind (analisar_desvios_sla sla_limites veiculos_ativos hora_verificacao)
        (fun desvios_detectados =>
           let eventos_desvio :=
             match desvios_detectados with
             | [] => []
             | _ => processar_escalonamento_niveis bq desvios_detectados execution_id
             end in
           let metricas := calcular_metricas veiculos_ativos desvios_detectados in
           bind (persistir_dados_bigquery tabelas veiculos_ativos eventos_desvio metricas)
             (fun _ =>
                Return (Sucesso execution_id hora_verificacao
                          (Z.of_nat (length veiculos_ativos))
                          (Z.of_nat (length desvios_detectados))
                          (Z.of_nat (length eventos_desvio)))))
  end.

End EnhancedCycle.

(** ** The report generator: from the events of the API to the rows
       ([gerar_relatorio_pontos_notaveis.py]) *)

Module RelatorioEventos.

Import Relatorio.
Local Open Scope Z_scope.

Definition POIS_RRP : list string :=
  ["Manutencao JSL RRP"; "Carregamento Fabrica RRP"; "Buffer Frotas";
   "Abastecimento Frotas RRP"; "Oficina JSL"; "Posto Mutum"; "Agua Clara";
   "PA AGUA CLARA"; "Descarga Inocencia"; "Manuten¿¿o Geral JSL RRP"]%string.

Definition POIS_TLS : list string :=
  ["Carregamento Fabrica"; "AREA EXTERNA SUZANO"; "POSTO DE ABASTECIMENTO";
   "Fila abastecimento posto"; "PA Celulose"; "Manutencao Celulose";
   "MONTANINI"; "SELVIRIA"; "FILA DESCARGA APT"; "Descarga TAP"; "PB Lopes";
   "Oficina Central JSL"; "PB LOPES SCANIA"; "MS3 LAVA JATO"; "REBUCCI";
   "CEMAVI"; "FEISCAR"; "DIESELTRONIC"; "LM RADIADORES"; "ALBINO"; "JDIESEL";
   "TRUCK LAZER"]%string.

(** [POIS_FILTRADOS = POIS_RRP | POIS_TLS] *)
Definition POIS_FILTRADOS : list string := POIS_RRP ++ POIS_TLS.

Definition obter_filial_poi (descricao_poi : string) : string :=
  if existsb (String.eqb descricao_poi) POIS_RRP then "RRP"
  else if existsb (String.eqb descricao_poi) POIS_TLS then "TLS"
  else if contains "Geral JSL RRP" descricao_poi && contains "Manuten" descricao_poi
       then "RRP"
  else "Desconhecida".

(** An event of the API, with the fields that the script reads, the
    defaults of its [get] calls filled in and [str] applied where the
    script applies it. *)
Record ApiEvento : Type := {
  fenceDescription : string;
  customerChildId : string;
  status : string;
  dateInFence : string;
  dateOutFence : string;
  updatedAt : string;
  vehiclePlate : string;
  vehicleId : string;
  fenceId : string
}.

(** The test of both filters: the POI is in [POIS_FILTRADOS], or it is the
    name with broken characters. *)
Definition deve_incluir (descricao_poi : string) : bool :=
  existsb (String.eqb descricao_poi) POIS_FILTRADOS
  || (contains "Geral JSL RRP" descricao_poi && contains "Manuten" descricao_poi).

(** [buscar_eventos_5hrs]: the filtered events of the pages received until
    the loop ends (the last page, a status other than 200, or an
    exception). *)
Definition buscar_eventos_5hrs (token : bool) (paginas : list (list ApiEvento))
  : list ApiEvento :=
  if negb token then []
  else flat_map (List.filter (fun evento => deve_incluir (fenceDescription evento)))
         paginas.

Section Processing.

(** [str.lower], the table of [carregar_grupos], the local time of an ISO
    string formatted as day/month/year hour:minute:second (nothing when
    reading it raises), [strptime] on that format and [round(x, 2)]. *)
Variable lower : string -> string.
Variable grupos : list (string * string).
Variable strftime_local : string -> option string.
Variable strptime : string -> option Z.
Variable round2 : Q -> Q.

Definition formatar_data_local (data_iso : string) : string :=
  if (data_iso =? "")%string then ""%string
  else match strftime_local data_iso with
       | Some local => local
       | None => data_iso
       end.

Definition status_desc (status_code : string) : string :=
  if (status_code =? "0")%string then "Saiu da cerca"
  else if (status_code =? "1")%string then "Entrou na cerca"
  else ("Status " +:+ status_code)%string.

(** The body of the loop of [processar_eventos]: what one event appends. *)
Definition processar_evento (evento : ApiEvento) : list Evento :=
  let descricao_poi := fenceDescription evento in
  if negb (deve_incluir descricao_poi) then []
  else
    let data_entrada := dateInFence evento in
    let data_saida := dateOutFence evento in
    let data_update := updatedAt evento in
    let duracao :=
      calcular_duracao_formatada strptime round2 (formatar_data_local data_entrada)
        (formatar_data_local data_saida) in
    [{| Filial := obter_filial_poi descricao_poi;
        Placa_Veiculo := vehiclePlate evento;
        Descricao_POI := descricao_poi;
        Grupo_POI := obter_grupo_poi lower grupos descricao_poi;
        Data_Entrada := formatar_data_local data_entrada;
        Data_Saida := formatar_data_local data_saida;
        Status := status_desc (status evento);
        Duracao := duracao;
        Data_Atualizacao := formatar_data_local data_update;
        Customer_Child_Id := customerChildId evento;
        Vehicle_Id := vehicleId evento;
        Fence_Id := fenceId evento |}].

Definition processar_eventos (eventos : list ApiEvento) : list Evento :=
  flat_map processar_evento eventos.

End Processing.

End RelatorioEventos.

(** * The vocabulary of the properties

    Predicates and functions that say, in the words of the specification,
    what the embedded code is compared with; and sample data. *)

Module PySpec.

Local Open Scope Z_scope.

Section Keyed.

Context {A : Type}.
Variable key : A -> Z.

(** Every element is at most those that follow it. *)
Fixpoint sorted_by (l : list A) : Prop :=
  match l with
  | [] => True
  | x :: l' => Forall (fun y => key x <= key y) l' /\ sorted_by l'
  end.

End Keyed.

End PySpec.

Module DetectorSpec.

Import Detector.
Local Open Scope Z_scope.

(** The ladder used where nothing is configured: 2, 4, 8 and 12 hours. *)
Definition ladder_hours (l : Level) : Q :=
  match l with N1 => 2 | N2 => 4 | N3 => 8 | N4 => 12 end.

(** The threshold in force for a level, read off the dictionary itself:
    the hours configured under the level, or the hours of the ladder where
    the dictionary has no entry for the level. *)
Definition threshold_in_force (thresholds : Thresholds) (l : Level) : Q :=
  match thresholds l with
  | Some hours => hours
  | None => ladder_hours l
  end.

(** The dwell meets the threshold in force for the level. *)
Definition met (thresholds : Thresholds) (duration_hours : Q) (l : Level) : Prop :=
  (threshold_in_force thresholds l <= duration_hours)%Q.

(** The thresholds do not decrease from [N1] to [N4]. *)
Definition thresholds_ordered (thresholds : Thresholds) : Prop :=
  (threshold_in_force thresholds N1 <= threshold_in_force thresholds N2)%Q
  /\ (threshold_in_force thresholds N2 <= threshold_in_force thresholds N3)%Q
  /\ (threshold_in_force thresholds N3 <= threshold_in_force thresholds N4)%Q.


(** The single characters that [normalize_poi_name] removes after the
    space and the two-character sequence. *)
Definition punctuation : list ascii :=
  ["?"; "-"; "."; "/"; "\"; "("; ")"; "["; "]"]%char.

(** Two instants on the same kind of clock within one clock hour. *)
Definition same_clock_hour (a b : datetime) : Prop :=
  utcoffset a = utcoffset b /\ wall a / us_per_hour = wall b / us_per_hour.

(** The score in the words of its description: a baseline of 1, the
    factors that apply, capped at 1. *)
Definition confidence_of (entry_missing group_unknown repeated : bool) : Q :=
  Qmin 1 (1 * (if entry_missing then 7 # 10 else 1)
            * (if group_unknown then 9 # 10 else 1)
            * (if repeated then 11 # 10 else 1)).

Definition entry_missing (session : Session) : bool :=
  match entry_timestamp session with None => true | Some _ => false end.

Definition group_unknown (session : Session) : bool :=
  (poi_group session =? "")%string || (poi_group session =? "Unknown")%string.

Definition repeated_pattern (current_state : option AlertState) : bool :=
  match current_state with
  | Some st => (1 <? length (st_escalation_history st))%nat
  | None => false
  end.

End DetectorSpec.

Module EnhancedSpec.

Import Enhanced.
Local Open Scope Z_scope.

(** What the loop of [analisar_desvios_sla] appends for one group. *)
Definition desvio_do_grupo (limites : gmap string (gmap string Z))
    (timestamp : datetime) (entry : string * list Veiculo) : list Desvio :=
  match split_underscore (fst entry) with
  | None => []
  | Some (filial, grupo) =>
      let qtd := Z.of_nat (length (snd entry)) in
      match limite_de limites filial grupo with
      | None => []
      | Some limite =>
          if limite <? qtd then
            [{| desvio_filial := filial; desvio_grupo := grupo; qtd_veiculos := qtd;
                limite_sla := limite; excesso := qtd - limite;
                veiculos := snd entry; timestamp_verificacao := timestamp |}]
          else []
      end
  end.

(** The deviation records of a given branch and group. *)
Definition do_grupo (filial grupo : string) (desvio : Desvio) : bool :=
  (desvio_filial desvio =? filial)%string && (desvio_grupo desvio =? grupo)%string.

(** The vehicles of a given branch and group. *)
Definition no_grupo (f g : string) (veiculo : Veiculo) : bool :=
  (filial veiculo =? f)%string && (grupo veiculo =? g)%string.

End EnhancedSpec.

Module RelatorioSpec.

Import Relatorio.
Local Open Scope Z_scope.

Section Classifier.

Variable lower : string -> string.

(** A table key and a POI name match when, in lower case, one is part
    of the other. *)
Definition coincide (descricao_poi poi : string) : bool :=
  contains (lower poi) (lower descricao_poi)
  || contains (lower descricao_poi) (lower poi).

End Classifier.

Section Consolidation.

Variable strptime : string -> option Z.
Variable round2 : Q -> Q.

(** A run: its first event and the events that follow it. *)
Definition Run : Type := Evento * list Evento.

Definition eventos_da_run (r : Run) : list Evento := fst r :: snd r.

Definition mesma_poi (r : Run) : Prop :=
  Forall (fun e => Descricao_POI e = Descricao_POI (fst r)) (snd r).

(** Consecutive runs, each at one POI, neighbours at different POIs. *)
Fixpoint runs_maximais (rs : list Run) : Prop :=
  match rs with
  | [] => True
  | r :: rs' =>
      mesma_poi r
      /\ match rs' with
         | r' :: _ => Descricao_POI (fst r') <> Descricao_POI (fst r)
         | [] => True
         end
      /\ runs_maximais rs'
  end.

(** The maximal runs of a list of events. *)
Fixpoint runs_de (eventos : list Evento) : list Run :=
  match eventos with
  | [] => []
  | e :: resto =>
      match runs_de resto with
      | (e', es') :: rs =>
          if (Descricao_POI e' =? Descricao_POI e)%string
          then (e, e' :: es') :: rs
          else (e, []) :: (e', es') :: rs
      | [] => [(e, [])]
      end
  end.

(** The session that stands for a run: the run's only event, or its
    first event with the exit and the update time of the event that
    left last, and the duration between the two. *)
Definition sessao_da_run (r : Run) : Evento :=
  match snd r with
  | [] => fst r
  | _ :: _ =>
      let ultimo := max_by (parse_data_saida strptime) (fst r) (snd r) in
      {| Filial := Filial (fst r);
         Placa_Veiculo := Placa_Veiculo (fst r);
         Descricao_POI := Descricao_POI (fst r);
         Grupo_POI := Grupo_POI (fst r);
         Data_Entrada := Data_Entrada (fst r);
         Data_Saida := Data_Saida ultimo;
         Status := str_remove " (Consolidado)" (Status (fst r));
         Duracao :=
           calcular_duracao_formatada strptime round2 (Data_Entrada (fst r))
             (Data_Saida ultimo);
         Data_Atualizacao := Data_Atualizacao ultimo;
         Customer_Child_Id := Customer_Child_Id (fst r);
         Vehicle_Id := Vehicle_Id (fst r);
         Fence_Id := Fence_Id (fst r) |}
  end.

End Consolidation.

End RelatorioSpec.

Module BackupSpec.

Import Relatorio Backup RelatorioSpec.
Local Open Scope Z_scope.

Section Consolidation.

Variable strptime : string -> option Z.
Variable round2 : Q -> Q.

(** The session of a specific group within its related set: the first
    event of the group, renamed after the group, from the entry of
    [primeiro] to the exit of [ultimo]. *)
Definition sessao_consolidada (grupo_nome : string)
    (primeiro_do_grupo primeiro ultimo : Evento) : Evento :=
  {| Filial := Filial primeiro_do_grupo;
     Placa_Veiculo := Placa_Veiculo primeiro_do_grupo;
     Descricao_POI := grupo_nome;
     Grupo_POI := Grupo_POI primeiro_do_grupo;
     Data_Entrada := Data_Entrada primeiro;
     Data_Saida := Data_Saida ultimo;
     Status := str_remove " (Consolidado)" (Status primeiro_do_grupo);
     Duracao :=
       calcular_duracao_formatada strptime round2 (Data_Entrada primeiro)
         (Data_Saida ultimo);
     Data_Atualizacao := Data_Atualizacao ultimo;
     Customer_Child_Id := Customer_Child_Id primeiro_do_grupo;
     Vehicle_Id := Vehicle_Id primeiro_do_grupo;
     Fence_Id := Fence_Id primeiro_do_grupo |}.

(** What a specific group contributes, given all the events of its
    related set. *)
Definition sessoes_do_grupo (todos : list Evento) (entry : string * list Evento)
  : list Evento :=
  match snd entry, todos with
  | e0 :: er, t0 :: tr =>
      if (1 <? length (e0 :: er))%nat || (length (e0 :: er) <? length todos)%nat
      then [sessao_consolidada (fst entry) e0 (min_by (parse_data_entrada strptime) t0 tr)
              (max_by (parse_data_saida strptime) e0 er)]
      else [e0]
  | _, _ => []
  end.

Definition todos_do_conjunto (conjunto : list string) (eventos : list Evento)
  : list Evento :=
  List.filter (fun e => no_conjunto conjunto (Grupo_POI e)) eventos.

Definition sessoes_do_conjunto (eventos : list Evento) (conjunto : list string)
  : list Evento :=
  flat_map (sessoes_do_grupo (todos_do_conjunto conjunto eventos))
    (group_by Grupo_POI (todos_do_conjunto conjunto eventos)).

(** The result for one vehicle, spelled out. *)
Definition saida_do_veiculo (eventos_veiculo : list Evento) : list Evento :=
  let ordenados := sort_by (parse_data_entrada strptime) eventos_veiculo in
  flat_map (sessoes_do_conjunto ordenados) GRUPOS_RELACIONADOS
  ++ map (sessao_da_run strptime round2)
       (runs_de (List.filter (fun e => negb (pertence_grupo_relacionado e))
                   ordenados)).

End Consolidation.

End BackupSpec.

(** ** Sample data *)

Module Sample.

Import Detector.
Local Open Scope Z_scope.

Definition t0 : datetime := datetime_of 2025 8 7 10 0 0.
Definition plus_minutes (dt : datetime) (m : Z) : datetime :=
  {| wall := wall dt + m * 60 * us_per_second; utcoffset := utcoffset dt |}.

Definition session (dwell : Q) : Session := {|
  vehicle_plate := "ABC1D23";
  vehicle_id := "42";
  poi_name := "Carregamento Fabrica RRP";
  poi_group := "Fábrica";
  filial := "RRP";
  entry_timestamp := Some (datetime_of 2025 8 7 5 0 0);
  duration_hours := dwell
|}.

Definition key : string := "RRP_CarregamentoFabricaRRP_ABC1D23".

Definition state (l : Level) (last : LastAlertSent) : AlertState := {|
  st_filial := "RRP";
  st_poi_name := "Carregamento Fabrica RRP";
  st_poi_normalized := "CarregamentoFabricaRRP";
  st_vehicle_plate := "ABC1D23";
  st_vehicle_id := "42";
  st_current_level := Some l;
  st_active := true;
  st_first_detection := t0;
  st_last_updated := t0;
  st_escalation_history :=
    [{| entry_level := l; entry_timestamp_iso := t0; entry_duration_hours := 4;
        entry_alert_sent := true |}];
  st_alert_count := 1;
  st_last_alert_title := "RRP_CarregamentoFabricaRRP_N2_07082025_060000";
  st_consecutive_hours := 4;
  st_entry_timestamp := Some (datetime_of 2025 8 7 5 0 0);
  st_actual_duration_hours := 4;
  st_deviation_magnitude := 0;
  st_ttl := dt_add_days t0 7;
  st_last_alert_sent := last
|}.

(** The deviation that the analysis of [session 5] emits at
    [detection_timestamp] when there is no prior state. *)
Definition deviation (detection_timestamp : datetime) : Deviation := {|
  dev_deviation_id :=
    key +:+ "_N2_" +:+ strftime_Ymd_HMS detection_timestamp;
  dev_filial := "RRP";
  dev_poi_name := "Carregamento Fabrica RRP";
  dev_poi_normalized := "CarregamentoFabricaRRP";
  dev_vehicle_plate := "ABC1D23";
  dev_vehicle_id := "42";
  dev_current_level := N2;
  dev_duration_hours := 5;
  dev_threshold_breached := 4;
  dev_detection_timestamp := detection_timestamp;
  dev_entry_timestamp := Some (datetime_of 2025 8 7 5 0 0);
  dev_previous_state := None;
  dev_confidence_score := 1
|}.

Definition all_up : Services := {|
  asyncio_imported := true;
  firestore_read_ok := true;
  bigquery_job_ok := fun _ => true;
  firestore_write_ok := fun _ => true
|}.

Definition lookup_down : Services := {|
  asyncio_imported := true;
  firestore_read_ok := false;
  bigquery_job_ok := fun _ => true;
  firestore_write_ok := fun _ => true
|}.

End Sample.

Module SampleSLA.

Import Enhanced.
Local Open Scope Z_scope.

Definition veiculo (n : Z) : Veiculo := {|
  placa := "ABC1D" +:+ pad2 n;
  poi := "Carregamento Fabrica RRP";
  filial := "RRP";
  grupo := "Fábrica";
  entrada := datetime_of 2025 8 7 5 0 0;
  tempo_permanencia_horas := 3;
  evento_id := pad4 n
|}.

Definition seis : list Veiculo := map veiculo [1; 2; 3; 4; 5; 6].
Definition sete : list Veiculo := map veiculo [1; 2; 3; 4; 5; 6; 7].
Definition agora : datetime := datetime_of 2025 8 7 10 0 0.

End SampleSLA.

Module SampleGrupos.

Local Open Scope Z_scope.

(** [str.lower] on ASCII letters. *)
Definition lower_char (c : ascii) : ascii :=
  let n := nat_of_ascii c in
  if (65 <=? n)%nat && (n <=? 90)%nat then ascii_of_nat (n + 32) else c.

Fixpoint lower (s : string) : string :=
  match s with
  | EmptyString => EmptyString
  | String c s' => String (lower_char c) (lower s')
  end.

Definition grupos : list (string * string) :=
  [("Carregamento Fabrica RRP", "Fábrica"); ("Descarga Inocencia", "Terminal");
   ("Oficina JSL", "Manutenção")]%string.

End SampleGrupos.

Module SampleEventos.

Import Relatorio.
Local Open Scope Z_scope.

Definition digit_value (c : ascii) : option Z :=
  let n := nat_of_ascii c in
  if (48 <=? n)%nat && (n <=? 57)%nat then Some (Z.of_nat n - 48) else None.

Definition two_digits (a b : ascii) : option Z :=
  match digit_value a, digit_value b with
  | Some x, Some y => Some (10 * x + y)
  | _, _ => None
  end.

(** [strptime] on texts of the exact shape [dd/mm/yyyy HH:MM:SS]. *)
Definition strptime (s : string) : option Z :=
  match list_ascii_of_string s with
  | [d1; d2; s1; m1; m2; s2; y1; y2; y3; y4; sp; H1; H2; c1; M1; M2; c2; S1; S2] =>
      if Ascii.eqb s1 "/" && Ascii.eqb s2 "/" && Ascii.eqb sp " "
         && Ascii.eqb c1 ":" && Ascii.eqb c2 ":"
      then
        match two_digits d1 d2, two_digits m1 m2, two_digits y1 y2, two_digits y3 y4,
              two_digits H1 H2, two_digits M1 M2, two_digits S1 S2 with
        | Some d, Some m, Some yh, Some yl, Some hh, Some mi, Some ss =>
            Some (days_from_civil (100 * yh + yl) m d * 86400 + hh * 3600 + mi * 60 + ss)
        | _, _, _, _, _, _, _ => None
        end
      else None
  | _ => None
  end.

(** Rounding to hundredths, halves up. *)
Definition round2 (q : Q) : Q :=
  Qred (((Qnum q * 200 + Zpos (Qden q)) / (2 * Zpos (Qden q))) # 100).

Definition evento (poi grupo entrada saida : string) : Evento := {|
  Filial := "RRP";
  Placa_Veiculo := "ABC1D23";
  Descricao_POI := poi;
  Grupo_POI := grupo;
  Data_Entrada := entrada;
  Data_Saida := saida;
  Status := "Saiu da cerca";
  Duracao := 0;
  Data_Atualizacao := saida;
  Customer_Child_Id := "39450";
  Vehicle_Id := "42";
  Fence_Id := "7"
|}.

Definition a : Evento :=
  evento "Oficina JSL" "Manutenção" "07/08/2025 10:00:00" "07/08/2025 10:20:00".
Definition b : Evento :=
  evento "Oficina JSL" "Manutenção" "07/08/2025 08:00:00" "07/08/2025 09:30:00".
Definition c : Evento :=
  evento "Oficina JSL" "Manutenção" "07/08/2025 09:40:00" "07/08/2025 11:45:00".

End SampleEventos.

Module SampleRelacionados.

Import Relatorio SampleEventos.

(** A vehicle that entered the loading area, then the factory gate next
    to it, twice. *)
Definition carregamento : Evento :=
  evento "Carregamento Fabrica RRP" "Carregamento" "07/08/2025 08:00:00"
    "07/08/2025 08:30:00".
Definition fabrica1 : Evento :=
  evento "Fabrica RRP" "Fábrica" "07/08/2025 08:10:00" "07/08/2025 09:00:00".
Definition fabrica2 : Evento :=
  evento "Fabrica RRP" "Fábrica" "07/08/2025 09:05:00" "07/08/2025 10:15:00".

End SampleRelacionados.

(** ** Vocabulary of the further properties *)

Module DetectorServicesSpec.

Import Detector DetectorServices.
Local Open Scope Z_scope.




(** The deviation can be published: it has an entry timestamp and the
    publication succeeds. *)
Definition publishable (publish_ok : Deviation -> bool) (deviation : Deviation) : bool :=
  match dev_entry_timestamp deviation with
  | Some _ => publish_ok deviation
  | None => false
  end.

(** The longest prefix whose elements satisfy [f]. *)
Fixpoint take_while {A : Type} (f : A -> bool) (l : list A) : list A :=
  match l with
  | [] => []
  | x :: l' => if f x then x :: take_while f l' else []
  end.

(** The document under the key is stored and not active. *)
Definition inactive_at (k : string) (states : gmap string AlertState) : Prop :=
  exists st, states !! k = Some st /\ st_active st = false.

(** The messages of the deviations that have an entry timestamp. *)
Definition messages (so : Z) (ds : list Deviation) : list Message :=
  flat_map (fun d => match message_data so d with Return m => [m] | Raise => [] end) ds.

(** A configuration document that has a name; one whose thresholds are
    not a dictionary; the thresholds that a document gives. *)
Definition named (data : PoiConfiguration) : bool :=
  negb (cfg_poi_name data =? "")%string.

Definition malformed (data : PoiConfiguration) : bool :=
  named data
  && match cfg_escalation_hours data with NotADictionary => true | _ => false end.

Definition thresholds_of (data : PoiConfiguration) : Thresholds :=
  match cfg_escalation_hours data with
  | EscalationHoursGiven th => th
  | _ => default_thresholds
  end.

(** The record of the deviation can be built and its load succeeds. *)
Definition loaded (io : Services) (deviation : Deviation) : bool :=
  match dev_entry_timestamp deviation with
  | Some _ => bigquery_load_ok io deviation
  | None => false
  end.

End DetectorServicesSpec.

Module EnhancedPipelineSpec.

Import Enhanced EnhancedSpec EnhancedPipeline.
Local Open Scope Z_scope.

(** The groups that have an SLA. *)
Definition grupos_com_sla : list string :=
  ["Fábrica"; "Terminal"; "Manutenção"; "Ponto Apoio"]%string.

(** A vehicle as [processar_eventos_api] lets it through. *)
Definition veiculo_valido (janelas : list (string * Q)) (veiculo : Veiculo) : Prop :=
  In (poi veiculo) pois_filtrados
  /\ placa veiculo <> ""%string
  /\ filial veiculo = obter_filial_poi (poi veiculo)
  /\ (filial veiculo = "RRP"%string \/ filial veiculo = "TLS"%string)
  /\ grupo veiculo = obter_grupo_poi (poi veiculo)
  /\ In (grupo veiculo) grupos_com_sla
  /\ is_Some (limite_de sla_limites (filial veiculo) (grupo veiculo))
  /\ (tempo_permanencia_horas veiculo <= default 24 (dict_get janelas (grupo veiculo)))%Q.

(** The number of vehicles of a branch and group. *)
Definition qtd_no_grupo (veiculos : list Veiculo) (f g : string) : Z :=
  Z.of_nat (length (List.filter (no_grupo f g) veiculos)).

(** The branches, groups and limits of [sla_limites], in its order. *)
Definition grupos_sla : list (string * string * Z) :=
  [("RRP", "Fábrica", 6); ("RRP", "Terminal", 12); ("RRP", "Manutenção", 12);
   ("RRP", "Ponto Apoio", 6); ("TLS", "Fábrica", 5); ("TLS", "Terminal", 5);
   ("TLS", "Manutenção", 10); ("TLS", "Ponto Apoio", 5)]%string.

(** The metrics of a group, from the count of its vehicles alone. *)
Definition metrica_esperada (veiculos : list Veiculo) (fgl : string * string * Z)
  : string * Metrica :=
  let '(f, g, limite) := fgl in
  let qtd := qtd_no_grupo veiculos f g in
  ((f +:+ "_" +:+ g)%string,
   {| m_limite_sla := limite;
      m_qtd_veiculos := qtd;
      m_percentual_ocupacao := (inject_Z qtd / inject_Z limite * 100)%Q;
      m_em_desvio := limite <? qtd;
      m_nivel_desvio := if limite <? qtd then Some Detector.N1 else None |}).

(** The event generated for a vehicle of a deviation at a level. *)
Definition evento_do_veiculo (execution_id : string) (desvio : Desvio)
    (nivel : Detector.Level) (horas : Z) (veiculo : Veiculo) : EventoDesvio :=
  {| ev_evento_id :=
       desvio_key desvio +:+ "_" +:+ Detector.level_name nivel +:+ "_" +:+ execution_id;
     ev_execution_id := execution_id;
     ev_timestamp_verificacao := timestamp_verificacao desvio;
     ev_filial := desvio_filial desvio;
     ev_grupo := desvio_grupo desvio;
     ev_placa_veiculo := placa veiculo;
     ev_poi := poi veiculo;
     ev_qtd_veiculos_grupo := qtd_veiculos desvio;
     ev_limite_sla := limite_sla desvio;
     ev_excesso := excesso desvio;
     ev_data_entrada := entrada veiculo;
     ev_tempo_permanencia_horas := tempo_permanencia_horas veiculo;
     ev_nivel_alerta := nivel;
     ev_status_evento := "ATIVO";
     ev_acao_realizada := acao nivel;
     ev_horas_em_desvio := horas |}.

End EnhancedPipelineSpec.

Module ConsolidationSpec.

Import Relatorio.

(** The result of the consolidation, vehicle by vehicle. *)
Definition por_veiculo (strptime : string -> option Z) (round2 : Q -> Q)
    (eventos_processados : list Evento) : list (string * list Evento) :=
  map (fun entry => (fst entry, consolidar_veiculo strptime round2 (snd entry)))
    (group_by Placa_Veiculo eventos_processados).

End ConsolidationSpec.

Module EnhancedCycleSpec.

(** The keys of the eight branch and group pairs of [sla_limites]. *)
Definition chaves_sla : list string :=
  ["RRP_Fábrica"; "RRP_Terminal"; "RRP_Manutenção"; "RRP_Ponto Apoio";
   "TLS_Fábrica"; "TLS_Terminal"; "TLS_Manutenção"; "TLS_Ponto Apoio"]%string.

End EnhancedCycleSpec.

Module RelatorioEventosSpec.

Import Relatorio RelatorioEventos.

(** The branch of the POI is known. *)
Definition filial_conhecida (descricao_poi : string) : bool :=
  negb (obter_filial_poi descricao_poi =? "Desconhecida")%string.

(** A row whose branch is the branch of its POI, RRP or TLS. *)
Definition da_filial (evento : Evento) : Prop :=
  Filial evento = obter_filial_poi (Descricao_POI evento)
  /\ (Filial evento = "RRP"%string \/ Filial evento = "TLS"%string).

End RelatorioEventosSpec.

(** ** Sample data of the further properties *)

Module SampleRuns.

Import Detector.

Definition run (dwell : Q) (minutes : Z) : Detector.Run := {|
  run_io := Sample.all_up;
  run_poi_thresholds := ∅;
  run_detection_timestamp := Sample.plus_minutes Sample.t0 minutes;
  run_active_sessions := [Sample.session dwell]
|}.

End SampleRuns.

Module SamplePipeline.

Import Enhanced EnhancedPipeline.
Local Open Scope Z_scope.

(** Campo Grande at UTC-4 throughout. *)
Definition campo_grande (utc : Z) : Z := timezone (-4).

Definition utc (y m d H M S : Z) : datetime :=
  {| wall := wall (datetime_of y m d H M S); utcoffset := Some 0 |}.

Definition agora_local : datetime :=
  astimezone_campo_grande 0 campo_grande (utc 2025 8 7 14 0 0).

Definition evento (n : Z) : ApiEvento := {|
  fenceDescription := "Carregamento Fabrica";
  status := 1;
  vehiclePlate := "ABC1D" +:+ pad2 n;
  dateInFence := IsoDate (utc 2025 8 7 9 0 0);
  pontoNotavelId := pad4 n
|}.

(** Six vehicles at the TLS factory, whose limit is five. *)
Definition seis_eventos : list ApiEvento := map evento [1; 2; 3; 4; 5; 6].

Definition api (janela_horas : Z) : option (list ApiEvento) := Some seis_eventos.

Definition desvio (ts : datetime) : Desvio := {|
  desvio_filial := "TLS";
  desvio_grupo := "Fábrica";
  qtd_veiculos := 6;
  limite_sla := 5;
  excesso := 1;
  veiculos := processar_eventos_api 0 campo_grande seis_eventos janelas_grupo agora_local;
  timestamp_verificacao := ts
|}.

Definition inicio : datetime := utc 2025 8 7 14 0 0.

(** An active escalation that started at [inicio], read [minutos] later. *)
Definition escalacoes (minutos : Z) : Escalacoes := {|
  nivel_atual_ativo := fun _ => true;
  timestamp_inicio_desvio := fun _ => Some inicio;
  agora_utc := fun _ =>
    {| wall := wall inicio + minutos * 60 * us_per_second; utcoffset := Some 0 |}
|}.

End SamplePipeline.

Module SampleCycle.

Import Enhanced EnhancedPipeline EnhancedCycle.
Local Open Scope Z_scope.

(** Ten vehicles at the TLS factory, whose limit is five. *)
Definition dez_eventos : list ApiEvento :=
  map SamplePipeline.evento [1; 2; 3; 4; 5; 6; 7; 8; 9; 10].

Definition api (janela_horas : Z) : option (list ApiEvento) := Some dez_eventos.

Definition tabelas : Insercoes := {|
  insert_veiculos_ativos := fun _ => true;
  insert_eventos_desvio := fun _ => true;
  insert_metricas_sla := fun _ => true
|}.

End SampleCycle.

(** * Lemmas *)

(** ** Facts about the built-ins *)

Module PyFacts.

Lemma prefix_empty (s : string) : String.prefix "" s = true.
Proof. destruct s; reflexivity. Qed.

Lemma contains_underscore_cons (c : ascii) (s : string) :
  contains "_" (String c s) = Ascii.eqb c "_" || contains "_" s.
Proof.
  cbn [contains String.prefix]. rewrite prefix_empty.
  destruct (ascii_dec "_" c) as [<-|Hne]; [reflexivity|].
  destruct (Ascii.eqb c "_") eqn:E; [|reflexivity].
  apply Ascii.eqb_eq in E. congruence.
Qed.

Lemma split_underscore_app (a b : string) :
  contains "_" a = false ->
  split_underscore (a +:+ "_" +:+ b) = Some (a, b).
Proof.
  induction a as [|c a IH]; intros H.
  - reflexivity.
  - rewrite contains_underscore_cons in H. apply orb_false_elim in H as [Hc Ha].
    simpl. rewrite Hc, (IH Ha). reflexivity.
Qed.

Lemma split_underscore_inv (s a b : string) :
  split_underscore s = Some (a, b) -> s = (a +:+ "_" +:+ b)%string.
Proof.
  revert a. induction s as [|c s IH]; simpl; intros a H; [discriminate|].
  destruct (Ascii.eqb c "_") eqn:E.
  - apply Ascii.eqb_eq in E. subst c. inversion H; subst. reflexivity.
  - destruct (split_underscore s) as [[a' b']|] eqn:Es; [|discriminate].
    inversion H; subst. rewrite (IH a' eq_refl) at 1. reflexivity.
Qed.

Section Dict.

Context {A : Type}.

Lemma dict_get_append (k k' : string) (x : A) (d : list (string * list A)) :
  dict_get (dict_append k x d) k' =
  if String.eqb k k' then Some (default [] (dict_get d k) ++ [x])
  else dict_get d k'.
Proof.
  induction d as [|[k0 xs] d IH]; simpl.
  - rewrite String.eqb_sym. destruct (String.eqb k' k); reflexivity.
  - destruct (String.eqb k0 k) eqn:E0; simpl.
    + apply String.eqb_eq in E0. subst k0.
      destruct (String.eqb k k') eqn:E; reflexivity.
    + destruct (String.eqb k0 k') eqn:E1.
      * apply String.eqb_eq in E1. subst k0. rewrite String.eqb_sym, E0.
        reflexivity.
      * apply IH.
Qed.

Lemma keys_append (k : string) (x : A) (d : list (string * list A)) :
  map fst (dict_append k x d) =
  if existsb (String.eqb k) (map fst d) then map fst d else map fst d ++ [k].
Proof.
  induction d as [|[k0 xs] d IH]; simpl; [reflexivity|].
  rewrite (String.eqb_sym k k0).
  destruct (String.eqb k0 k) eqn:E0; simpl; [reflexivity|].
  rewrite IH. destruct (existsb (String.eqb k) (map fst d)); reflexivity.
Qed.

Lemma existsb_eqb_In (k : string) (l : list string) :
  existsb (String.eqb k) l = true <-> In k l.
Proof.
  rewrite existsb_exists. split.
  - intros (y & Hy & E). apply String.eqb_eq in E. subst. exact Hy.
  - intros H. exists k. split; [exact H | apply String.eqb_refl].
Qed.

Variable key : A -> string.

Lemma group_by_snoc (l : list A) (x : A) :
  group_by key (l ++ [x]) = dict_append (key x) x (group_by key l).
Proof. unfold group_by. rewrite fold_left_app. reflexivity. Qed.

(** The group under [k] holds the elements whose key is [k], in the
    order of the list; a key is present only when some element has it. *)
Lemma dict_get_group_by (l : list A) (k : string) :
  dict_get (group_by key l) k =
  match List.filter (fun x => String.eqb (key x) k) l with
  | [] => None
  | xs => Some xs
  end.
Proof.
  induction l as [|x l IH] using rev_ind; [reflexivity|].
  rewrite group_by_snoc, dict_get_append, List.filter_app. simpl.
  destruct (String.eqb (key x) k) eqn:E.
  - apply String.eqb_eq in E. subst k. rewrite IH.
    destruct (List.filter (fun x0 => String.eqb (key x0) (key x)) l); reflexivity.
  - rewrite IH, app_nil_r. reflexivity.
Qed.

Lemma NoDup_keys_group_by (l : list A) : List.NoDup (map fst (group_by key l)).
Proof.
  induction l as [|x l IH] using rev_ind; [apply List.NoDup_nil|].
  rewrite group_by_snoc, keys_append.
  destruct (existsb (String.eqb (key x)) (map fst (group_by key l))) eqn:E;
    [exact IH|].
  apply List.NoDup_app; auto.
  - constructor; [intros []|constructor].
  - intros y Hy [Hx|[]]. subst y.
    apply existsb_eqb_In in Hy. congruence.
Qed.

End Dict.

Lemma dict_get_In {V : Type} (d : list (string * V)) (k : string) (v : V) :
  dict_get d k = Some v -> In (k, v) d.
Proof.
  induction d as [|[k0 v0] d IH]; simpl; [discriminate|].
  destruct (String.eqb k0 k) eqn:E.
  - apply String.eqb_eq in E. intros H. inversion H; subst. left. reflexivity.
  - intros H. right. auto.
Qed.

Lemma In_dict_get {V : Type} (d : list (string * V)) (k : string) (v : V) :
  List.NoDup (map fst d) -> In (k, v) d -> dict_get d k = Some v.
Proof.
  induction d as [|[k0 v0] d IH]; simpl; [intros _ []|].
  intros Hnd [H|H].
  - inversion H; subst. rewrite String.eqb_refl. reflexivity.
  - inversion Hnd as [|? ? Hni Hnd']; subst.
    destruct (String.eqb k0 k) eqn:E.
    + apply String.eqb_eq in E. subst k0. exfalso. apply Hni.
      change k with (fst (k, v)). apply in_map. exact H.
    + auto.
Qed.

End PyFacts.

Module PySorting.

Import PySpec.
Local Open Scope Z_scope.

Section Keyed.

Context {A : Type}.
Variable key : A -> Z.

Lemma min_by_In (best : A) (l : list A) : In (min_by key best l) (best :: l).
Proof.
  revert best. induction l as [|x l IH]; intros best; simpl; [auto|].
  destruct (IH (if key x <? key best then x else best)) as [H|H].
  - rewrite <- H. destruct (key x <? key best); auto.
  - auto.
Qed.

Lemma min_by_le (best : A) (l : list A) (x : A) :
  In x (best :: l) -> key (min_by key best l) <= key x.
Proof.
  revert best x. induction l as [|y l IH]; intros best x Hin; simpl.
  - destruct Hin as [<-|[]]. lia.
  - assert (Hb : key (min_by key (if key y <? key best then y else best) l)
                 <= key (if key y <? key best then y else best))
      by (apply IH; left; reflexivity).
    destruct Hin as [<-|[<-|Hin]].
    + destruct (key y <? key best) eqn:E; [apply Z.ltb_lt in E|]; lia.
    + destruct (key y <? key best) eqn:E; [|apply Z.ltb_ge in E]; lia.
    + apply IH. right. exact Hin.
Qed.

Lemma max_by_In (best : A) (l : list A) : In (max_by key best l) (best :: l).
Proof.
  revert best. induction l as [|x l IH]; intros best; simpl; [auto|].
  destruct (IH (if key best <? key x then x else best)) as [H|H].
  - rewrite <- H. destruct (key best <? key x); auto.
  - auto.
Qed.

Lemma max_by_ge (best : A) (l : list A) (x : A) :
  In x (best :: l) -> key x <= key (max_by key best l).
Proof.
  revert best x. induction l as [|y l IH]; intros best x Hin; simpl.
  - destruct Hin as [<-|[]]. lia.
  - assert (Hb : key (if key best <? key y then y else best)
                 <= key (max_by key (if key best <? key y then y else best) l))
      by (apply IH; left; reflexivity).
    destruct Hin as [<-|[<-|Hin]].
    + destruct (key best <? key y) eqn:E; [apply Z.ltb_lt in E|]; lia.
    + destruct (key best <? key y) eqn:E; [|apply Z.ltb_ge in E]; lia.
    + apply IH. right. exact Hin.
Qed.

Lemma insert_by_perm (x : A) (l : list A) : Permutation (insert_by key x l) (x :: l).
Proof.
  induction l as [|y l IH]; simpl; [reflexivity|].
  destruct (key x <=? key y); [reflexivity|].
  rewrite IH. apply perm_swap.
Qed.

Lemma sort_by_perm (l : list A) : Permutation (sort_by key l) l.
Proof.
  induction l as [|x l IH]; simpl; [reflexivity|].
  rewrite insert_by_perm. apply perm_skip. exact IH.
Qed.

Lemma insert_by_sorted (x : A) (l : list A) :
  sorted_by key l -> sorted_by key (insert_by key x l).
Proof.
  induction l as [|y l IH]; simpl; [auto|].
  intros [Hy Hl]. destruct (key x <=? key y) eqn:E.
  - apply Z.leb_le in E. simpl. repeat split; auto.
    constructor; [exact E|].
    eapply List.Forall_impl; [|exact Hy]. simpl. intros; lia.
  - apply Z.leb_gt in E. simpl. split; [|auto].
    rewrite List.Forall_forall. intros z Hz.
    apply (Permutation_in _ (insert_by_perm x l)) in Hz as [<-|Hz]; [lia|].
    rewrite List.Forall_forall in Hy. apply Hy. exact Hz.
Qed.

Lemma sort_by_sorted (l : list A) : sorted_by key (sort_by key l).
Proof.
  induction l as [|x l IH]; simpl; [exact I|]. apply insert_by_sorted. exact IH.
Qed.

Lemma sort_by_length (l : list A) : length (sort_by key l) = length l.
Proof. apply Permutation_length, sort_by_perm. Qed.

Lemma sort_by_In (l : list A) (x : A) : In x (sort_by key l) <-> In x l.
Proof.
  split; apply Permutation_in; [|symmetry]; apply sort_by_perm.
Qed.

Lemma sorted_by_app (l1 l2 : list A) :
  sorted_by key (l1 ++ l2) -> sorted_by key l1 /\ sorted_by key l2.
Proof.
  induction l1 as [|x l1 IH]; simpl; [auto|].
  intros [Hx Hl]. apply IH in Hl as [H1 H2].
  apply List.Forall_app in Hx as [Hx1 _]. auto.
Qed.

Lemma sorted_by_filter (f : A -> bool) (l : list A) :
  sorted_by key l -> sorted_by key (List.filter f l).
Proof.
  induction l as [|x l IH]; simpl; [auto|].
  intros [Hx Hl]. destruct (f x); simpl; [split|]; auto.
  rewrite List.Forall_forall in Hx |- *. intros y Hy. apply Hx.
  apply filter_In in Hy as [Hy _]. exact Hy.
Qed.

(** On a sorted list [min] picks the first element. *)
Lemma min_by_sorted (x : A) (l : list A) :
  sorted_by key (x :: l) -> min_by key x l = x.
Proof.
  revert x. induction l as [|y l IH]; intros x; simpl; [reflexivity|].
  intros (Hx & Hy & Hl). inversion Hx as [|? ? Hxy Hxl]; subst.
  destruct (key y <? key x) eqn:E; [apply Z.ltb_lt in E; lia|].
  apply IH. simpl. auto.
Qed.

End Keyed.

Lemma for_each_Return {A B : Type} (f : A -> Result (list B)) (g : A -> list B)
    (l : list A) :
  (forall x, In x l -> f x = Return (g x)) ->
  for_each f l = Return (flat_map g l).
Proof.
  induction l as [|x l IH]; intros H; [reflexivity|].
  cbn [for_each flat_map]. rewrite (H x) by (left; reflexivity).
  rewrite IH by (intros y Hy; apply H; right; exact Hy). reflexivity.
Qed.

Lemma filter_filter {A : Type} (f g : A -> bool) (l : list A) :
  List.filter f (List.filter g l) = List.filter (fun x => g x && f x) l.
Proof.
  induction l as [|x l IH]; [reflexivity|]. simpl.
  destruct (g x); simpl; [destruct (f x)|]; rewrite ?IH; reflexivity.
Qed.

Lemma filter_none {A : Type} (f : A -> bool) (l : list A) :
  (forall x, In x l -> f x = false) -> List.filter f l = [].
Proof.
  induction l as [|x l IH]; intros H; [reflexivity|]. simpl.
  rewrite (H x) by (left; reflexivity). apply IH. intros y Hy. apply H. right. exact Hy.
Qed.

End PySorting.

(** ** The deviation detector *)

Module DetectorFacts.

Import Detector DetectorSpec PyFacts.
Local Open Scope Z_scope.

Lemma Qle_bool_false (x y : Q) : Qle_bool x y = false <-> ~ (x <= y)%Q.
Proof.
  rewrite <- Qle_bool_iff. destruct (Qle_bool x y); split; intros H; auto;
    try discriminate. exfalso. apply H. reflexivity.
Qed.

Ltac level_cascade :=
  unfold _calculate_alert_level, met, threshold_in_force, ladder_hours, thresholds_get in *;
  repeat match goal with
    | |- context [Qle_bool ?a ?b] =>
        let E := fresh "E" in
        destruct (Qle_bool a b) eqn:E;
        [apply Qle_bool_iff in E | apply Qle_bool_false in E]
    end.

Lemma calculate_alert_level_Some (d : Q) (th : Thresholds) (l : Level) :
  _calculate_alert_level d th = Some l <->
  met th d l /\ forall l', level_hierarchy l < level_hierarchy l' -> ~ met th d l'.
Proof.
  split.
  - intros H. split.
    + revert H. level_cascade; intros H; inversion H; subst; assumption.
    + intros l' Hl'. revert H. level_cascade; intros H; inversion H; subst;
        destruct l'; simpl in Hl'; try lia; assumption.
  - intros [Hm Hh].
    assert (H4 := Hh N4). assert (H3 := Hh N3). assert (H2 := Hh N2).
    revert Hm H4 H3 H2. clear Hh.
    level_cascade; destruct l; simpl; intros Hm H4 H3 H2; try reflexivity;
      exfalso; first [ apply H4; [lia | assumption]
                     | apply H3; [lia | assumption]
                     | apply H2; [lia | assumption]
                     | contradiction ].
Qed.

Lemma calculate_alert_level_None (d : Q) (th : Thresholds) :
  _calculate_alert_level d th = None <-> forall l, ~ met th d l.
Proof.
  split.
  - intros H l. revert H. level_cascade; intros H; try discriminate.
    destruct l; assumption.
  - intros H. assert (H4 := H N4). assert (H3 := H N3). assert (H2 := H N2).
    assert (H1 := H N1). revert H1 H2 H3 H4. clear H.
    level_cascade; intros; try reflexivity; contradiction.
Qed.

Lemma below_N1_no_level (d : Q) (th : Thresholds) :
  thresholds_ordered th -> (d < threshold_in_force th N1)%Q ->
  _calculate_alert_level d th = None.
Proof.
  intros (H12 & H23 & H34) Hd. apply calculate_alert_level_None.
  intros l Hm. unfold met in Hm. destruct l; lra.
Qed.

Lemma default_thresholds_ordered : thresholds_ordered default_thresholds.
Proof. repeat split; unfold Qle; simpl; lia. Qed.

(** The default ladder. *)
Lemma default_ladder (d : Q) :
  (_calculate_alert_level d default_thresholds = None <-> (d < 2)%Q)
  /\ (_calculate_alert_level d default_thresholds = Some N1 <-> (2 <= d /\ d < 4)%Q)
  /\ (_calculate_alert_level d default_thresholds = Some N2 <-> (4 <= d /\ d < 8)%Q)
  /\ (_calculate_alert_level d default_thresholds = Some N3 <-> (8 <= d /\ d < 12)%Q)
  /\ (_calculate_alert_level d default_thresholds = Some N4 <-> (12 <= d)%Q).
Proof.
  unfold _calculate_alert_level, default_thresholds, thresholds_get, default_hours.
  repeat match goal with
    | |- context [Qle_bool ?a ?b] =>
        let E := fresh "E" in
        destruct (Qle_bool a b) eqn:E;
        [apply Qle_bool_iff in E | apply Qle_bool_false in E]
    end;
    repeat split; intros; try discriminate; try reflexivity; try lra;
    exfalso; lra.
Qed.

(** A session whose analysis yields nothing leaves no trace in a run. *)
Lemma detect_deviations_skip io states th ts pre session post :
  (forall d, _analyze_session_for_deviation session
               (_get_current_alert_states io states) th ts <> Return (Some d)) ->
  detect_deviations io states th ts (pre ++ session :: post) =
  detect_deviations io states th ts (pre ++ post).
Proof.
  intros H. unfold detect_deviations. rewrite !flat_map_app. simpl.
  destruct (_analyze_session_for_deviation _ _ _ _) as [[d|]|] eqn:E;
    try reflexivity.
  exfalso. eapply H. reflexivity.
Qed.

Lemma detect_poi_deviations_skip so io states th ts pre session post :
  (forall d, _analyze_session_for_deviation session
               (_get_current_alert_states io states) th ts <> Return (Some d)) ->
  detect_poi_deviations so io states th ts (pre ++ session :: post) =
  detect_poi_deviations so io states th ts (pre ++ post).
Proof.
  intros H. unfold detect_poi_deviations.
  rewrite (detect_deviations_skip _ _ _ _ _ _ _ H). reflexivity.
Qed.

Lemma analyze_no_level session states th ts :
  _calculate_alert_level (duration_hours session)
    (default default_thresholds (th !! poi_name session)) = None ->
  _analyze_session_for_deviation session states th ts = Return None.
Proof. intros H. unfold _analyze_session_for_deviation. rewrite H. reflexivity. Qed.

(** *** The escalation decision *)



Lemma Level_eqb_refl (a : Level) : Level_eqb a a = true.
Proof. destruct a; reflexivity. Qed.

Lemma level_hierarchy_inj (a b : Level) :
  level_hierarchy a = level_hierarchy b -> a = b.
Proof. destruct a, b; simpl; intros H; try reflexivity; lia. Qed.




(** At an unchanged level: no stored time of the last alert, no alert; a
    stored value that is not an ISO string, or one on a clock of the other
    kind (aware against naive), and the alert goes out whatever the time
    elapsed. *)
Lemma should_escalate_no_last_alert new st ts :
  st_current_level st = Some new -> st_last_alert_sent st = Absent ->
  _should_escalate new (Some st) ts = false.
Proof.
  intros Hc Hl. unfold _should_escalate.
  rewrite Hc, Z.ltb_irrefl, Level_eqb_refl, Hl. reflexivity.
Qed.

Lemma should_escalate_unreadable_last_alert new st ts :
  st_current_level st = Some new ->
  st_last_alert_sent st = NotIso
  \/ (exists last, st_last_alert_sent st = IsoString last /\ dt_sub ts last = Raise) ->
  _should_escalate new (Some st) ts = true.
Proof.
  intros Hc Hl. unfold _should_escalate. rewrite Hc, Z.ltb_irrefl, Level_eqb_refl.
  destruct Hl as [->|(last & -> & ->)]; reflexivity.
Qed.

(** What an emitted deviation says about the session and the decision. *)
Lemma analyze_emits session states th ts d :
  _analyze_session_for_deviation session states th ts = Return (Some d) ->
  deviation_session_key d = session_key session
  /\ _calculate_alert_level (duration_hours session)
       (default default_thresholds (th !! poi_name session))
     = Some (dev_current_level d)
  /\ _should_escalate (dev_current_level d) (states !! session_key session) ts = true
  /\ dev_previous_state d = states !! session_key session
  /\ dev_entry_timestamp d = entry_timestamp session.
Proof.
  unfold _analyze_session_for_deviation.
  destruct (_calculate_alert_level _ _) as [l|] eqn:El; [|discriminate].
  destruct (_should_escalate l _ ts) eqn:Es; simpl; [|discriminate].
  destruct (default default_thresholds (th !! poi_name session) l) as [q|];
    [|discriminate].
  intros H. inversion H; subst; clear H. simpl. auto.
Qed.


Lemma analyze_alerts session states th ts l q :
  _calculate_alert_level (duration_hours session)
    (default default_thresholds (th !! poi_name session)) = Some l ->
  default default_thresholds (th !! poi_name session) l = Some q ->
  _should_escalate l (states !! session_key session) ts = true ->
  exists d, _analyze_session_for_deviation session states th ts = Return (Some d)
            /\ dev_current_level d = l
            /\ dev_previous_state d = states !! session_key session.
Proof.
  intros Hl Hq Hs. unfold _analyze_session_for_deviation. rewrite Hl, Hs, Hq. simpl.
  eexists. split; [reflexivity|]. simpl. auto.
Qed.

Lemma in_detect_deviations io states th ts sessions d :
  In d (detect_deviations io states th ts sessions) <->
  exists session, In session sessions
    /\ _analyze_session_for_deviation session (_get_current_alert_states io states)
         th ts = Return (Some d).
Proof.
  unfold detect_deviations. rewrite in_flat_map. split.
  - intros (s & Hs & Hd). exists s. split; [exact Hs|].
    destruct (_analyze_session_for_deviation _ _ _ _) as [[d'|]|]; simpl in Hd;
      try contradiction.
    destruct Hd as [->|[]]. reflexivity.
  - intros (s & Hs & Hd). exists s. split; [exact Hs|]. rewrite Hd. left. reflexivity.
Qed.


Lemma current_states_failed io states k :
  firestore_read_ok io = false ->
  _get_current_alert_states io states !! k = None.
Proof.
  intros Hr. unfold _get_current_alert_states. rewrite Hr. apply lookup_empty.
Qed.

(** *** Stored levels along a run *)

Lemma update_alert_state_other so d states k :
  deviation_session_key d <> k ->
  _update_alert_state so d states !! k = states !! k.
Proof.
  intros Hne. unfold _update_alert_state.
  destruct (states !! deviation_session_key d); apply lookup_insert_ne; exact Hne.
Qed.

(** The load never succeeds: the row holds [datetime] objects, which
    cannot be serialised. *)
Lemma bigquery_load_never io d : bigquery_load_ok io d = false.
Proof. reflexivity. Qed.

Lemma store_deviation_never so io states d :
  store_deviation so io states d = (states, false).
Proof.
  unfold store_deviation. rewrite bigquery_load_never.
  destruct (dev_entry_timestamp d); reflexivity.
Qed.

Lemma store_deviations_never so io ds states :
  store_deviations so io states ds = states.
Proof.
  unfold store_deviations. induction ds as [|d ds IH]; [reflexivity|].
  cbn [fold_left]. rewrite store_deviation_never. exact IH.
Qed.

Lemma run_never so io states th ts sessions :
  snd (detect_poi_deviations so io states th ts sessions) = states.
Proof.
  unfold detect_poi_deviations. destruct (asyncio_imported io); [|reflexivity].
  apply store_deviations_never.
Qed.

Lemma run_all_never so runs states : run_all so states runs = states.
Proof.
  unfold run_all. induction runs as [|r runs IH]; [reflexivity|].
  cbn [fold_left]. rewrite run_never. exact IH.
Qed.

(** *** Normalisation and titles *)

Lemma str_remove_char (c : ascii) (s : string) :
  str_remove (String c EmptyString) s = str_filter (fun x => negb (Ascii.eqb x c)) s.
Proof.
  unfold str_remove. induction s as [|x s IH]; [reflexivity|].
  cbn [remove_from str_filter String.prefix String.length Nat.sub].
  rewrite prefix_empty.
  destruct (ascii_dec c x) as [<-|Hne].
  - rewrite Ascii.eqb_refl. simpl. exact IH.
  - destruct (Ascii.eqb x c) eqn:E.
    + apply Ascii.eqb_eq in E. congruence.
    + simpl. rewrite IH. reflexivity.
Qed.

Lemma str_filter_filter (f g : ascii -> bool) (s : string) :
  str_filter f (str_filter g s) = str_filter (fun c => g c && f c) s.
Proof.
  induction s as [|x s IH]; [reflexivity|]. simpl.
  destruct (g x); simpl; [destruct (f x)|]; rewrite ?IH; reflexivity.
Qed.

Lemma str_filter_ext (f g : ascii -> bool) (s : string) :
  (forall c, f c = g c) -> str_filter f s = str_filter g s.
Proof.
  intros H. induction s as [|x s IH]; [reflexivity|]. simpl.
  rewrite H, IH. reflexivity.
Qed.

Lemma normalize_poi_name_closed_form (poi_name : string) :
  normalize_poi_name poi_name =
  str_filter (fun c => negb (existsb (Ascii.eqb c) punctuation))
    (str_remove "Â¿" (str_filter (fun c => negb (Ascii.eqb c " ")) poi_name)).
Proof.
  unfold normalize_poi_name, special_chars. cbn [fold_left].
  rewrite !str_remove_char, !str_filter_filter.
  apply str_filter_ext. intros c. unfold punctuation. cbn [existsb].
  rewrite !negb_orb, !andb_assoc. simpl. rewrite andb_true_r. reflexivity.
Qed.

Lemma closed_hour_eq (a b : datetime) :
  same_clock_hour a b ->
  replace_minute_second_microsecond_0 a = replace_minute_second_microsecond_0 b.
Proof.
  intros [Ho Hw]. unfold replace_minute_second_microsecond_0. rewrite Ho. f_equal.
  assert (Hh : us_per_hour <> 0) by (vm_compute; discriminate).
  rewrite !Z.mod_eq by exact Hh. rewrite Hw. lia.
Qed.

(** *** The confidence score *)

Lemma confidence_score_eq (session : Session) (current_state : option AlertState) :
  (_calculate_confidence_score session current_state ==
   confidence_of (entry_missing session) (group_unknown session)
     (repeated_pattern current_state))%Q.
Proof.
  unfold _calculate_confidence_score, confidence_of, entry_missing, group_unknown,
    repeated_pattern.
  destruct (entry_timestamp session);
    destruct ((poi_group session =? "")%string || (poi_group session =? "Unknown")%string);
    destruct current_state as [st|];
    try destruct (1 <? length (st_escalation_history st))%nat;
    vm_compute; reflexivity.
Qed.

Lemma confidence_of_range (a b c : bool) :
  (0 < confidence_of a b c /\ confidence_of a b c <= 1)%Q.
Proof. destruct a, b, c; vm_compute; split; congruence. Qed.

End DetectorFacts.

(** ** The SLA evaluator *)

Module EnhancedFacts.

Import Enhanced EnhancedSpec PyFacts.
Local Open Scope Z_scope.

Lemma verificar_grupos_flat_map limites ts grupos_veiculo :
  (forall entry, In entry grupos_veiculo -> split_underscore (fst entry) <> None) ->
  verificar_grupos limites ts grupos_veiculo
  = Return (flat_map (desvio_do_grupo limites ts) grupos_veiculo).
Proof.
  induction grupos_veiculo as [|[k vs] d IH]; intros Hall; [reflexivity|].
  cbn [verificar_grupos flat_map]. unfold desvio_do_grupo at 1. cbn [fst snd].
  assert (Hk : split_underscore k <> None) by (apply (Hall (k, vs)); left; reflexivity).
  destruct (split_underscore k) as [[f g]|]; [|congruence].
  rewrite IH by (intros e He; apply Hall; right; exact He).
  destruct (limite_de limites f g) as [lim|]; [|reflexivity].
  destruct (lim <? Z.of_nat (length vs)); reflexivity.
Qed.

Lemma filter_desvio_do_grupo_other limites ts k vs f g :
  k <> (f +:+ "_" +:+ g)%string ->
  List.filter (do_grupo f g) (desvio_do_grupo limites ts (k, vs)) = [].
Proof.
  intros Hne. unfold desvio_do_grupo. cbn [fst snd].
  destruct (split_underscore k) as [[f' g']|] eqn:Es; [|reflexivity].
  destruct (limite_de limites f' g'); [|reflexivity].
  destruct (_ <? _); [|reflexivity].
  cbn [List.filter]. unfold do_grupo. cbn [desvio_filial desvio_grupo].
  destruct (String.eqb_spec f' f) as [->|]; [|reflexivity].
  destruct (String.eqb_spec g' g) as [->|]; [|reflexivity].
  apply split_underscore_inv in Es. congruence.
Qed.

Lemma filter_desvio_do_grupo_same limites ts vs f g :
  contains "_" f = false ->
  List.filter (do_grupo f g) (desvio_do_grupo limites ts ((f +:+ "_" +:+ g)%string, vs))
  = desvio_do_grupo limites ts ((f +:+ "_" +:+ g)%string, vs).
Proof.
  intros Hf. unfold desvio_do_grupo. cbn [fst snd].
  rewrite (split_underscore_app f g Hf).
  destruct (limite_de limites f g); [|reflexivity].
  destruct (_ <? _); [|reflexivity].
  cbn [List.filter]. unfold do_grupo. cbn [desvio_filial desvio_grupo].
  rewrite !String.eqb_refl. reflexivity.
Qed.

Lemma filter_flat_map_grupo limites ts (d : list (string * list Veiculo)) f g :
  contains "_" f = false ->
  List.NoDup (map fst d) ->
  List.filter (do_grupo f g) (flat_map (desvio_do_grupo limites ts) d)
  = match dict_get d (f +:+ "_" +:+ g)%string with
    | Some vs => desvio_do_grupo limites ts ((f +:+ "_" +:+ g)%string, vs)
    | None => []
    end.
Proof.
  intros Hf. induction d as [|[k vs] d IH]; intros Hnd; [reflexivity|].
  inversion Hnd as [|? ? Hni Hnd']; subst.
  cbn [flat_map dict_get]. rewrite List.filter_app, (IH Hnd').
  destruct (String.eqb_spec k (f +:+ "_" +:+ g)%string) as [->|Hne].
  - rewrite (filter_desvio_do_grupo_same _ _ _ _ _ Hf).
    destruct (dict_get d (f +:+ "_" +:+ g)%string) as [vs'|] eqn:Eg.
    + exfalso. apply Hni. apply dict_get_In in Eg.
      change (f +:+ "_" +:+ g)%string with (fst ((f +:+ "_" +:+ g)%string, vs')).
      apply in_map. exact Eg.
    + apply app_nil_r.
  - rewrite filter_desvio_do_grupo_other by exact Hne. reflexivity.
Qed.

Lemma chave_grupo_eqb veiculo f g :
  contains "_" (filial veiculo) = false -> contains "_" f = false ->
  String.eqb (chave_grupo veiculo) (f +:+ "_" +:+ g)%string = no_grupo f g veiculo.
Proof.
  intros Hv Hf. unfold no_grupo, chave_grupo.
  destruct (String.eqb_spec (filial veiculo +:+ "_" +:+ grupo veiculo)
              (f +:+ "_" +:+ g)%string) as [E|E].
  - pose proof (split_underscore_app _ (grupo veiculo) Hv) as H1.
    rewrite E, (split_underscore_app f g Hf) in H1. inversion H1; subst.
    rewrite !String.eqb_refl. reflexivity.
  - destruct (String.eqb_spec (filial veiculo) f) as [Ef|]; [|reflexivity].
    destruct (String.eqb_spec (grupo veiculo) g) as [Eg|]; [|reflexivity].
    exfalso. apply E. rewrite Ef, Eg. reflexivity.
Qed.

Lemma filter_chave_grupo veiculos f g :
  Forall (fun v => contains "_" (filial v) = false) veiculos ->
  contains "_" f = false ->
  List.filter (fun v => String.eqb (chave_grupo v) (f +:+ "_" +:+ g)%string) veiculos
  = List.filter (no_grupo f g) veiculos.
Proof.
  intros Hall Hf. induction Hall as [|v l Hv Hl IH]; [reflexivity|].
  cbn [List.filter]. rewrite (chave_grupo_eqb v f g Hv Hf), IH. reflexivity.
Qed.

Lemma split_underscore_chave veiculo : split_underscore (chave_grupo veiculo) <> None.
Proof.
  unfold chave_grupo. induction (filial veiculo) as [|c s IH]; [simpl; discriminate|].
  simpl.
  destruct (Ascii.eqb c "_"); [discriminate|].
  destruct (split_underscore (s +:+ "_" +:+ grupo veiculo)) as [[a b]|];
    [discriminate|congruence].
Qed.

Lemma group_by_keys {A : Type} (key : A -> string) (l : list A) entry :
  In entry (group_by key l) -> exists x, In x l /\ key x = fst entry.
Proof.
  intros Hin. destruct entry as [k vs].
  apply In_dict_get in Hin; [|apply NoDup_keys_group_by].
  rewrite dict_get_group_by in Hin.
  destruct (List.filter (fun x => String.eqb (key x) k) l) as [|x xs] eqn:E;
    [discriminate|].
  assert (Hx : In x (List.filter (fun x => String.eqb (key x) k) l))
    by (rewrite E; left; reflexivity).
  apply filter_In in Hx as [Hx Hk]. apply String.eqb_eq in Hk.
  exists x. split; assumption.
Qed.

(** The evaluator never raises, and returns, for each branch and group,
    what the count of its vehicles against its limit commands. *)
Lemma analisar_desvios_sla_spec limites veiculos ts :
  Forall (fun v => contains "_" (filial v) = false) veiculos ->
  exists desvios,
    analisar_desvios_sla limites veiculos ts = Return desvios
    /\ forall f g,
         contains "_" f = false ->
         List.filter (do_grupo f g) desvios =
         match List.filter (no_grupo f g) veiculos with
         | [] => []
         | vs => desvio_do_grupo limites ts ((f +:+ "_" +:+ g)%string, vs)
         end.
Proof.
  intros Hall. unfold analisar_desvios_sla.
  rewrite verificar_grupos_flat_map.
  - eexists. split; [reflexivity|]. intros f g Hf.
    rewrite (filter_flat_map_grupo _ _ _ _ _ Hf (NoDup_keys_group_by _ _)).
    rewrite dict_get_group_by, (filter_chave_grupo _ _ _ Hall Hf).
    destruct (List.filter (no_grupo f g) veiculos); reflexivity.
  - intros entry Hin. apply group_by_keys in Hin as (v & _ & <-).
    apply split_underscore_chave.
Qed.

(** Every deviation record is for a branch and group with a limit, which
    the count exceeds. *)
Lemma verificar_grupos_sound limites ts grupos_veiculo desvios :
  verificar_grupos limites ts grupos_veiculo = Return desvios ->
  forall desvio, In desvio desvios ->
    limite_de limites (desvio_filial desvio) (desvio_grupo desvio)
    = Some (limite_sla desvio)
    /\ limite_sla desvio < qtd_veiculos desvio.
Proof.
  revert desvios. induction grupos_veiculo as [|[k vs] d IH]; intros desvios H.
  - inversion H; subst. intros ? [].
  - cbn [verificar_grupos] in H.
    destruct (split_underscore k) as [[f g]|]; [|discriminate].
    destruct (limite_de limites f g) as [lim|] eqn:El; [|apply IH; exact H].
    destruct (lim <? Z.of_nat (length vs)) eqn:Elt; [|apply IH; exact H].
    destruct (verificar_grupos limites ts d) as [ds|]; [|discriminate].
    cbn [bind] in H. inversion H; subst; clear H.
    intros desvio [<-|Hin]; [|apply (IH ds eq_refl); exact Hin].
    cbn. split; [exact El|]. apply Z.ltb_lt. exact Elt.
Qed.

Lemma sem_limite_sem_desvio limites veiculos ts desvios g :
  (forall f, limite_de limites f g = None) ->
  analisar_desvios_sla limites veiculos ts = Return desvios ->
  forall desvio, In desvio desvios -> desvio_grupo desvio <> g.
Proof.
  intros Hno H desvio Hin Hg.
  destruct (verificar_grupos_sound _ _ _ _ H desvio Hin) as [Hl _].
  rewrite Hg, Hno in Hl. discriminate.
Qed.

(** The limits of the script have no entry for the two sentinel groups. *)
Lemma sla_limites_sentinela f :
  limite_de sla_limites f "Não Mapeado" = None
  /\ limite_de sla_limites f "Não Classificado" = None.
Proof.
  unfold limite_de, sla_limites.
  destruct (String.eqb_spec f "RRP") as [->|Hr]; [split; vm_compute; reflexivity|].
  destruct (String.eqb_spec f "TLS") as [->|Ht]; [split; vm_compute; reflexivity|].
  rewrite lookup_insert_ne, lookup_singleton_ne by congruence. simpl.
  split; apply lookup_empty.
Qed.

End EnhancedFacts.

(** ** The report generator *)

Module RelatorioFacts.

Import Relatorio RelatorioSpec PySpec PyFacts PySorting.
Local Open Scope Z_scope.

Section Classifier.

Variable lower : string -> string.

Lemma find_first {A : Type} (f : A -> bool) (before after : list A) (x : A) :
  (forall y, In y before -> f y = false) -> f x = true ->
  find f (before ++ x :: after) = Some x.
Proof.
  intros Hb Hx. induction before as [|y before IH]; simpl.
  - rewrite Hx. reflexivity.
  - rewrite (Hb y) by (left; reflexivity). apply IH.
    intros z Hz. apply Hb. right. exact Hz.
Qed.

Lemma find_nothing {A : Type} (f : A -> bool) (l : list A) :
  (forall y, In y l -> f y = false) -> find f l = None.
Proof.
  induction l as [|y l IH]; intros H; [reflexivity|]. simpl.
  rewrite (H y) by (left; reflexivity). apply IH. intros z Hz. apply H. right. exact Hz.
Qed.

Lemma obter_grupo_poi_guard grupos descricao_poi :
  grupos = [] \/ descricao_poi = ""%string ->
  obter_grupo_poi lower grupos descricao_poi = "Não Classificado"%string.
Proof.
  unfold obter_grupo_poi. intros [->| ->]; [reflexivity|].
  rewrite orb_true_r. reflexivity.
Qed.

Lemma obter_grupo_poi_unfold grupos descricao_poi :
  grupos <> [] -> descricao_poi <> ""%string ->
  obter_grupo_poi lower grupos descricao_poi =
  match dict_get grupos descricao_poi with
  | Some grupo => grupo
  | None =>
      match find (fun entry => coincide lower descricao_poi (fst entry)) grupos with
      | Some (_, grupo) => grupo
      | None => "Não Mapeado"%string
      end
  end.
Proof.
  intros Hg Hd. unfold obter_grupo_poi.
  destruct grupos as [|e grupos]; [congruence|].
  destruct (String.eqb_spec descricao_poi "") as [->|_]; [congruence|].
  reflexivity.
Qed.

End Classifier.

Section Consolidation.

Variable strptime : string -> option Z.
Variable round2 : Q -> Q.

Abbreviation entrada := (parse_data_entrada strptime).
Abbreviation saida := (parse_data_saida strptime).

Lemma runs_de_eventos (eventos : list Evento) :
  flat_map eventos_da_run (runs_de eventos) = eventos.
Proof.
  induction eventos as [|e resto IH]; [reflexivity|]. simpl.
  destruct (runs_de resto) as [|[e' es'] rs]; simpl in *.
  - rewrite <- IH. reflexivity.
  - destruct (Descricao_POI e' =? Descricao_POI e)%string; simpl;
      rewrite <- IH; reflexivity.
Qed.

Lemma runs_de_maximais (eventos : list Evento) : runs_maximais (runs_de eventos).
Proof.
  induction eventos as [|e resto IH]; [exact I|]. simpl.
  destruct (runs_de resto) as [|[e' es'] rs]; simpl in *.
  - repeat split. constructor.
  - destruct IH as (Hm & Hn & Hr).
    destruct (String.eqb_spec (Descricao_POI e') (Descricao_POI e)) as [E|E]; simpl.
    + repeat split; auto.
      * constructor; [exact E|]. unfold mesma_poi in Hm. simpl in Hm.
        eapply List.Forall_impl; [|exact Hm]. simpl. intros; congruence.
      * destruct rs as [|r' rs']; [exact I|]. simpl in *. congruence.
    + repeat split; auto. constructor.
Qed.

Lemma sequencia_run (e : Evento) (es resto : list Evento) :
  Forall (fun x => Descricao_POI x = Descricao_POI e) es ->
  match resto with
  | x :: _ => Descricao_POI x <> Descricao_POI e
  | [] => True
  end ->
  sequencia (Descricao_POI e) (es ++ resto) = (es, resto).
Proof.
  intros Hes Hresto. induction Hes as [|x es Hx Hes IH]; simpl.
  - destruct resto as [|y resto]; [reflexivity|]. simpl.
    destruct (String.eqb_spec (Descricao_POI y) (Descricao_POI e)); [contradiction|].
    reflexivity.
  - rewrite Hx, String.eqb_refl, IH. reflexivity.
Qed.

(** With enough fuel the loop turns each maximal run into its session. *)
Lemma consolidar_sequencias_runs (rs : list Run) (fuel : nat) :
  runs_maximais rs ->
  (length (flat_map eventos_da_run rs) <= fuel)%nat ->
  consolidar_sequencias strptime round2 fuel (flat_map eventos_da_run rs)
  = map (sessao_da_run strptime round2) rs.
Proof.
  revert fuel. induction rs as [|[e es] rs IH]; intros fuel Hmax Hfuel.
  - destruct fuel; reflexivity.
  - destruct Hmax as (Hm & Hn & Hr).
    cbn [flat_map] in *.
    change (eventos_da_run (e, es) ++ flat_map eventos_da_run rs)
      with (e :: (es ++ flat_map eventos_da_run rs)) in *.
    destruct fuel as [|fuel]; [simpl in Hfuel; lia|].
    cbn [consolidar_sequencias].
    rewrite (sequencia_run e es (flat_map eventos_da_run rs) Hm).
    2:{ destruct rs as [|[e' es'] rs']; [exact I|]. exact Hn. }
    rewrite IH; [|exact Hr|].
    2:{ simpl in Hfuel. rewrite length_app in Hfuel. lia. }
    cbn [map]. f_equal.
    destruct es as [|x xs]; reflexivity.
Qed.

Lemma sessao_da_run_spec (r : Run) :
  let s := sessao_da_run strptime round2 r in
  (snd r = [] -> s = fst r)
  /\ Placa_Veiculo s = Placa_Veiculo (fst r)
  /\ Descricao_POI s = Descricao_POI (fst r)
  /\ Grupo_POI s = Grupo_POI (fst r)
  /\ Data_Entrada s = Data_Entrada (fst r)
  /\ (exists ultimo,
        In ultimo (eventos_da_run r)
        /\ Data_Saida s = Data_Saida ultimo
        /\ Data_Atualizacao s = Data_Atualizacao ultimo
        /\ forall e, In e (eventos_da_run r) -> saida e <= saida ultimo)
  /\ (snd r <> [] ->
      Duracao s = calcular_duracao_formatada strptime round2 (Data_Entrada s)
                    (Data_Saida s)).
Proof.
  destruct r as [e es]. unfold sessao_da_run, eventos_da_run. cbn [fst snd].
  destruct es as [|x xs]; cbn zeta.
  - split; [reflexivity|]. do 4 (split; [reflexivity|]). split; [|congruence].
    exists e. split; [left; reflexivity|]. do 2 (split; [reflexivity|]).
    intros e' [<-|[]]. lia.
  - split; [congruence|]. do 4 (split; [reflexivity|]). split; [|reflexivity].
    exists (max_by saida e (x :: xs)).
    split; [apply max_by_In|]. do 2 (split; [reflexivity|]).
    intros e' He'. apply max_by_ge. exact He'.
Qed.

(** In a sorted list the first event of a run entered first. *)
Lemma primeiro_da_run_sorted (rs : list Run) (r : Run) :
  sorted_by entrada (flat_map eventos_da_run rs) -> In r rs ->
  forall e, In e (eventos_da_run r) -> entrada (fst r) <= entrada e.
Proof.
  induction rs as [|r' rs IH]; intros Hs []; simpl in Hs.
  - subst r'. destruct Hs as [Hf _]. intros e [<-|He]; [lia|].
    rewrite List.Forall_forall in Hf. apply Hf. apply in_or_app. left. exact He.
  - apply IH; [|assumption]. destruct Hs as [_ Hs].
    apply sorted_by_app in Hs as [_ Hs]. exact Hs.
Qed.

Lemma group_by_one_key {A : Type} (key : A -> string) (k : string) (x : A)
    (l : list A) :
  (forall y, In y (x :: l) -> key y = k) ->
  group_by key (x :: l) = [(k, x :: l)].
Proof.
  revert x. induction l as [|y l IH] using rev_ind; intros x H.
  - unfold group_by. simpl. rewrite (H x) by (left; reflexivity). reflexivity.
  - change (x :: l ++ [y]) with ((x :: l) ++ [y]).
    rewrite group_by_snoc, IH.
    + simpl. rewrite (H y), String.eqb_refl; [reflexivity|].
      right. apply in_or_app. right. left. reflexivity.
    + intros z Hz. apply H. destruct Hz as [<-|Hz]; [left; reflexivity|].
      right. apply in_or_app. left. exact Hz.
Qed.

End Consolidation.

End RelatorioFacts.

(** ** The earlier report generator: related groups *)

Module BackupFacts.

Import Relatorio Backup RelatorioSpec BackupSpec PySpec PyFacts PySorting RelatorioFacts.
Local Open Scope Z_scope.

(** The duration between two readable texts. *)
Lemma calcular_duracao_formatada_readable (strptime : string -> option Z)
    (round2 : Q -> Q) (data_entrada_str data_saida_str : string) (entrada saida : Z) :
  data_entrada_str <> ""%string -> data_saida_str <> ""%string ->
  strptime data_entrada_str = Some entrada ->
  strptime data_saida_str = Some saida ->
  (entrada <= saida ->
   calcular_duracao_formatada strptime round2 data_entrada_str data_saida_str
   = round2 (Qmake (saida - entrada) 3600))
  /\ (saida < entrada ->
      calcular_duracao_formatada strptime round2 data_entrada_str data_saida_str = 0%Q).
Proof.
  intros He Hs Hpe Hps. unfold calcular_duracao_formatada.
  apply String.eqb_neq in He. apply String.eqb_neq in Hs.
  rewrite He, Hs, Hpe, Hps. cbn [orb]. cbv zeta.
  split; intros H.
  - destruct (Z.ltb_spec (saida - entrada) 0); [lia|reflexivity].
  - destruct (Z.ltb_spec (saida - entrada) 0); [reflexivity|lia].
Qed.

(** The duration when a text is empty or unreadable. *)
Lemma calcular_duracao_formatada_unreadable (strptime : string -> option Z)
    (round2 : Q -> Q) (data_entrada_str data_saida_str : string) :
  data_entrada_str = ""%string \/ data_saida_str = ""%string
  \/ strptime data_entrada_str = None \/ strptime data_saida_str = None ->
  calcular_duracao_formatada strptime round2 data_entrada_str data_saida_str = 0%Q.
Proof.
  intros H. unfold calcular_duracao_formatada.
  destruct (data_entrada_str =? "")%string eqn:Ee; [reflexivity|].
  destruct (data_saida_str =? "")%string eqn:Es; [reflexivity|].
  apply String.eqb_neq in Ee. apply String.eqb_neq in Es. cbn [orb].
  destruct H as [H|[H|[H|H]]]; try contradiction.
  - rewrite H. reflexivity.
  - rewrite H. destruct (strptime data_entrada_str); reflexivity.
Qed.

Lemma group_by_entry {A : Type} (key : A -> string) (l : list A) (k : string)
    (vs : list A) :
  In (k, vs) (group_by key l) ->
  vs = List.filter (fun x => String.eqb (key x) k) l /\ vs <> [].
Proof.
  intros Hin. apply In_dict_get in Hin; [|apply NoDup_keys_group_by].
  rewrite dict_get_group_by in Hin.
  destruct (List.filter (fun x => String.eqb (key x) k) l) as [|x xs];
    [discriminate|].
  inversion Hin; subst. split; [reflexivity|discriminate].
Qed.

Lemma filter_flat_map_key {A B : Type} (h : string * A -> list B) (p : B -> bool)
    (k : string) (d : list (string * A)) :
  List.NoDup (map fst d) ->
  (forall k' v, In (k', v) d -> k' <> k -> List.filter p (h (k', v)) = []) ->
  (forall v, In (k, v) d -> List.filter p (h (k, v)) = h (k, v)) ->
  List.filter p (flat_map h d)
  = match dict_get d k with Some v => h (k, v) | None => [] end.
Proof.
  induction d as [|[k0 v0] d IH]; intros Hnd Hother Hsame; [reflexivity|].
  inversion Hnd as [|? ? Hni Hnd']; subst.
  cbn [flat_map dict_get]. rewrite List.filter_app, IH; auto.
  - destruct (String.eqb_spec k0 k) as [->|Hne].
    + rewrite Hsame by (left; reflexivity).
      destruct (dict_get d k) as [v|] eqn:Eg; [|apply app_nil_r].
      exfalso. apply Hni. apply dict_get_In in Eg.
      change k with (fst (k, v)). apply in_map. exact Eg.
    + rewrite (Hother k0 v0) by (auto; left; reflexivity). reflexivity.
  - intros k' v Hin. apply Hother. right. exact Hin.
  - intros v Hin. apply Hsame. right. exact Hin.
Qed.

Section Consolidation.

Variable strptime : string -> option Z.
Variable round2 : Q -> Q.

Abbreviation entrada := (parse_data_entrada strptime).
Abbreviation saida := (parse_data_saida strptime).

Lemma consolidar_grupo_especifico_eq todos entry :
  snd entry <> [] -> todos <> [] ->
  consolidar_grupo_especifico strptime round2 todos entry
  = Return ((sessoes_do_grupo strptime round2) todos entry).
Proof.
  destruct entry as [g [|e0 er]]; [simpl; congruence|].
  destruct todos as [|t0 tr]; [congruence|]. intros _ _.
  unfold consolidar_grupo_especifico, sessoes_do_grupo. cbn [fst snd].
  destruct ((1 <? length (e0 :: er))%nat || _); reflexivity.
Qed.

Lemma consolidar_conjunto_eq eventos conjunto :
  consolidar_conjunto strptime round2 eventos conjunto
  = Return ((sessoes_do_conjunto strptime round2) eventos conjunto).
Proof.
  unfold consolidar_conjunto, sessoes_do_conjunto.
  fold (todos_do_conjunto conjunto eventos).
  destruct (todos_do_conjunto conjunto eventos) as [|t0 tr] eqn:E; [reflexivity|].
  apply for_each_Return. intros [g eg] Hin.
  apply consolidar_grupo_especifico_eq; [|discriminate].
  apply group_by_entry in Hin as [_ Hne]. exact Hne.
Qed.

Lemma pertence_no_conjunto conjunto e :
  In conjunto GRUPOS_RELACIONADOS ->
  no_conjunto conjunto (Grupo_POI e) = true ->
  pertence_grupo_relacionado e = true.
Proof.
  intros Hc Hg. unfold pertence_grupo_relacionado. apply existsb_exists.
  exists conjunto. split; assumption.
Qed.

Lemma todos_do_conjunto_relacionados conjunto eventos :
  In conjunto GRUPOS_RELACIONADOS ->
  todos_do_conjunto conjunto (List.filter pertence_grupo_relacionado eventos)
  = todos_do_conjunto conjunto eventos.
Proof.
  intros Hc. unfold todos_do_conjunto. rewrite filter_filter.
  apply filter_ext. intros e.
  destruct (no_conjunto conjunto (Grupo_POI e)) eqn:E.
  - rewrite (pertence_no_conjunto _ _ Hc E). reflexivity.
  - apply andb_false_r.
Qed.

(** The result for one vehicle: the sessions of the two related sets,
    then the sequences of the other events; nothing raises. *)
Lemma consolidar_veiculo_eq eventos_veiculo :
  let ordenados := sort_by entrada eventos_veiculo in
  let restantes :=
    List.filter (fun e => negb (pertence_grupo_relacionado e)) ordenados in
  Backup.consolidar_veiculo strptime round2 eventos_veiculo
  = Return (flat_map ((sessoes_do_conjunto strptime round2) ordenados) GRUPOS_RELACIONADOS
            ++ map (sessao_da_run strptime round2) (runs_de restantes)).
Proof.
  intros ordenados restantes. unfold Backup.consolidar_veiculo.
  fold ordenados. fold restantes.
  assert (Hseq : consolidar_sequencias strptime round2 (length restantes) restantes
                 = map (sessao_da_run strptime round2) (runs_de restantes)).
  { rewrite <- (runs_de_eventos restantes) at 1 2.
    apply consolidar_sequencias_runs; [apply runs_de_maximais|lia]. }
  rewrite Hseq.
  assert (Hrel : for_each
                   (consolidar_conjunto strptime round2
                      (List.filter pertence_grupo_relacionado ordenados))
                   GRUPOS_RELACIONADOS
                 = Return (flat_map ((sessoes_do_conjunto strptime round2) ordenados)
                             GRUPOS_RELACIONADOS)).
  { apply for_each_Return. intros c Hc. rewrite consolidar_conjunto_eq.
    unfold sessoes_do_conjunto. rewrite (todos_do_conjunto_relacionados _ _ Hc).
    reflexivity. }
  destruct (List.filter pertence_grupo_relacionado ordenados) as [|r rel] eqn:E.
  - assert (Hl : for_each (consolidar_conjunto strptime round2 []) GRUPOS_RELACIONADOS
                 = Return []) by reflexivity.
    rewrite Hl in Hrel. inversion Hrel as [Hnil].
    change (flat_map ((sessoes_do_conjunto strptime round2) ordenados) GRUPOS_RELACIONADOS)
      with ((sessoes_do_conjunto strptime round2) ordenados ["Fábrica"; "Carregamento"]%string
            ++ (sessoes_do_conjunto strptime round2) ordenados ["Terminal"; "Descarga"]%string ++ []).
    rewrite <- Hnil. reflexivity.
  - rewrite Hrel. reflexivity.
Qed.

Lemma sessoes_do_grupo_grupo todos g eg o :
  eg = List.filter (fun e => String.eqb (Grupo_POI e) g) todos ->
  In o ((sessoes_do_grupo strptime round2) todos (g, eg)) -> Grupo_POI o = g.
Proof.
  intros Heg. unfold sessoes_do_grupo. cbn [fst snd].
  destruct eg as [|e0 er]; [intros []|].
  assert (He0 : Grupo_POI e0 = g).
  { assert (H : In e0 (List.filter (fun e => String.eqb (Grupo_POI e) g) todos))
      by (rewrite <- Heg; left; reflexivity).
    apply filter_In in H as [_ H]. apply String.eqb_eq in H. exact H. }
  destruct todos as [|t0 tr]; [intros []|].
  destruct (_ || _); intros [<-|[]]; exact He0.
Qed.

Lemma sessoes_do_conjunto_grupo eventos conjunto o :
  In o ((sessoes_do_conjunto strptime round2) eventos conjunto) ->
  no_conjunto conjunto (Grupo_POI o) = true.
Proof.
  unfold sessoes_do_conjunto. intros Hin.
  apply in_flat_map in Hin as ([g eg] & Hentry & Ho).
  apply group_by_entry in Hentry as [Heg Hne].
  rewrite (sessoes_do_grupo_grupo _ _ _ _ Heg Ho).
  destruct eg as [|e0 er]; [congruence|].
  assert (H : In e0 (List.filter (fun e => String.eqb (Grupo_POI e) g)
                       (todos_do_conjunto conjunto eventos)))
    by (rewrite <- Heg; left; reflexivity).
  apply filter_In in H as [H Hg]. apply String.eqb_eq in Hg. subst g.
  apply filter_In in H as [_ H]. exact H.
Qed.

(** Among the sessions of a related set, those of one specific group. *)
Lemma filter_sessoes_do_conjunto eventos conjunto g :
  no_conjunto conjunto g = true ->
  List.filter (fun o => String.eqb (Grupo_POI o) g)
    ((sessoes_do_conjunto strptime round2) eventos conjunto)
  = (sessoes_do_grupo strptime round2) (todos_do_conjunto conjunto eventos)
      (g, List.filter (fun e => String.eqb (Grupo_POI e) g) eventos).
Proof.
  intros Hg. unfold sessoes_do_conjunto.
  set (todos := todos_do_conjunto conjunto eventos).
  assert (Hsub : List.filter (fun e => String.eqb (Grupo_POI e) g) todos
                 = List.filter (fun e => String.eqb (Grupo_POI e) g) eventos).
  { unfold todos, todos_do_conjunto. rewrite filter_filter.
    apply filter_ext. intros e.
    destruct (String.eqb_spec (Grupo_POI e) g) as [->|]; [|apply andb_false_r].
    rewrite Hg. reflexivity. }
  rewrite (filter_flat_map_key ((sessoes_do_grupo strptime round2) todos)
             (fun o => String.eqb (Grupo_POI o) g) g).
  - rewrite dict_get_group_by, Hsub.
    destruct (List.filter (fun e => String.eqb (Grupo_POI e) g) eventos);
      reflexivity.
  - apply NoDup_keys_group_by.
  - intros k' eg Hin Hne. apply filter_none. intros o Ho.
    apply group_by_entry in Hin as [Heg _].
    rewrite (sessoes_do_grupo_grupo _ _ _ _ Heg Ho).
    apply String.eqb_neq. exact Hne.
  - intros eg Hin. apply group_by_entry in Hin as [Heg _].
    apply forallb_filter_id. apply forallb_forall. intros o Ho.
    rewrite (sessoes_do_grupo_grupo _ _ _ _ Heg Ho). apply String.eqb_refl.
Qed.

Lemma filter_sessoes_outro_conjunto eventos conjunto g :
  no_conjunto conjunto g = false ->
  List.filter (fun o => String.eqb (Grupo_POI o) g)
    ((sessoes_do_conjunto strptime round2) eventos conjunto) = [].
Proof.
  intros Hg. apply filter_none. intros o Ho.
  apply sessoes_do_conjunto_grupo in Ho.
  destruct (String.eqb_spec (Grupo_POI o) g) as [E|]; [|reflexivity].
  rewrite E in Ho. congruence.
Qed.

Lemma filter_runs_restantes ordenados g :
  existsb (fun conjunto => no_conjunto conjunto g) GRUPOS_RELACIONADOS = true ->
  List.filter (fun o => String.eqb (Grupo_POI o) g)
    (map (sessao_da_run strptime round2)
       (runs_de (List.filter (fun e => negb (pertence_grupo_relacionado e))
                   ordenados))) = [].
Proof.
  intros Hg. apply filter_none. intros o Ho.
  apply in_map_iff in Ho as (r & <- & Hr).
  destruct (sessao_da_run_spec strptime round2 r) as (_ & _ & _ & Hgr & _).
  rewrite Hgr.
  assert (Hin : In (fst r)
                  (List.filter (fun e => negb (pertence_grupo_relacionado e))
                     ordenados)).
  { rewrite <- (runs_de_eventos (List.filter _ ordenados)).
    apply in_flat_map. exists r. split; [exact Hr|]. left. reflexivity. }
  apply filter_In in Hin as [_ Hp].
  destruct (String.eqb_spec (Grupo_POI (fst r)) g) as [E|]; [|reflexivity].
  unfold pertence_grupo_relacionado in Hp. rewrite E, Hg in Hp. discriminate.
Qed.

(** In the result for one vehicle, the sessions of a specific group of
    a related set are those that the group contributes. *)
Lemma filter_saida_do_veiculo eventos_veiculo conjunto g :
  In conjunto GRUPOS_RELACIONADOS -> In g conjunto ->
  let ordenados := sort_by entrada eventos_veiculo in
  List.filter (fun o => String.eqb (Grupo_POI o) g) ((saida_do_veiculo strptime round2) eventos_veiculo)
  = (sessoes_do_grupo strptime round2) (todos_do_conjunto conjunto ordenados)
      (g, List.filter (fun e => String.eqb (Grupo_POI e) g) ordenados).
Proof.
  intros Hc Hg ordenados. unfold saida_do_veiculo. fold ordenados.
  rewrite List.filter_app, filter_runs_restantes, app_nil_r.
  2:{ apply existsb_exists. exists conjunto. split; [exact Hc|].
      apply existsb_eqb_In. exact Hg. }
  change (flat_map ((sessoes_do_conjunto strptime round2) ordenados) GRUPOS_RELACIONADOS)
    with ((sessoes_do_conjunto strptime round2) ordenados ["Fábrica"; "Carregamento"]%string
          ++ (sessoes_do_conjunto strptime round2) ordenados ["Terminal"; "Descarga"]%string ++ []).
  rewrite !List.filter_app. cbn [List.filter]. rewrite app_nil_r.
  destruct Hc as [<-|[<-|[]]]; destruct Hg as [<-|[<-|[]]];
    first
      [ rewrite (filter_sessoes_do_conjunto _ ["Fábrica"; "Carregamento"]%string)
          by reflexivity;
        rewrite (filter_sessoes_outro_conjunto _ ["Terminal"; "Descarga"]%string)
          by reflexivity;
        apply app_nil_r
      | rewrite (filter_sessoes_outro_conjunto _ ["Fábrica"; "Carregamento"]%string)
          by reflexivity;
        rewrite (filter_sessoes_do_conjunto _ ["Terminal"; "Descarga"]%string)
          by reflexivity;
        reflexivity ].
Qed.

End Consolidation.

End BackupFacts.

(** ** The deviation detector: documents, thresholds, publishing *)

Module DetectorServicesFacts.

Import Detector DetectorSpec DetectorFacts DetectorServices DetectorServicesSpec.
Local Open Scope Z_scope.

(** *** The documents of the collection *)


(** *** What a store does to the collection *)

Lemma store_deviation_other so io states d k :
  deviation_session_key d <> k ->
  fst (store_deviation so io states d) !! k = states !! k.
Proof.
  intros Hne. unfold store_deviation.
  destruct (dev_entry_timestamp d); [|reflexivity].
  destruct (bigquery_load_ok io d); [|reflexivity].
  destruct (firestore_write_ok io d); [|reflexivity].
  apply update_alert_state_other. exact Hne.
Qed.

Lemma store_deviations_other so io ds states k :
  ~ In k (map deviation_session_key ds) ->
  store_deviations so io states ds !! k = states !! k.
Proof.
  unfold store_deviations. revert states.
  induction ds as [|d ds IH]; simpl; intros states Hk; [reflexivity|].
  rewrite IH by tauto. apply store_deviation_other. tauto.
Qed.

(** The document that [_update_alert_state] writes. *)
Lemma update_alert_state_same so d states :
  exists st,
    _update_alert_state so d states !! deviation_session_key d = Some st
    /\ st_current_level st = Some (dev_current_level d)
    /\ st_last_updated st = dev_detection_timestamp d
    /\ st_consecutive_hours st = int_of_Q (dev_duration_hours d)
    /\ match states !! deviation_session_key d with
       | Some old =>
           st_active st = st_active old
           /\ st_last_alert_sent st = st_last_alert_sent old
           /\ st_first_detection st = st_first_detection old
           /\ st_filial st = st_filial old
           /\ st_poi_normalized st = st_poi_normalized old
           /\ st_vehicle_plate st = st_vehicle_plate old
           /\ st_alert_count st = st_alert_count old + 1
           /\ exists entry,
                st_escalation_history st = st_escalation_history old ++ [entry]
                /\ entry_level entry = dev_current_level d
       | None =>
           st_active st = true
           /\ st_last_alert_sent st = Absent
           /\ st_first_detection st = dev_detection_timestamp d
           /\ st_filial st = dev_filial d
           /\ st_poi_normalized st = dev_poi_normalized d
           /\ st_vehicle_plate st = dev_vehicle_plate d
           /\ st_alert_count st = 1
           /\ exists entry,
                st_escalation_history st = [entry]
                /\ entry_level entry = dev_current_level d
       end.
Proof.
  unfold _update_alert_state.
  destruct (states !! deviation_session_key d) as [old|] eqn:E;
    (eexists; split; [apply lookup_insert_eq|]; simpl;
     repeat split; eexists; split; reflexivity).
Qed.

(** *** Documents written by the detector *)





(** *** Inactive documents *)

Lemma store_deviation_inactive so io states d k :
  inactive_at k states -> inactive_at k (fst (store_deviation so io states d)).
Proof.
  intros (st & Hk & Ha).
  destruct (String.eqb_spec (deviation_session_key d) k) as [E|E].
  - unfold store_deviation.
    destruct (dev_entry_timestamp d); [|exists st; auto].
    destruct (bigquery_load_ok io d); [|exists st; auto].
    destruct (firestore_write_ok io d); [|exists st; auto].
    simpl. destruct (update_alert_state_same so d states) as (st' & Hst' & _ & _ & _ & Hold).
    rewrite E in *. rewrite Hk in Hold. destruct Hold as (Ha' & _).
    exists st'. split; [exact Hst' | congruence].
  - exists st. rewrite store_deviation_other by exact E. auto.
Qed.

Lemma run_all_inactive so runs states k :
  inactive_at k states -> inactive_at k (run_all so states runs).
Proof.
  unfold run_all. revert states.
  induction runs as [|r runs IH]; simpl; intros states H; [exact H|].
  apply IH. unfold detect_poi_deviations, store_deviations.
  destruct (asyncio_imported (run_io r)); [|exact H].
  simpl.
  generalize (detect_deviations (run_io r) states (run_poi_thresholds r)
                (run_detection_timestamp r) (run_active_sessions r)).
  intros ds. revert states H.
  induction ds as [|d ds IHd]; simpl; intros states H; [exact H|].
  apply IHd, store_deviation_inactive, H.
Qed.

Lemma current_states_inactive io states k :
  inactive_at k states -> _get_current_alert_states io states !! k = None.
Proof.
  intros (st & Hk & Ha). unfold _get_current_alert_states.
  destruct (firestore_read_ok io); [|apply lookup_empty].
  apply map_lookup_filter_None. right. intros st' Hk'. simpl.
  rewrite Hk in Hk'. inversion Hk'; subst. rewrite Ha. discriminate.
Qed.

(** *** Publishing *)

Lemma publish_loop_spec so publish_ok ds n :
  publish_loop so publish_ok ds n
  = (messages so (take_while (publishable publish_ok) ds),
     if forallb (publishable publish_ok) ds
     then Return (n + Z.of_nat (length ds)) else Raise).
Proof.
  revert n. induction ds as [|d ds IH]; intros n.
  - simpl. f_equal. f_equal. lia.
  - cbn [publish_loop take_while forallb]. unfold publishable at 1 3, message_data.
    destruct (dev_entry_timestamp d) eqn:E; [|reflexivity].
    destruct (publish_ok d) eqn:Ep; [|reflexivity].
    rewrite IH. cbn [andb messages flat_map app]. unfold message_data at 1. rewrite E.
    cbn [app]. f_equal.
    destruct (forallb (publishable publish_ok) ds); [|reflexivity].
    f_equal. cbn [length]. rewrite Nat2Z.inj_succ. lia.
Qed.

(** *** Loading the thresholds *)

Lemma load_thresholds_malformed docs acc :
  existsb malformed docs = true -> load_thresholds docs acc = Raise.
Proof.
  revert acc. induction docs as [|data docs IH]; simpl; intros acc H; [discriminate|].
  unfold malformed, named in H.
  destruct (cfg_poi_name data =? "")%string eqn:En; simpl in H; [apply IH, H|].
  destruct (cfg_escalation_hours data); simpl in H; auto.
Qed.

Lemma load_thresholds_well_formed docs acc :
  existsb malformed docs = false ->
  exists thresholds,
    load_thresholds docs acc = Return thresholds
    /\ forall name,
         thresholds !! name =
         match last (List.filter
                       (fun data => named data && String.eqb (cfg_poi_name data) name)
                       docs) with
         | Some data => Some (thresholds_of data)
         | None => acc !! name
         end.
Proof.
  revert acc. induction docs as [|data docs IH]; simpl; intros acc H.
  - exists acc. split; reflexivity.
  - apply orb_false_elim in H as [Hm Hrest].
    unfold malformed, named in Hm. unfold named at 1.
    destruct (cfg_poi_name data =? "")%string eqn:En; simpl in Hm |- *.
    + apply (IH acc Hrest).
    + assert (Hstep : forall th,
                 thresholds_of data = th ->
                 exists thresholds,
                   load_thresholds docs (<[cfg_poi_name data := th]> acc) = Return thresholds
                   /\ forall name,
                        thresholds !! name =
                        match last
                                (if String.eqb (cfg_poi_name data) name
                                 then data :: List.filter
                                        (fun data0 => named data0
                                                      && String.eqb (cfg_poi_name data0) name)
                                        docs
                                 else List.filter
                                        (fun data0 => named data0
                                                      && String.eqb (cfg_poi_name data0) name)
                                        docs) with
                        | Some data0 => Some (thresholds_of data0)
                        | None => acc !! name
                        end).
      { intros th Hth.
        destruct (IH (<[cfg_poi_name data := th]> acc) Hrest) as (t & Ht & Hlook).
        exists t. split; [exact Ht|]. intros name. rewrite Hlook.
        destruct (String.eqb_spec (cfg_poi_name data) name) as [<-|Hne].
        - destruct (List.filter _ docs) as [|x xs] eqn:Ef.
          + simpl. rewrite lookup_insert_eq. congruence.
          + change (last (data :: x :: xs)) with (last (x :: xs)).
            destruct (last (x :: xs)) eqn:El; [reflexivity|].
            apply last_None in El. discriminate.
        - rewrite lookup_insert_ne by exact Hne. reflexivity. }
      unfold thresholds_of in Hstep.
      destruct (cfg_escalation_hours data); [| |discriminate]; apply Hstep; reflexivity.
Qed.

(** *** The counts of a run *)

Lemma store_deviation_flag so io states d :
  snd (store_deviation so io states d) = loaded io d.
Proof.
  unfold store_deviation, loaded.
  destruct (dev_entry_timestamp d); [|reflexivity].
  destruct (bigquery_load_ok io d); [|reflexivity].
  destruct (firestore_write_ok io d); reflexivity.
Qed.

Lemma stored_count_fold so io ds states n :
  fold_left
    (fun acc deviation =>
       let (states, n) := acc : gmap string AlertState * Z in
       let (states', ok) := store_deviation so io states deviation in
       (states', if ok then n + 1 else n))
    ds (states, n)
  = (store_deviations so io states ds,
     n + Z.of_nat (length (List.filter (loaded io) ds))).
Proof.
  unfold store_deviations. revert states n.
  induction ds as [|d ds IH]; intros states n; [simpl; f_equal; lia|].
  cbn [fold_left List.filter].
  pose proof (store_deviation_flag so io states d) as Hflag.
  destruct (store_deviation so io states d) as [states' ok].
  cbn [fst snd] in *. subst ok. rewrite IH.
  destruct (loaded io d); cbn [length]; f_equal; lia.
Qed.


End DetectorServicesFacts.

(** ** The deviation detector: the deviation records *)

Module DeviationFacts.

Import Detector DetectorSpec DetectorFacts.
Local Open Scope Z_scope.

(** What the analysis puts into the record of a deviation. *)
Lemma analyze_record session states th ts d :
  _analyze_session_for_deviation session states th ts = Return (Some d) ->
  dev_duration_hours d = duration_hours session
  /\ dev_filial d = filial session
  /\ dev_poi_name d = poi_name session
  /\ dev_vehicle_plate d = vehicle_plate session
  /\ dev_detection_timestamp d = ts
  /\ default default_thresholds (th !! poi_name session) (dev_current_level d)
     = Some (dev_threshold_breached d)
  /\ dev_confidence_score d = _calculate_confidence_score session (states !! session_key session).
Proof.
  unfold _analyze_session_for_deviation.
  destruct (_calculate_alert_level _ _) as [l|] eqn:El; [|discriminate].
  destruct (_should_escalate l _ ts) eqn:Es; simpl; [|discriminate].
  destruct (default default_thresholds (th !! poi_name session) l) as [q|] eqn:Eq;
    [|discriminate].
  intros H. inversion H; subst; clear H. simpl. rewrite Eq. repeat split; reflexivity.
Qed.

(** The document that [_update_alert_state] writes records the dwell and
    the excess of the deviation. *)
Lemma update_alert_state_magnitude so d states :
  exists st,
    _update_alert_state so d states !! deviation_session_key d = Some st
    /\ st_actual_duration_hours st = dev_duration_hours d
    /\ st_deviation_magnitude st
       = (dev_duration_hours d - dev_threshold_breached d)%Q.
Proof.
  unfold _update_alert_state.
  destruct (states !! deviation_session_key d);
    (eexists; split; [apply lookup_insert_eq|]; split; reflexivity).
Qed.

End DeviationFacts.

(** ** The SLA script: events of the API, escalation, metrics *)

Module EnhancedPipelineFacts.

Import Enhanced EnhancedSpec PyFacts EnhancedFacts EnhancedPipeline EnhancedPipelineSpec.
Local Open Scope Z_scope.

(** Every monitored POI that has a group has a branch, one of the four
    groups with an SLA, and a limit. *)
Lemma pois_filtrados_com_grupo (poi : string) :
  In poi pois_filtrados ->
  obter_grupo_poi poi <> "Não Mapeado"%string ->
  (obter_filial_poi poi = "RRP"%string \/ obter_filial_poi poi = "TLS"%string)
  /\ In (obter_grupo_poi poi) grupos_com_sla
  /\ is_Some (limite_de sla_limites (obter_filial_poi poi) (obter_grupo_poi poi)).
Proof.
  intros Hin.
  repeat (destruct Hin as [<-|Hin];
          [first [ intros H; exfalso; apply H; vm_compute; reflexivity
                 | intros _; split; [vm_compute; auto|];
                   split; [vm_compute; tauto | vm_compute; eexists; reflexivity] ]|]).
  destruct Hin.
Qed.

Section Zone.

Variable system_offset : Z.
Variable campo_grande : Z -> Z.

Lemma processar_evento_valido janelas agora_local evento veiculo :
  In veiculo (processar_evento system_offset campo_grande janelas agora_local evento) ->
  veiculo_valido janelas veiculo.
Proof.
  unfold processar_evento.
  destruct (existsb (String.eqb (fenceDescription evento)) pois_filtrados) eqn:Ep;
    [|intros []].
  destruct (status evento =? 1); [|intros []]. simpl.
  destruct (dateInFence evento) as [|dt|]; try (intros []).
  destruct (String.eqb_spec (vehiclePlate evento) "") as [|Hplaca]; [intros []|].
  destruct (dt_sub agora_local _) as [us|]; [|intros []].
  destruct (String.eqb_spec (obter_grupo_poi (fenceDescription evento)) "Não Mapeado")
    as [|Hg]; [intros []|].
  destruct (Qle_bool (hours_of_us us) _) eqn:Eq; [|intros []]. simpl.
  intros [<-|[]]. apply existsb_eqb_In in Ep.
  destruct (pois_filtrados_com_grupo _ Ep Hg) as (Hf & Hgr & Hl).
  unfold veiculo_valido. simpl.
  repeat split; auto. apply Qle_bool_iff. exact Eq.
Qed.

Lemma processar_eventos_api_valido eventos janelas agora_local :
  Forall (veiculo_valido janelas)
    (processar_eventos_api system_offset campo_grande eventos janelas agora_local).
Proof.
  apply List.Forall_forall. intros v Hv. unfold processar_eventos_api in Hv.
  apply in_flat_map in Hv as (evento & _ & Hv).
  apply (processar_evento_valido _ _ _ _ Hv).
Qed.

Lemma tentar_janelas_spec api agora_local janelas_horas :
  let r := tentar_janelas system_offset campo_grande api agora_local janelas_horas in
  (r = [] \/ 10 <= Z.of_nat (length r))
  /\ (r <> [] ->
      exists janela eventos,
        In janela janelas_horas /\ api janela = Some eventos
        /\ r = processar_eventos_api system_offset campo_grande eventos janelas_grupo
                 agora_local)
  /\ ((forall janela eventos,
          In janela janelas_horas -> api janela = Some eventos ->
          Z.of_nat (length (processar_eventos_api system_offset campo_grande eventos
                              janelas_grupo agora_local)) < 10) ->
      r = []).
Proof.
  induction janelas_horas as [|j js IH]; simpl.
  - split; [left; reflexivity|]. split; [congruence | reflexivity].
  - destruct IH as (IH1 & IH2 & IH3).
    destruct (api j) as [eventos|] eqn:Ej.
    + destruct (10 <=? Z.of_nat (length (processar_eventos_api system_offset campo_grande
                                           eventos janelas_grupo agora_local))) eqn:E.
      * apply Z.leb_le in E. split; [right; exact E|]. split.
        -- intros _. exists j, eventos. auto.
        -- intros H. specialize (H j eventos (or_introl eq_refl) Ej). lia.
      * split; [exact IH1|]. split.
        -- intros Hr. destruct (IH2 Hr) as (j' & evs & Hin & Hj' & Heq).
           exists j', evs. auto.
        -- intros H. apply IH3. intros j' evs Hin. apply H. right. exact Hin.
    + split; [exact IH1|]. split.
      * intros Hr. destruct (IH2 Hr) as (j' & evs & Hin & Hj' & Heq).
        exists j', evs. auto.
      * intros H. apply IH3. intros j' evs Hin. apply H. right. exact Hin.
Qed.

(** The loop returns the vehicles of the first window that gives ten or
    more. *)
Lemma tentar_janelas_find api agora_local janelas_horas :
  let da_janela janela :=
    option_map
      (fun eventos =>
         processar_eventos_api system_offset campo_grande eventos janelas_grupo
           agora_local)
      (api janela) in
  tentar_janelas system_offset campo_grande api agora_local janelas_horas
  = match find (fun janela =>
                  match da_janela janela with
                  | Some veiculos => 10 <=? Z.of_nat (length veiculos)
                  | None => false
                  end) janelas_horas with
    | Some janela => default [] (da_janela janela)
    | None => []
    end.
Proof.
  intros da_janela. subst da_janela.
  induction janelas_horas as [|j js IH]; [reflexivity|].
  cbn [tentar_janelas find]. destruct (api j) as [eventos|] eqn:Ej; cbn [option_map].
  - destruct (10 <=? Z.of_nat (length (processar_eventos_api system_offset campo_grande
                                         eventos janelas_grupo agora_local))).
    + rewrite Ej. reflexivity.
    + exact IH.
  - exact IH.
Qed.

End Zone.

Lemma veiculo_valido_filial janelas veiculo :
  veiculo_valido janelas veiculo -> contains "_" (filial veiculo) = false.
Proof.
  intros (_ & _ & _ & [->| ->] & _); reflexivity.
Qed.

(** *** The hours in deviation *)

Lemma int_of_hours (us : Z) :
  0 <= us -> int_of_Q (hours_of_us us) = us / us_per_hour.
Proof.
  intros H. unfold int_of_Q, hours_of_us. simpl.
  apply Z.quot_div_nonneg; [exact H | reflexivity].
Qed.

Lemma calcular_proximo_nivel_spec (horas : Z) :
  (calcular_proximo_nivel horas = Detector.N1 <-> horas < 1)
  /\ (calcular_proximo_nivel horas = Detector.N2 <-> horas = 1)
  /\ (calcular_proximo_nivel horas = Detector.N3 <-> 2 <= horas < 4)
  /\ (calcular_proximo_nivel horas = Detector.N4 <-> 4 <= horas).
Proof.
  unfold calcular_proximo_nivel.
  destruct (4 <=? horas) eqn:E4; [apply Z.leb_le in E4 | apply Z.leb_gt in E4];
  destruct (2 <=? horas) eqn:E2; [apply Z.leb_le in E2 | apply Z.leb_gt in E2 | apply Z.leb_le in E2 | apply Z.leb_gt in E2];
  destruct (1 <=? horas) eqn:E1; try apply Z.leb_le in E1; try apply Z.leb_gt in E1;
  repeat split; intros; try discriminate; try lia; try reflexivity.
Qed.

(** *** Groups and keys *)

Lemma contains_underscore_app (a b : string) :
  contains "_" (a +:+ "_" +:+ b) = true.
Proof.
  induction a as [|x a IH].
  - change (contains "_" (String "_" b) = true).
    rewrite contains_underscore_cons. reflexivity.
  - change (contains "_" (String x (a +:+ "_" +:+ b)) = true).
    rewrite contains_underscore_cons, IH. apply orb_true_r.
Qed.

(** A key made of a branch and a group without underscores is the key of
    the vehicles of that branch and group only. *)
Lemma chave_grupo_eqb_grupo veiculo f g :
  contains "_" f = false -> contains "_" g = false ->
  String.eqb (chave_grupo veiculo) (f +:+ "_" +:+ g)%string = no_grupo f g veiculo.
Proof.
  intros Hf Hg. unfold no_grupo, chave_grupo.
  destruct (String.eqb_spec (filial veiculo +:+ "_" +:+ grupo veiculo)
              (f +:+ "_" +:+ g)%string) as [E|E].
  - assert (Hs : split_underscore (filial veiculo +:+ "_" +:+ grupo veiculo) = Some (f, g))
      by (rewrite E; apply split_underscore_app; exact Hf).
    destruct (contains "_" (filial veiculo)) eqn:Hv.
    + exfalso. clear E.
      revert f Hf Hs. induction (filial veiculo) as [|c s IH]; intros f Hf Hs;
        [discriminate|].
      rewrite contains_underscore_cons in Hv. simpl in Hs.
      destruct (Ascii.eqb c "_") eqn:Ec.
      * inversion Hs; subst. rewrite contains_underscore_app in Hg. discriminate.
      * simpl in Hv.
        destruct (split_underscore (s +:+ "_" +:+ grupo veiculo)) as [[a b]|] eqn:Es;
          [|discriminate].
        inversion Hs; subst. rewrite contains_underscore_cons, Ec in Hf. simpl in Hf.
        apply (IH Hv a Hf). reflexivity.
    + rewrite (split_underscore_app _ _ Hv) in Hs. inversion Hs; subst.
      rewrite !String.eqb_refl. reflexivity.
  - destruct (String.eqb_spec (filial veiculo) f) as [Ef|]; [|reflexivity].
    destruct (String.eqb_spec (grupo veiculo) g) as [Eg|]; [|reflexivity].
    exfalso. apply E. rewrite Ef, Eg. reflexivity.
Qed.

Lemma filter_chave_grupo_grupo veiculos f g :
  contains "_" f = false -> contains "_" g = false ->
  List.filter (fun v => String.eqb (chave_grupo v) (f +:+ "_" +:+ g)%string) veiculos
  = List.filter (no_grupo f g) veiculos.
Proof.
  intros Hf Hg. induction veiculos as [|v l IH]; [reflexivity|].
  cbn [List.filter]. rewrite (chave_grupo_eqb_grupo v f g Hf Hg), IH. reflexivity.
Qed.

(** The vehicles grouped under the key of a branch and group. *)
Lemma grupo_da_chave veiculos f g :
  contains "_" f = false -> contains "_" g = false ->
  default [] (dict_get (group_by chave_grupo veiculos) (f +:+ "_" +:+ g)%string)
  = List.filter (no_grupo f g) veiculos.
Proof.
  intros Hf Hg.
  rewrite dict_get_group_by, (filter_chave_grupo_grupo _ _ _ Hf Hg).
  destruct (List.filter (no_grupo f g) veiculos); reflexivity.
Qed.

(** The evaluator never raises; for a branch and a group without
    underscores it reports what the count of their vehicles commands. *)
Lemma analisar_desvios_sla_grupo limites veiculos ts :
  exists desvios,
    analisar_desvios_sla limites veiculos ts = Return desvios
    /\ forall f g,
         contains "_" f = false -> contains "_" g = false ->
         List.filter (do_grupo f g) desvios =
         match List.filter (no_grupo f g) veiculos with
         | [] => []
         | vs => desvio_do_grupo limites ts ((f +:+ "_" +:+ g)%string, vs)
         end.
Proof.
  unfold analisar_desvios_sla.
  rewrite verificar_grupos_flat_map.
  - eexists. split; [reflexivity|]. intros f g Hf Hg.
    rewrite (filter_flat_map_grupo _ _ _ _ _ Hf (NoDup_keys_group_by _ _)).
    rewrite dict_get_group_by, (filter_chave_grupo_grupo _ _ _ Hf Hg).
    destruct (List.filter (no_grupo f g) veiculos); reflexivity.
  - intros entry Hin. apply group_by_keys in Hin as (v & _ & <-).
    apply split_underscore_chave.
Qed.

(** Whether a group is reported, from the count of its vehicles. *)
Lemma existsb_do_grupo limites veiculos ts desvios f g limite :
  analisar_desvios_sla limites veiculos ts = Return desvios ->
  contains "_" f = false -> contains "_" g = false ->
  limite_de limites f g = Some limite -> 0 <= limite ->
  existsb (do_grupo f g) desvios
  = (limite <? Z.of_nat (length (List.filter (no_grupo f g) veiculos))).
Proof.
  intros Hd Hf Hg Hl Hpos.
  destruct (analisar_desvios_sla_grupo limites veiculos ts) as (ds & Hds & Hspec).
  rewrite Hd in Hds. inversion Hds; subst ds. clear Hds.
  specialize (Hspec f g Hf Hg).
  assert (Hex : forall l : list Desvio,
             existsb (do_grupo f g) l
             = match List.filter (do_grupo f g) l with [] => false | _ => true end).
  { induction l as [|x l IH]; [reflexivity|]. simpl.
    destruct (do_grupo f g x); [reflexivity | exact IH]. }
  rewrite Hex, Hspec.
  destruct (List.filter (no_grupo f g) veiculos) as [|v vs] eqn:Ev.
  - simpl. symmetry. apply Z.ltb_ge. exact Hpos.
  - unfold desvio_do_grupo. cbn [fst snd].
    rewrite (split_underscore_app f g Hf), Hl.
    destruct (limite <? Z.of_nat (length (v :: vs))); reflexivity.
Qed.

(** The dictionary that [calcular_metricas] builds, whatever the entry of
    a group is. *)
Lemma metricas_em_ordem (m : string -> string -> Z -> Metrica) :
  fold_left
    (fun metricas filial_grupos =>
       fold_left
         (fun metricas grupo_limite =>
            dict_set (fst filial_grupos +:+ "_" +:+ fst grupo_limite)%string
              (m (fst filial_grupos) (fst grupo_limite) (snd grupo_limite)) metricas)
         (snd filial_grupos) metricas)
    sla_limites_items []
  = map (fun fgl : string * string * Z =>
           let '(f, g, limite) := fgl in ((f +:+ "_" +:+ g)%string, m f g limite))
      grupos_sla.
Proof. vm_compute. reflexivity. Qed.

Lemma grupos_sla_limites f g limite :
  In (f, g, limite) grupos_sla ->
  contains "_" f = false /\ contains "_" g = false
  /\ limite_de sla_limites f g = Some limite /\ 0 < limite.
Proof.
  intros Hin.
  repeat (destruct Hin as [Hin|Hin];
          [inversion Hin; subst; repeat split; vm_compute; reflexivity|]).
  destruct Hin.
Qed.

Lemma metrica_do_grupo_eq veiculos ts desvios f g limite :
  analisar_desvios_sla sla_limites veiculos ts = Return desvios ->
  In (f, g, limite) grupos_sla ->
  ((f +:+ "_" +:+ g)%string,
   metrica_do_grupo (group_by chave_grupo veiculos) desvios f g limite)
  = metrica_esperada veiculos (f, g, limite).
Proof.
  intros Hd Hin.
  destruct (grupos_sla_limites f g limite Hin) as (Hf & Hg & Hl & Hpos).
  unfold metrica_esperada, metrica_do_grupo, qtd_no_grupo.
  rewrite (grupo_da_chave veiculos f g Hf Hg).
  change (fun desvio => (desvio_filial desvio =? f)%string
                        && (desvio_grupo desvio =? g)%string)
    with (do_grupo f g).
  rewrite (existsb_do_grupo _ _ _ _ _ _ _ Hd Hf Hg Hl) by lia.
  rewrite andb_diag.
  assert ((0 <? limite) = true) as -> by (apply Z.ltb_lt; exact Hpos).
  reflexivity.
Qed.

(** *** Rows *)

Lemma existsb_filter {A : Type} (p : A -> bool) (l : list A) :
  existsb p l = match List.filter p l with [] => false | _ => true end.
Proof.
  induction l as [|x l IH]; [reflexivity|]. simpl.
  destruct (p x); [reflexivity | exact IH].
Qed.

Lemma filter_no_grupo_self veiculos v :
  In v veiculos ->
  List.filter (no_grupo (filial v) (grupo v)) veiculos <> [].
Proof.
  intros Hin E.
  assert (Hv : In v (List.filter (no_grupo (filial v) (grupo v)) veiculos)).
  { apply filter_In. split; [exact Hin|]. unfold no_grupo.
    rewrite !String.eqb_refl. reflexivity. }
  rewrite E in Hv. destruct Hv.
Qed.

Lemma existsb_do_grupo_veiculo limites veiculos ts desvios v :
  Forall (fun v => contains "_" (filial v) = false) veiculos ->
  analisar_desvios_sla limites veiculos ts = Return desvios ->
  In v veiculos ->
  existsb (do_grupo (filial v) (grupo v)) desvios
  = match limite_de limites (filial v) (grupo v) with
    | Some limite => limite <? qtd_no_grupo veiculos (filial v) (grupo v)
    | None => false
    end.
Proof.
  intros Hall Hd Hin.
  destruct (analisar_desvios_sla_spec limites veiculos ts Hall) as (ds & Hds & Hspec).
  rewrite Hd in Hds. inversion Hds; subst ds. clear Hds.
  assert (Hf : contains "_" (filial v) = false).
  { rewrite List.Forall_forall in Hall. apply Hall. exact Hin. }
  specialize (Hspec (filial v) (grupo v) Hf).
  rewrite existsb_filter, Hspec. unfold qtd_no_grupo.
  pose proof (filter_no_grupo_self veiculos v Hin) as Hne.
  destruct (List.filter (no_grupo (filial v) (grupo v)) veiculos) as [|x xs];
    [congruence|].
  unfold desvio_do_grupo. cbn [fst snd].
  rewrite (split_underscore_app _ _ Hf).
  destruct (limite_de limites (filial v) (grupo v)) as [limite|]; [|reflexivity].
  destruct (limite <? Z.of_nat (length (x :: xs))); reflexivity.
Qed.

Lemma qtd_grupo_da_linha veiculos v :
  Forall (fun v => contains "_" (filial v) = false) veiculos ->
  In v veiculos ->
  Z.of_nat (length (default [] (dict_get (group_by chave_grupo veiculos) (chave_grupo v))))
  = qtd_no_grupo veiculos (filial v) (grupo v).
Proof.
  intros Hall Hin. unfold qtd_no_grupo.
  assert (Hf : contains "_" (filial v) = false).
  { rewrite List.Forall_forall in Hall. apply Hall. exact Hin. }
  rewrite dict_get_group_by.
  change (chave_grupo v) with (filial v +:+ "_" +:+ grupo v)%string.
  rewrite (filter_chave_grupo veiculos _ _ Hall Hf).
  destruct (List.filter (no_grupo (filial v) (grupo v)) veiculos); reflexivity.
Qed.

End EnhancedPipelineFacts.

(** ** The report generator: the consolidation as a whole *)

Module ConsolidationFacts.

Import Relatorio RelatorioSpec PySpec PyFacts PySorting RelatorioFacts.
Local Open Scope Z_scope.

(** *** Grouping *)

Section Grouping.

Context {A : Type}.
Variable key : A -> string.

Lemma dict_append_fresh (k : string) (x : A) (d1 d2 : list (string * list A)) :
  ~ In k (map fst d1) ->
  dict_append k x (d1 ++ d2) = d1 ++ dict_append k x d2.
Proof.
  induction d1 as [|[k0 xs] d1 IH]; simpl; intros Hk; [reflexivity|].
  destruct (String.eqb_spec k0 k) as [->|Hne]; [tauto|].
  rewrite IH by tauto. reflexivity.
Qed.

Lemma keys_group_by (l : list A) (k : string) :
  In k (map fst (group_by key l)) <-> exists x, In x l /\ key x = k.
Proof.
  split.
  - intros Hin. apply in_map_iff in Hin as ([k' vs] & <- & Hin).
    apply In_dict_get in Hin; [|apply NoDup_keys_group_by].
    rewrite dict_get_group_by in Hin.
    destruct (List.filter (fun x => String.eqb (key x) k') l) as [|x xs] eqn:E;
      [discriminate|].
    assert (Hx : In x (List.filter (fun x => String.eqb (key x) k') l))
      by (rewrite E; left; reflexivity).
    apply filter_In in Hx as [Hx Hk]. apply String.eqb_eq in Hk.
    exists x. auto.
  - intros (x & Hx & <-).
    destruct (dict_get (group_by key l) (key x)) as [vs|] eqn:E.
    + apply dict_get_In in E. change (key x) with (fst (key x, vs)).
      apply in_map. exact E.
    + rewrite dict_get_group_by in E.
      destruct (List.filter (fun y => String.eqb (key y) (key x)) l) as [|y ys] eqn:Ef;
        [|discriminate].
      assert (Hin : In x (List.filter (fun y => String.eqb (key y) (key x)) l)).
      { apply filter_In. split; [exact Hx | apply String.eqb_refl]. }
      rewrite Ef in Hin. destruct Hin.
Qed.

(** Grouping a list whose second part has keys of its own. *)
Lemma group_by_app_fresh (l1 l2 : list A) :
  (forall x y, In x l1 -> In y l2 -> key x <> key y) ->
  group_by key (l1 ++ l2) = group_by key l1 ++ group_by key l2.
Proof.
  induction l2 as [|y l2 IH] using rev_ind; intros H.
  - rewrite !app_nil_r. reflexivity.
  - rewrite app_assoc, !group_by_snoc, IH.
    + apply dict_append_fresh. intros Hk.
      apply keys_group_by in Hk as (x & Hx & Hkx).
      apply (H x y Hx); [apply in_or_app; right; left; reflexivity | exact Hkx].
    + intros x z Hx Hz. apply H; [exact Hx|]. apply in_or_app. left. exact Hz.
Qed.

(** Grouping the concatenation of blocks, each of one key, the keys
    being distinct, gives the blocks back. *)
Lemma group_by_blocks (d : list (string * list A)) :
  List.NoDup (map fst d) ->
  (forall k vs, In (k, vs) d -> vs <> [] /\ forall x, In x vs -> key x = k) ->
  group_by key (flat_map snd d) = d.
Proof.
  induction d as [|[k vs] d IH]; intros Hnd Hd; [reflexivity|].
  inversion Hnd as [|? ? Hni Hnd']; subst.
  cbn [flat_map snd].
  destruct (Hd k vs (or_introl eq_refl)) as [Hne Hk].
  rewrite group_by_app_fresh.
  - rewrite IH; [|exact Hnd'|intros k' vs' Hin; apply Hd; right; exact Hin].
    destruct vs as [|v vs]; [congruence|].
    rewrite (group_by_one_key key k v vs Hk). reflexivity.
  - intros x y Hx Hy E. apply Hni.
    apply in_flat_map in Hy as ([k' vs'] & Hin & Hy). simpl in Hy.
    destruct (Hd k' vs' (or_intror Hin)) as [_ Hk'].
    rewrite (Hk x Hx), (Hk' y Hy) in E. subst k'.
    change k with (fst (k, vs')). apply in_map. exact Hin.
Qed.

Lemma length_group_by (l : list A) :
  length (flat_map snd (group_by key l)) = length l.
Proof.
  induction l as [|x l IH] using rev_ind; [reflexivity|].
  rewrite group_by_snoc, length_app. simpl.
  assert (forall d : list (string * list A),
             length (flat_map snd (dict_append (key x) x d))
             = S (length (flat_map snd d))) as Happ.
  { induction d as [|[k xs] d IHd]; simpl; [reflexivity|].
    destruct (String.eqb k (key x)); simpl.
    - rewrite !length_app. simpl. lia.
    - rewrite !length_app, IHd. lia. }
  rewrite Happ, IH. lia.
Qed.

Lemma in_group_by (l : list A) (x : A) :
  In x l <-> exists entry, In entry (group_by key l) /\ In x (snd entry).
Proof.
  split.
  - intros Hx.
    destruct (dict_get (group_by key l) (key x)) as [vs|] eqn:E.
    + exists (key x, vs). split; [apply dict_get_In; exact E|].
      rewrite dict_get_group_by in E.
      destruct (List.filter (fun y => String.eqb (key y) (key x)) l) as [|y ys] eqn:Ef;
        [discriminate|].
      inversion E; subst vs. rewrite <- Ef. apply filter_In.
      split; [exact Hx | apply String.eqb_refl].
    + rewrite dict_get_group_by in E.
      destruct (List.filter (fun y => String.eqb (key y) (key x)) l) as [|y ys] eqn:Ef;
        [|discriminate].
      assert (Hin : In x (List.filter (fun y => String.eqb (key y) (key x)) l)).
      { apply filter_In. split; [exact Hx | apply String.eqb_refl]. }
      rewrite Ef in Hin. destruct Hin.
  - intros ([k vs] & Hin & Hx). simpl in Hx.
    apply In_dict_get in Hin; [|apply NoDup_keys_group_by].
    rewrite dict_get_group_by in Hin.
    destruct (List.filter (fun y => String.eqb (key y) k) l) as [|y ys] eqn:Ef;
      [discriminate|].
    inversion Hin; subst vs. rewrite <- Ef in Hx.
    apply filter_In in Hx as [Hx _]. exact Hx.
Qed.

Lemma group_by_entry_key (l : list A) (k : string) (vs : list A) :
  In (k, vs) (group_by key l) ->
  vs <> [] /\ forall x, In x vs -> In x l /\ key x = k.
Proof.
  intros Hin. apply In_dict_get in Hin; [|apply NoDup_keys_group_by].
  rewrite dict_get_group_by in Hin.
  destruct (List.filter (fun y => String.eqb (key y) k) l) as [|y ys] eqn:Ef;
    [discriminate|].
  inversion Hin; subst vs. split; [discriminate|].
  intros x Hx. rewrite <- Ef in Hx. apply filter_In in Hx as [Hx Hk].
  apply String.eqb_eq in Hk. auto.
Qed.

End Grouping.

(** *** Sorting a sorted list *)

Lemma sort_by_sorted_id {A : Type} (key : A -> Z) (l : list A) :
  sorted_by key l -> sort_by key l = l.
Proof.
  induction l as [|x l IH]; [reflexivity|]. simpl. intros [Hx Hl].
  rewrite (IH Hl). destruct l as [|y l]; [reflexivity|]. simpl.
  inversion Hx as [|? ? Hxy _]; subst.
  destruct (key x <=? key y) eqn:E; [reflexivity|].
  apply Z.leb_gt in E. lia.
Qed.

Section Consolidation.

Variable strptime : string -> option Z.
Variable round2 : Q -> Q.

Abbreviation entrada := (parse_data_entrada strptime).
Abbreviation saida := (parse_data_saida strptime).
Abbreviation sessao := (sessao_da_run strptime round2).

Lemma consolidar_veiculo_runs (eventos_veiculo : list Evento) :
  Relatorio.consolidar_veiculo strptime round2 eventos_veiculo
  = map sessao (runs_de (sort_by entrada eventos_veiculo)).
Proof.
  unfold Relatorio.consolidar_veiculo.
  rewrite <- (runs_de_eventos (sort_by entrada eventos_veiculo)) at 1 2.
  apply consolidar_sequencias_runs; [apply runs_de_maximais | lia].
Qed.

Lemma sessao_mesma (r : Run) :
  Placa_Veiculo (sessao r) = Placa_Veiculo (fst r)
  /\ Descricao_POI (sessao r) = Descricao_POI (fst r)
  /\ Data_Entrada (sessao r) = Data_Entrada (fst r).
Proof.
  destruct (sessao_da_run_spec strptime round2 r) as (_ & Hp & Hd & _ & He & _).
  auto.
Qed.

Lemma entrada_sessao (r : Run) : entrada (sessao r) = entrada (fst r).
Proof.
  unfold parse_data_entrada. destruct (sessao_mesma r) as (_ & _ & ->). reflexivity.
Qed.

Lemma sorted_sessoes (rs : list Run) :
  sorted_by entrada (flat_map eventos_da_run rs) -> sorted_by entrada (map sessao rs).
Proof.
  induction rs as [|r rs IH]; [auto|].
  cbn [flat_map map]. unfold eventos_da_run at 1. simpl.
  intros [Hf Hs]. apply sorted_by_app in Hs as [_ Hs]. split; [|apply IH; exact Hs].
  apply List.Forall_forall. intros s Hs'.
  apply in_map_iff in Hs' as (r' & <- & Hr').
  rewrite !entrada_sessao. rewrite List.Forall_forall in Hf. apply Hf.
  apply in_or_app. right. apply in_flat_map. exists r'. split; [exact Hr'|].
  left. reflexivity.
Qed.

Lemma runs_de_sessoes (rs : list Run) :
  runs_maximais rs -> runs_de (map sessao rs) = map (fun r => (sessao r, [])) rs.
Proof.
  induction rs as [|r rs IH]; [reflexivity|].
  intros (_ & Hn & Hr). cbn [map runs_de]. rewrite (IH Hr).
  destruct rs as [|r' rs]; [reflexivity|]. cbn [map].
  destruct (sessao_mesma r) as (_ & -> & _). destruct (sessao_mesma r') as (_ & -> & _).
  destruct (String.eqb_spec (Descricao_POI (fst r')) (Descricao_POI (fst r)));
    [contradiction | reflexivity].
Qed.

(** Consolidating the sessions of a vehicle again changes nothing. *)
Lemma consolidar_veiculo_idem (eventos_veiculo : list Evento) :
  Relatorio.consolidar_veiculo strptime round2
    (Relatorio.consolidar_veiculo strptime round2 eventos_veiculo)
  = Relatorio.consolidar_veiculo strptime round2 eventos_veiculo.
Proof.
  rewrite (consolidar_veiculo_runs eventos_veiculo).
  set (rs := runs_de (sort_by entrada eventos_veiculo)).
  assert (Hmax : runs_maximais rs) by apply runs_de_maximais.
  assert (Hsorted : sorted_by entrada (map sessao rs)).
  { apply sorted_sessoes. unfold rs. rewrite runs_de_eventos. apply sort_by_sorted. }
  rewrite consolidar_veiculo_runs, (sort_by_sorted_id _ _ Hsorted),
    (runs_de_sessoes rs Hmax), map_map.
  apply map_ext. intros r. reflexivity.
Qed.

Lemma runs_de_nil (eventos : list Evento) : runs_de eventos = [] -> eventos = [].
Proof. intros H. rewrite <- (runs_de_eventos eventos), H. reflexivity. Qed.

Lemma length_runs_de (eventos : list Evento) :
  (length (runs_de eventos) <= length eventos)%nat.
Proof.
  rewrite <- (runs_de_eventos eventos) at 2.
  induction (runs_de eventos) as [|r rs IH]; simpl; [lia|].
  rewrite length_app. lia.
Qed.

(** The sessions of a vehicle bear its plate, and there is one at
    least. *)
Lemma consolidar_veiculo_placa (eventos_veiculo : list Evento) (k : string) :
  eventos_veiculo <> [] ->
  (forall e, In e eventos_veiculo -> Placa_Veiculo e = k) ->
  Relatorio.consolidar_veiculo strptime round2 eventos_veiculo <> []
  /\ forall s, In s (Relatorio.consolidar_veiculo strptime round2 eventos_veiculo) ->
               Placa_Veiculo s = k.
Proof.
  intros Hne Hk. rewrite consolidar_veiculo_runs. split.
  - intros E. apply map_eq_nil in E. apply runs_de_nil in E.
    apply Hne. pose proof (sort_by_length entrada eventos_veiculo) as Hl.
    rewrite E in Hl. destruct eventos_veiculo; [reflexivity | discriminate].
  - intros s Hs. apply in_map_iff in Hs as (r & <- & Hr).
    destruct (sessao_mesma r) as (-> & _). apply Hk.
    apply (sort_by_In entrada). rewrite <- (runs_de_eventos (sort_by entrada eventos_veiculo)).
    apply in_flat_map. exists r. split; [exact Hr | left; reflexivity].
Qed.

Lemma consolidar_por_veiculo (eventos_processados : list Evento) :
  Relatorio.consolidar_eventos_consecutivos strptime round2 eventos_processados
  = flat_map snd (ConsolidationSpec.por_veiculo strptime round2 eventos_processados).
Proof.
  unfold Relatorio.consolidar_eventos_consecutivos, ConsolidationSpec.por_veiculo.
  induction (group_by Placa_Veiculo eventos_processados) as [|entry d IH];
    [reflexivity|].
  simpl. rewrite IH. reflexivity.
Qed.

Lemma group_by_por_veiculo (eventos_processados : list Evento) :
  group_by Placa_Veiculo (flat_map snd (ConsolidationSpec.por_veiculo strptime round2 eventos_processados))
  = ConsolidationSpec.por_veiculo strptime round2 eventos_processados.
Proof.
  apply group_by_blocks.
  - unfold ConsolidationSpec.por_veiculo. rewrite map_map. simpl. apply NoDup_keys_group_by.
  - intros k vs Hin. unfold ConsolidationSpec.por_veiculo in Hin.
    apply in_map_iff in Hin as ([k' evs] & E & Hin). simpl in E.
    inversion E; subst k' vs. clear E.
    destruct (group_by_entry_key _ _ _ _ Hin) as [Hne Hk].
    apply consolidar_veiculo_placa; [exact Hne|].
    intros e He. apply (Hk e He).
Qed.

End Consolidation.

End ConsolidationFacts.

(** ** The SLA script: one detection cycle *)

Module EnhancedCycleFacts.

Import Enhanced EnhancedSpec PyFacts EnhancedFacts EnhancedPipeline EnhancedPipelineSpec
  EnhancedPipelineFacts EnhancedCycle EnhancedCycleSpec.
Local Open Scope Z_scope.

(** The limits of [sla_limites] are five or more. *)
Lemma sla_limites_ge_5 (f g : string) (limite : Z) :
  limite_de sla_limites f g = Some limite -> 5 <= limite.
Proof.
  unfold limite_de, sla_limites.
  assert (Hinner : forall (a b c d : Z),
             5 <= a -> 5 <= b -> 5 <= c -> 5 <= d ->
             ({[ "Fábrica"%string := a; "Terminal"%string := b;
                 "Manutenção"%string := c; "Ponto Apoio"%string := d ]}
                : gmap string Z) !! g = Some limite ->
             5 <= limite).
  { intros a b c d Ha Hb Hc Hd.
    destruct (String.eqb_spec g "Fábrica") as [->|H1];
      [rewrite lookup_insert_eq; intros E; inversion E; subst; exact Ha|].
    rewrite lookup_insert_ne by congruence.
    destruct (String.eqb_spec g "Terminal") as [->|H2];
      [rewrite lookup_insert_eq; intros E; inversion E; subst; exact Hb|].
    rewrite lookup_insert_ne by congruence.
    destruct (String.eqb_spec g "Manutenção") as [->|H3];
      [rewrite lookup_insert_eq; intros E; inversion E; subst; exact Hc|].
    rewrite lookup_insert_ne by congruence.
    destruct (String.eqb_spec g "Ponto Apoio") as [->|H4];
      [rewrite lookup_singleton_eq; intros E; inversion E; subst; exact Hd|].
    rewrite lookup_singleton_ne by congruence. discriminate. }
  destruct (String.eqb_spec f "RRP") as [->|Hr].
  { rewrite lookup_insert_eq. simpl. apply Hinner; lia. }
  rewrite lookup_insert_ne by congruence.
  destruct (String.eqb_spec f "TLS") as [->|Ht].
  { rewrite lookup_singleton_eq. simpl. apply Hinner; lia. }
  rewrite lookup_singleton_ne by congruence. simpl. rewrite lookup_empty. discriminate.
Qed.

(** The keys of the groups of valid vehicles are among eight. *)
Lemma chave_grupo_valido janelas veiculo :
  veiculo_valido janelas veiculo -> In (chave_grupo veiculo) chaves_sla.
Proof.
  intros (_ & _ & _ & Hf & _ & Hg & _). unfold chave_grupo.
  destruct Hf as [-> | ->];
    (destruct Hg as [<-|[<-|[<-|[<-|[]]]]]; vm_compute; tauto).
Qed.

Lemma length_grupos_validos janelas (veiculos_ativos : list Veiculo) :
  Forall (veiculo_valido janelas) veiculos_ativos ->
  (length (group_by chave_grupo veiculos_ativos) <= 8)%nat.
Proof.
  intros Hall.
  rewrite <- (length_map fst).
  change 8%nat with (length chaves_sla).
  apply NoDup_incl_length; [apply NoDup_keys_group_by|].
  intros k Hk. apply in_map_iff in Hk as (entry & <- & Hin).
  apply group_by_keys in Hin as (v & Hv & <-).
  rewrite List.Forall_forall in Hall.
  apply (chave_grupo_valido janelas). apply Hall. exact Hv.
Qed.

(** At most one deviation per group. *)
Lemma length_desvios limites ts (grupos : list (string * list Veiculo)) :
  (length (flat_map (desvio_do_grupo limites ts) grupos) <= length grupos)%nat.
Proof.
  induction grupos as [|[k vs] grupos IH]; [simpl; lia|].
  cbn [flat_map]. rewrite length_app. unfold desvio_do_grupo at 1. cbn [fst snd].
  destruct (split_underscore k) as [[f g]|]; [|simpl; lia].
  destruct (limite_de limites f g) as [lim|]; [|simpl; lia].
  destruct (lim <? Z.of_nat (length vs)); simpl; lia.
Qed.

(** The events of the deviations: one per vehicle of each deviating
    group. *)
Lemma length_eventos bq limites ts execution_id (grupos : list (string * list Veiculo)) :
  let desvios := flat_map (desvio_do_grupo limites ts) grupos in
  Z.of_nat (length (processar_escalonamento_niveis bq desvios execution_id))
  = fold_right Z.add 0 (map qtd_veiculos desvios)
  /\ fold_right Z.add 0 (map qtd_veiculos desvios)
     <= Z.of_nat (length (flat_map snd grupos)).
Proof.
  unfold processar_escalonamento_niveis.
  induction grupos as [|[k vs] grupos [IH1 IH2]]; [simpl; lia|].
  cbn [flat_map]. rewrite !flat_map_app, !map_app, !length_app, Nat2Z.inj_add.
  assert (Hfold : forall a b : list Z,
             fold_right Z.add 0 (a ++ b) = fold_right Z.add 0 a + fold_right Z.add 0 b).
  { induction a as [|x a IHa]; intros b; simpl; [reflexivity|]. rewrite IHa. lia. }
  rewrite Hfold. cbv zeta in IH1, IH2. rewrite IH1.
  unfold desvio_do_grupo at 1 3 5. cbn [fst snd].
  destruct (split_underscore k) as [[f g]|]; [|simpl; lia].
  destruct (limite_de limites f g) as [lim|]; [|simpl; lia].
  destruct (lim <? Z.of_nat (length vs)); [|simpl; lia].
  cbn [flat_map map fold_right veiculos qtd_veiculos app].
  rewrite app_nil_r.
  destruct (nivel_e_horas bq _). rewrite length_map. lia.
Qed.

(** Each deviation of [sla_limites] counts six vehicles or more. *)
Lemma qtd_desvios_sla ts (grupos : list (string * list Veiculo)) :
  let desvios := flat_map (desvio_do_grupo sla_limites ts) grupos in
  6 * Z.of_nat (length desvios) <= fold_right Z.add 0 (map qtd_veiculos desvios).
Proof.
  induction grupos as [|[k vs] grupos IH]; [simpl; lia|].
  cbn [flat_map]. cbv zeta in IH. rewrite map_app, length_app, Nat2Z.inj_add.
  assert (Hfold : forall a b : list Z,
             fold_right Z.add 0 (a ++ b) = fold_right Z.add 0 a + fold_right Z.add 0 b).
  { induction a as [|x a IHa]; intros b; simpl; [reflexivity|]. rewrite IHa. lia. }
  rewrite Hfold.
  unfold desvio_do_grupo at 1 3. cbn [fst snd].
  destruct (split_underscore k) as [[f g]|]; [|cbn [length map fold_right]; lia].
  destruct (limite_de sla_limites f g) as [lim|] eqn:El; [|cbn [length map fold_right]; lia].
  destruct (lim <? Z.of_nat (length vs)) eqn:Elt; [|cbn [length map fold_right]; lia].
  apply Z.ltb_lt in Elt. pose proof (sla_limites_ge_5 f g lim El).
  cbn [length map fold_right qtd_veiculos]. change (Z.of_nat 1) with 1. lia.
Qed.

(** The keys of the metrics can be unpacked. *)
Lemma metricas_chaves veiculos_ativos desvios_detectados :
  forallb (fun entry : string * Metrica =>
             match split_underscore (fst entry) with
             | Some _ => true
             | None => false
             end)
    (calcular_metricas veiculos_ativos desvios_detectados) = true.
Proof.
  unfold calcular_metricas.
  rewrite (metricas_em_ordem
             (metrica_do_grupo (group_by chave_grupo veiculos_ativos) desvios_detectados)).
  reflexivity.
Qed.

End EnhancedCycleFacts.

(** ** The report generator: from the events of the API to the rows *)

Module RelatorioEventosFacts.

Import Relatorio RelatorioSpec PySpec PyFacts PySorting RelatorioFacts ConsolidationFacts
  RelatorioEventos RelatorioEventosSpec.
Local Open Scope Z_scope.

(** Both filters let a POI through exactly when its branch is known. *)
Lemma deve_incluir_filial (descricao_poi : string) :
  deve_incluir descricao_poi = filial_conhecida descricao_poi.
Proof.
  unfold deve_incluir, filial_conhecida, obter_filial_poi, POIS_FILTRADOS.
  rewrite existsb_app.
  destruct (existsb (String.eqb descricao_poi) POIS_RRP); [reflexivity|].
  destruct (existsb (String.eqb descricao_poi) POIS_TLS); [reflexivity|].
  destruct (contains "Geral JSL RRP" descricao_poi && contains "Manuten" descricao_poi);
    reflexivity.
Qed.

Lemma filial_conhecida_filial (descricao_poi : string) :
  filial_conhecida descricao_poi = true ->
  obter_filial_poi descricao_poi = "RRP"%string
  \/ obter_filial_poi descricao_poi = "TLS"%string.
Proof.
  unfold filial_conhecida, obter_filial_poi.
  destruct (existsb (String.eqb descricao_poi) POIS_RRP); [auto|].
  destruct (existsb (String.eqb descricao_poi) POIS_TLS); [auto|].
  destruct (contains "Geral JSL RRP" descricao_poi && contains "Manuten" descricao_poi);
    [auto | discriminate].
Qed.

Section Processing.

Variable lower : string -> string.
Variable grupos : list (string * string).
Variable strftime_local : string -> option string.
Variable strptime : string -> option Z.
Variable round2 : Q -> Q.

Abbreviation processar :=
  (processar_eventos lower grupos strftime_local strptime round2).

Lemma processar_eventos_pois (eventos : list ApiEvento) :
  map Descricao_POI (processar eventos)
  = List.filter filial_conhecida (map fenceDescription eventos).
Proof.
  unfold processar_eventos.
  induction eventos as [|evento eventos IH]; [reflexivity|].
  cbn [flat_map map List.filter]. rewrite map_app, IH.
  unfold processar_evento. rewrite deve_incluir_filial.
  destruct (filial_conhecida (fenceDescription evento)); reflexivity.
Qed.

Lemma processar_eventos_da_filial (eventos : list ApiEvento) :
  Forall da_filial (processar eventos).
Proof.
  apply List.Forall_forall. intros p Hp. unfold processar_eventos in Hp.
  apply in_flat_map in Hp as (evento & _ & Hp). unfold processar_evento in Hp.
  rewrite deve_incluir_filial in Hp.
  destruct (filial_conhecida (fenceDescription evento)) eqn:E; [|destruct Hp].
  destruct Hp as [<-|[]]. split; [reflexivity|]. cbn [Filial].
  apply filial_conhecida_filial. exact E.
Qed.

Lemma length_processar_filtrados (eventos : list ApiEvento) :
  Forall (fun evento => deve_incluir (fenceDescription evento) = true) eventos ->
  length (processar eventos) = length eventos.
Proof.
  unfold processar_eventos.
  induction 1 as [|evento eventos He _ IH]; [reflexivity|].
  cbn [flat_map]. rewrite length_app, IH. unfold processar_evento. rewrite He.
  reflexivity.
Qed.

(** Every session of the consolidation has the branch, the plate, the POI
    and the group of an event of the input. *)
Lemma sessao_de_um_evento (eventos_processados : list Evento) (s : Evento) :
  In s (Relatorio.consolidar_eventos_consecutivos strptime round2 eventos_processados) ->
  exists e,
    In e eventos_processados
    /\ Filial s = Filial e /\ Placa_Veiculo s = Placa_Veiculo e
    /\ Descricao_POI s = Descricao_POI e /\ Grupo_POI s = Grupo_POI e.
Proof.
  unfold Relatorio.consolidar_eventos_consecutivos. intros Hs.
  apply in_flat_map in Hs as ([k evs] & Hin & Hs). cbn [snd] in Hs.
  destruct (group_by_entry_key _ _ _ _ Hin) as [_ Hk].
  rewrite (consolidar_veiculo_runs strptime round2 evs) in Hs.
  apply in_map_iff in Hs as (r & <- & Hr).
  exists (fst r). split.
  - apply Hk. apply (proj1 (sort_by_In (parse_data_entrada strptime) evs (fst r))).
    rewrite <- (runs_de_eventos (sort_by (parse_data_entrada strptime) evs)).
    apply in_flat_map. exists r. split; [exact Hr | left; reflexivity].
  - destruct (sessao_da_run_spec strptime round2 r) as (_ & Hp & Hd & Hg & _).
    split; [|auto]. unfold sessao_da_run. destruct (snd r); reflexivity.
Qed.

End Processing.

End RelatorioEventosFacts.

(** * The properties *)

Import Detector DetectorSpec DetectorFacts.
Local Open Scope Z_scope.


Ltac by_computation_neq :=
  intros;
  repeat match goal with |- _ /\ _ => split end;
  vm_compute; first [reflexivity | discriminate | congruence].

(** ** The deviation detector: C1, C2, C3, C8, C9, C10 *)

(** C1 as stated fails where the thresholds configured for a POI are not
    in increasing order: the levels are tried from N4 down, each against its
    own threshold, so with N1 configured at 20 hours a dwell of 13 hours,
    which is below the N1 threshold, has the candidate level N4 and yields a
    deviation.  The thresholds are those of the POI name, not of the group:
    of two sessions of the same group with a dwell of 3 hours, the one at the
    POI configured this way yields nothing and the one at a POI without
    configuration yields a deviation at N1.  The ladder of
    [calcular_proximo_nivel] is another one: it names a level at 0 hours and
    N2 at 1 hour. *)
Lemma C1_counterexample_unordered_thresholds :
  let thresholds : Thresholds :=
    fun l => Some (match l with N1 => 20 | N2 => 4 | N3 => 8 | N4 => 12 end)%Q in
  let poi_thresholds : gmap string Thresholds :=
    {[ "Carregamento Fabrica RRP"%string := thresholds ]} in
  let other : Session :=
    {| vehicle_plate := "XYZ9W87"; vehicle_id := "43"; poi_name := "Fabrica RRP";
       poi_group := "Fábrica"; filial := "RRP";
       entry_timestamp := Some (datetime_of 2025 8 7 5 0 0);
       duration_hours := 3 |} in
  (13 < threshold_in_force thresholds N1)%Q
  /\ _calculate_alert_level 13 thresholds = Some N4
  /\ (exists deviation,
         detect_deviations Sample.all_up ∅ poi_thresholds Sample.t0 [Sample.session 13]
         = [deviation]
         /\ dev_current_level deviation = N4)
  /\ poi_group other = poi_group (Sample.session 3)
  /\ duration_hours other = duration_hours (Sample.session 3)
  /\ (exists deviation,
         detect_deviations Sample.all_up ∅ poi_thresholds Sample.t0
           [Sample.session 3; other] = [deviation]
         /\ dev_vehicle_plate deviation = vehicle_plate other
         /\ dev_current_level deviation = N1)
  /\ map Enhanced.calcular_proximo_nivel [0; 1] = [N1; N2].
Proof.
  intros thresholds poi_thresholds other.
  split; [reflexivity|]. split; [reflexivity|].
  split; [|split; [reflexivity|split; [|split; [|reflexivity]]]].
  - destruct (detect_deviations Sample.all_up ∅ poi_thresholds Sample.t0
                [Sample.session 13]) as [|d [|d' ds]] eqn:E;
      try (vm_compute in E; discriminate).
    exists d. split; [reflexivity|].
    vm_compute in E. inversion E. reflexivity.
  - reflexivity.
  - destruct (detect_deviations Sample.all_up ∅ poi_thresholds Sample.t0
                [Sample.session 3; other]) as [|d [|d' ds]] eqn:E;
      try (vm_compute in E; discriminate).
    exists d. split; [reflexivity|].
    vm_compute in E. inversion E. split; reflexivity.
Qed.

(** C1 (amended). The thresholds of a session are those configured under
    the name of its POI, level by level, with 2h, 4h, 8h and 12h for N1 to
    N4 where nothing is configured.  The candidate level is the highest level
    whose threshold the dwell meets, and there is none exactly when the dwell
    meets no threshold; when the thresholds do not decrease from N1 to N4,
    that is exactly when the dwell is strictly below the N1 threshold.  A
    deviation that the analysis of the session emits is at the candidate
    level; with no candidate level the analysis yields nothing and the run
    (alerts and stored states) is what it would be without the session. *)
Theorem C1_candidate_level_from_dwell :
  forall (system_offset : Z) (io : Services) (alert_states : gmap string AlertState)
         (poi_thresholds : gmap string Thresholds) (detection_timestamp : datetime)
         (session : Session),
    let thresholds := default default_thresholds (poi_thresholds !! poi_name session) in
    let dwell := duration_hours session in
    (forall l,
        threshold_in_force thresholds l
        = match poi_thresholds !! poi_name session with
          | Some configured =>
              match configured l with
              | Some hours => hours
              | None => ladder_hours l
              end
          | None => ladder_hours l
          end)
    /\ (forall l, _calculate_alert_level dwell thresholds = Some l <->
                  (threshold_in_force thresholds l <= dwell)%Q
                  /\ forall l', (level_hierarchy l < level_hierarchy l')%Z ->
                                (dwell < threshold_in_force thresholds l')%Q)
    /\ (_calculate_alert_level dwell thresholds = None <->
        forall l, (dwell < threshold_in_force thresholds l)%Q)
    /\ (poi_thresholds !! poi_name session = None ->
        (_calculate_alert_level dwell thresholds = None <-> (dwell < 2)%Q)
        /\ (_calculate_alert_level dwell thresholds = Some N1 <-> (2 <= dwell /\ dwell < 4)%Q)
        /\ (_calculate_alert_level dwell thresholds = Some N2 <-> (4 <= dwell /\ dwell < 8)%Q)
        /\ (_calculate_alert_level dwell thresholds = Some N3 <-> (8 <= dwell /\ dwell < 12)%Q)
        /\ (_calculate_alert_level dwell thresholds = Some N4 <-> (12 <= dwell)%Q))
    /\ (thresholds_ordered thresholds ->
        (_calculate_alert_level dwell thresholds = None <->
         (dwell < threshold_in_force thresholds N1)%Q))
    /\ (forall deviation,
           _analyze_session_for_deviation session
             (_get_current_alert_states io alert_states) poi_thresholds
             detection_timestamp = Return (Some deviation) ->
           _calculate_alert_level dwell thresholds = Some (dev_current_level deviation))
    /\ (_calculate_alert_level dwell thresholds = None ->
        _analyze_session_for_deviation session
          (_get_current_alert_states io alert_states) poi_thresholds
          detection_timestamp = Return None
        /\ forall pre post,
             detect_poi_deviations system_offset io alert_states poi_thresholds
               detection_timestamp (pre ++ session :: post)
             = detect_poi_deviations system_offset io alert_states poi_thresholds
                 detection_timestamp (pre ++ post)).
Proof.
  intros so io states th ts session thresholds dwell.
  assert (Hnone : _calculate_alert_level dwell thresholds = None <->
                  forall l, (dwell < threshold_in_force thresholds l)%Q).
  { rewrite calculate_alert_level_None. unfold met.
    split; intros H l; specialize (H l); [apply Qnot_le_lt | apply Qlt_not_le]; exact H. }
  split; [|split; [|split; [exact Hnone|split; [|split; [|split]]]]].
  - intros l. subst thresholds.
    destruct (th !! poi_name session) as [configured|]; reflexivity.
  - intros l. rewrite calculate_alert_level_Some. unfold met.
    split; intros [Hm Hh]; (split; [exact Hm|]); intros l' Hl'; specialize (Hh l' Hl');
      [apply Qnot_le_lt | apply Qlt_not_le]; exact Hh.
  - intros Hno. subst thresholds. rewrite Hno. simpl. apply default_ladder.
  - intros Hord. split.
    + intros H. apply Hnone. exact H.
    + intros H. apply below_N1_no_level; assumption.
  - intros d Hd. apply (analyze_emits _ _ _ _ _ Hd).
  - intros Hno.
    assert (Han : forall st, _analyze_session_for_deviation session st th ts = Return None)
      by (intros st; apply analyze_no_level; exact Hno).
    split; [apply Han|].
    intros pre post. apply detect_poi_deviations_skip.
    intros d. rewrite Han. discriminate.
Qed.

Example sample_key : session_key (Sample.session 3) = Sample.key.
Proof. reflexivity. Qed.

Example sample_deviation :
  _analyze_session_for_deviation (Sample.session 5) ∅ ∅ Sample.t0
  = Return (Some (Sample.deviation Sample.t0)).
Proof. vm_compute. reflexivity. Qed.

Lemma C1_candidate_level_from_dwell_witness :
  thresholds_ordered default_thresholds
  /\ _calculate_alert_level 3 default_thresholds = Some N1
  /\ _calculate_alert_level (3 # 2) default_thresholds = None
  /\ detect_poi_deviations 0 Sample.all_up ∅ ∅ Sample.t0 [Sample.session (3 # 2)]
     = ([], ∅).
Proof.
  pose proof (C1_candidate_level_from_dwell 0 Sample.all_up ∅ ∅ Sample.t0
                (Sample.session (3 # 2))) as (_ & _ & _ & _ & Hord & _ & Hrun).
  split; [exact default_thresholds_ordered|].
  split; [reflexivity|].
  assert (Hnone : _calculate_alert_level (3 # 2) default_thresholds = None).
  { apply (Hord default_thresholds_ordered). reflexivity. }
  split; [exact Hnone|].
  destruct (Hrun Hnone) as [_ H]. exact (H [] []).
Defined.






(** C8 as stated fails on its last clause: while storage is unavailable
    the thresholds cannot be read either, [_get_poi_thresholds] answers with
    the empty dictionary and the ladder of 2h, 4h, 8h and 12h applies.  A
    dwell of one hour and a half at a POI configured with N1 at one hour
    alerts while storage answers and yields nothing while it is down.  And
    the first-alert branch does not always end in an alert: at a POI
    configured with a threshold for N1 only, a dwell of 13 hours has the
    candidate level N4, whose threshold cannot be read, and yields nothing. *)
Lemma C8_counterexample_thresholds_unread :
  let docs :=
    [{| DetectorServices.cfg_poi_name := "Carregamento Fabrica RRP";
        DetectorServices.cfg_escalation_hours :=
          DetectorServices.EscalationHoursGiven
            (fun l => Some (match l with N1 => 1 | N2 => 4 | N3 => 8 | N4 => 12 end)%Q) |}] in
  (exists deviation,
      detect_deviations Sample.all_up ∅
        (DetectorServices._get_poi_thresholds true docs) Sample.t0
        [Sample.session (3 # 2)] = [deviation]
      /\ dev_current_level deviation = N1)
  /\ detect_deviations Sample.lookup_down ∅
       (DetectorServices._get_poi_thresholds false docs) Sample.t0
       [Sample.session (3 # 2)] = []
  /\ let only_N1 : Thresholds := fun l => match l with N1 => Some 1%Q | _ => None end in
     _calculate_alert_level 13 only_N1 = Some N4
     /\ _should_escalate N4 None Sample.t0 = true
     /\ detect_deviations Sample.lookup_down ∅
          {[ "Carregamento Fabrica RRP"%string := only_N1 ]} Sample.t0
          [Sample.session 13] = [].
Proof.
  intros docs. split; [|repeat split; vm_compute; reflexivity].
  destruct (detect_deviations Sample.all_up ∅
              (DetectorServices._get_poi_thresholds true docs) Sample.t0
              [Sample.session (3 # 2)]) as [|d [|d' ds]] eqn:E;
    try (vm_compute in E; discriminate).
  exists d. split; [reflexivity|].
  vm_compute in E. inversion E. reflexivity.
Qed.

(** C8 (amended). When the lookup of the stored states fails, every key is
    looked up as having no prior state and [_should_escalate] answers yes for
    every level.  Under the thresholds loaded in the cycle, a session with a
    candidate level whose threshold is configured yields a deviation at that
    level, with no previous state, which is among the deviations of the run;
    and whatever deviation the analysis would emit under the same thresholds
    against states that were read, it also emits, at the same level, when the
    read fails.  When the thresholds could not be read either, a session
    yields a deviation exactly when its dwell is at least 2 hours, at the
    level of the ladder of 2h, 4h, 8h and 12h. *)
Theorem C8_lookup_failure_fails_open :
  forall (io : Services) (alert_states : gmap string AlertState)
         (poi_thresholds : gmap string Thresholds) (detection_timestamp : datetime)
         (session : Session),
    firestore_read_ok io = false ->
    let current_states := _get_current_alert_states io alert_states in
    current_states !! session_key session = None
    /\ (forall level,
           _should_escalate level (current_states !! session_key session)
             detection_timestamp = true)
    /\ (forall level threshold,
           _calculate_alert_level (duration_hours session)
             (default default_thresholds (poi_thresholds !! poi_name session))
           = Some level ->
           default default_thresholds (poi_thresholds !! poi_name session) level
           = Some threshold ->
           exists deviation,
             _analyze_session_for_deviation session current_states poi_thresholds
               detection_timestamp = Return (Some deviation)
             /\ dev_current_level deviation = level
             /\ dev_previous_state deviation = None
             /\ forall pre post,
                  In deviation
                    (detect_deviations io alert_states poi_thresholds
                       detection_timestamp (pre ++ session :: post)))
    /\ (forall read_states deviation,
           _analyze_session_for_deviation session read_states poi_thresholds
             detection_timestamp = Return (Some deviation) ->
           exists deviation',
             _analyze_session_for_deviation session current_states poi_thresholds
               detection_timestamp = Return (Some deviation')
             /\ dev_current_level deviation' = dev_current_level deviation)
    /\ (forall docs,
           poi_thresholds = DetectorServices._get_poi_thresholds false docs ->
           ((2 <= duration_hours session)%Q <->
            exists deviation,
              _analyze_session_for_deviation session current_states poi_thresholds
                detection_timestamp = Return (Some deviation))
           /\ forall deviation,
                _analyze_session_for_deviation session current_states poi_thresholds
                  detection_timestamp = Return (Some deviation) ->
                dev_previous_state deviation = None
                /\ forall level,
                     dev_current_level deviation = level <->
                     (ladder_hours level <= duration_hours session)%Q
                     /\ forall level', level_hierarchy level < level_hierarchy level' ->
                                       (duration_hours session < ladder_hours level')%Q).
Proof.
  intros io states th ts session Hr current_states.
  assert (Hnone : current_states !! session_key session = None)
    by (apply current_states_failed; exact Hr).
  split; [exact Hnone|]. split; [|split; [|split]].
  - intros level. rewrite Hnone. reflexivity.
  - intros level q Hl Hq.
    destruct (analyze_alerts session current_states th ts level q Hl Hq)
      as (d & Hd & Hlev & Hprev).
    { rewrite Hnone. reflexivity. }
    exists d. repeat split; auto.
    + rewrite Hprev. exact Hnone.
    + intros pre post. apply in_detect_deviations. exists session.
      split; [|exact Hd]. apply in_or_app. right. left. reflexivity.
  - intros read_states d Hd.
    pose proof (analyze_emits _ _ _ _ _ Hd) as (_ & Hl & _).
    unfold _analyze_session_for_deviation in Hd |- *.
    rewrite Hl in Hd |- *. rewrite Hnone. simpl.
    destruct (_should_escalate _ _ ts); simpl in Hd; [|discriminate].
    destruct (default default_thresholds (th !! poi_name session) (dev_current_level d));
      [|discriminate].
    eexists. split; reflexivity.
  - intros docs ->. unfold DetectorServices._get_poi_thresholds.
    split; [split|].
    + intros Hd.
      destruct (_calculate_alert_level (duration_hours session) default_thresholds)
        as [l|] eqn:El.
      * destruct (analyze_alerts session current_states ∅ ts l (default_hours l))
          as (d & Hdev & _).
        { rewrite lookup_empty. exact El. }
        { rewrite lookup_empty. reflexivity. }
        { rewrite Hnone. reflexivity. }
        exists d. exact Hdev.
      * apply (proj1 (default_ladder _)) in El.
        exfalso. apply (Qlt_not_le _ _ El). exact Hd.
    + intros (d & Hdev).
      pose proof (analyze_emits _ _ _ _ _ Hdev) as (_ & Hl & _).
      rewrite lookup_empty in Hl. simpl in Hl.
      apply Qnot_lt_le. intros Hlt.
      apply (proj1 (default_ladder _)) in Hlt. rewrite Hlt in Hl. discriminate.
    + intros d Hdev.
      pose proof (analyze_emits _ _ _ _ _ Hdev) as (_ & Hl & _ & Hprev & _).
      rewrite lookup_empty in Hl. simpl in Hl.
      split; [rewrite Hprev; exact Hnone|].
      intros level. split.
      * intros <-. apply calculate_alert_level_Some in Hl. destruct Hl as [Hm Hh].
        split; [exact Hm|].
        intros l' Hl'. apply Qnot_le_lt. exact (Hh l' Hl').
      * intros [Hm Hh].
        assert (Hl2 : _calculate_alert_level (duration_hours session) default_thresholds
                      = Some level).
        { apply calculate_alert_level_Some. split; [exact Hm|].
          intros l' Hl'. apply Qlt_not_le. exact (Hh l' Hl'). }
        rewrite Hl in Hl2. inversion Hl2. reflexivity.
Qed.

Lemma C8_lookup_failure_fails_open_witness :
  (exists deviation,
      detect_deviations Sample.lookup_down
        {[ Sample.key := Sample.state N2 (IsoString Sample.t0) ]} ∅
        (Sample.plus_minutes Sample.t0 60) [Sample.session 5] = [deviation]
      /\ dev_current_level deviation = N2)
  /\ ((2 <= duration_hours (Sample.session (3 # 2)))%Q <->
      exists deviation,
        _analyze_session_for_deviation (Sample.session (3 # 2))
          (_get_current_alert_states Sample.lookup_down ∅) ∅ Sample.t0
        = Return (Some deviation)).
Proof.
  split.
  - destruct (C8_lookup_failure_fails_open Sample.lookup_down
                {[ Sample.key := Sample.state N2 (IsoString Sample.t0) ]} ∅
                (Sample.plus_minutes Sample.t0 60) (Sample.session 5) eq_refl)
      as (_ & _ & H & _).
    destruct (H N2 4%Q eq_refl eq_refl) as (d & Hd & Hl & _ & _).
    exists d. split; [|exact Hl].
    unfold detect_deviations. simpl flat_map. rewrite Hd. reflexivity.
  - destruct (C8_lookup_failure_fails_open Sample.lookup_down ∅ ∅ Sample.t0
                (Sample.session (3 # 2)) eq_refl) as (_ & _ & _ & _ & H).
    exact (proj1 (H [] eq_refl)).
Defined.

(** C9 as stated fails on "all whitespace": only the space character is
    removed, a tab stays in the normalised name. *)
Lemma C9_counterexample_tab_kept :
  let tabbed := String "A" (String "009" (String "B" EmptyString)) in
  normalize_poi_name tabbed = tabbed
  /\ normalize_poi_name tabbed <> "AB"%string.
Proof. by_computation_neq. Qed.

(** C9 (amended). The title is branch, normalised POI, level, date
    (ddmmyyyy) and time (hhmmss) joined by underscores, date and time being
    those of the detection instant with minutes, seconds and microseconds
    zeroed and then converted to UTC-4; the normalised name is the raw name
    without its space characters, then without the two-character sequence
    listed first among the special characters, then without the characters
    ? - . / \ ( ) [ ]; two deviations with the same branch, normalised POI and
    level whose detection instants lie in the same clock hour have the same
    title; and "Carregamento Fabrica RRP " is normalised to
    "CarregamentoFabricaRRP". *)
Theorem C9_alert_title :
  (forall system_offset deviation,
      let closed_hour :=
        replace_minute_second_microsecond_0 (dev_detection_timestamp deviation) in
      let local_time := astimezone system_offset (timezone (-4)) closed_hour in
      _generate_alert_title system_offset deviation =
      (dev_filial deviation +:+ "_" +:+ dev_poi_normalized deviation +:+ "_"
       +:+ level_name (dev_current_level deviation) +:+ "_"
       +:+ strftime_dmY local_time +:+ "_" +:+ strftime_HMS local_time)%string)
  /\ (forall session states thresholds detection_timestamp deviation,
         _analyze_session_for_deviation session states thresholds detection_timestamp
         = Return (Some deviation) ->
         dev_poi_normalized deviation = normalize_poi_name (poi_name session)
         /\ dev_filial deviation = filial session
         /\ dev_detection_timestamp deviation = detection_timestamp)
  /\ (forall poi_name,
         normalize_poi_name poi_name =
         str_filter (fun c => negb (existsb (Ascii.eqb c) punctuation))
           (str_remove "Â¿" (str_filter (fun c => negb (Ascii.eqb c " ")) poi_name)))
  /\ (forall system_offset d1 d2,
         dev_filial d1 = dev_filial d2 ->
         dev_poi_normalized d1 = dev_poi_normalized d2 ->
         dev_current_level d1 = dev_current_level d2 ->
         same_clock_hour (dev_detection_timestamp d1) (dev_detection_timestamp d2) ->
         _generate_alert_title system_offset d1 = _generate_alert_title system_offset d2)
  /\ normalize_poi_name "Carregamento Fabrica RRP " = "CarregamentoFabricaRRP"%string.
Proof.
  split; [|split; [|split; [|split]]].
  - intros so d. reflexivity.
  - intros session states th ts d H.
    unfold _analyze_session_for_deviation in H.
    destruct (_calculate_alert_level _ _) as [l|]; [|discriminate].
    destruct (negb _); [discriminate|].
    destruct (default default_thresholds (th !! poi_name session) l); [|discriminate].
    inversion H; subst; clear H. simpl. auto.
  - apply normalize_poi_name_closed_form.
  - intros so d1 d2 Hf Hp Hl Hh. unfold _generate_alert_title.
    rewrite Hf, Hp, Hl, (closed_hour_eq _ _ Hh). reflexivity.
  - vm_compute. reflexivity.
Qed.

Lemma C9_alert_title_witness :
  let d1 := Sample.deviation (datetime_of 2025 8 7 16 10 25) in
  let d2 := Sample.deviation (datetime_of 2025 8 7 16 45 0) in
  same_clock_hour (dev_detection_timestamp d1) (dev_detection_timestamp d2)
  /\ _generate_alert_title 0 d1 = _generate_alert_title 0 d2
  /\ _generate_alert_title 0 d1
     = "RRP_CarregamentoFabricaRRP_N2_07082025_120000"%string.
Proof.
  intros d1 d2.
  assert (Hh : same_clock_hour (dev_detection_timestamp d1) (dev_detection_timestamp d2))
    by (split; vm_compute; reflexivity).
  destruct C9_alert_title as (_ & _ & _ & Hsame & _).
  split; [exact Hh|]. split.
  - apply Hsame; [reflexivity | reflexivity | reflexivity | exact Hh].
  - vm_compute. reflexivity.
Defined.

(** C10 as stated leaves out a factor: with a missing entry timestamp and a
    prior state that has two history entries the score is 0.77, not 0.7. *)
Lemma C10_counterexample_repeated_pattern :
  let session := {| vehicle_plate := "ABC1D23"; vehicle_id := "42";
                    poi_name := "Carregamento Fabrica RRP";
                    poi_group := "Fábrica"; filial := "RRP";
                    entry_timestamp := None; duration_hours := 5 |} in
  let entry := {| entry_level := N1; entry_timestamp_iso := Sample.t0;
                  entry_duration_hours := 2; entry_alert_sent := true |} in
  let st := Sample.state N2 Absent in
  let prior := {|
    st_filial := st_filial st; st_poi_name := st_poi_name st;
    st_poi_normalized := st_poi_normalized st;
    st_vehicle_plate := st_vehicle_plate st; st_vehicle_id := st_vehicle_id st;
    st_current_level := st_current_level st; st_active := true;
    st_first_detection := st_first_detection st;
    st_last_updated := st_last_updated st;
    st_escalation_history := entry :: st_escalation_history st;
    st_alert_count := 2; st_last_alert_title := st_last_alert_title st;
    st_consecutive_hours := 4; st_entry_timestamp := None;
    st_actual_duration_hours := 4; st_deviation_magnitude := 0;
    st_ttl := st_ttl st; st_last_alert_sent := Absent |} in
  (_calculate_confidence_score session (Some prior) == 77 # 100)%Q
  /\ ~ (_calculate_confidence_score session (Some prior) == 7 # 10)%Q.
Proof. intros. split; vm_compute; congruence. Qed.

(** C10 (amended). The confidence score lies in (0, 1]; it is 1 multiplied
    by 0.7 when the entry timestamp is missing, by 0.9 when the group is
    empty or 'Unknown', and by 1.1 when the prior state has more than one
    history entry, capped at 1; without such a prior state it is the
    product of the two discounts. *)
Theorem C10_confidence_score :
  forall (session : Session) (current_state : option AlertState),
    let score := _calculate_confidence_score session current_state in
    (0 < score)%Q /\ (score <= 1)%Q
    /\ (score == confidence_of (entry_missing session) (group_unknown session)
                   (repeated_pattern current_state))%Q
    /\ (repeated_pattern current_state = false ->
        (score == (if entry_missing session then 7 # 10 else 1)
                  * (if group_unknown session then 9 # 10 else 1))%Q)
    /\ forall deviation states thresholds detection_timestamp,
         _analyze_session_for_deviation session states thresholds detection_timestamp
         = Return (Some deviation) ->
         dev_confidence_score deviation =
         _calculate_confidence_score session (states !! session_key session).
Proof.
  intros session current_state score.
  pose proof (confidence_score_eq session current_state) as Heq.
  pose proof (confidence_of_range (entry_missing session) (group_unknown session)
                (repeated_pattern current_state)) as [Hpos Hle].
  fold score in Heq.
  split; [rewrite Heq; exact Hpos|]. split; [rewrite Heq; exact Hle|].
  split; [exact Heq|]. split.
  - intros Hrep. rewrite Heq, Hrep.
    destruct (entry_missing session), (group_unknown session); vm_compute; reflexivity.
  - intros d states th ts H.
    unfold _analyze_session_for_deviation in H.
    destruct (_calculate_alert_level _ _) as [l|]; [|discriminate].
    destruct (negb _); [discriminate|].
    destruct (default default_thresholds (th !! poi_name session) l); [|discriminate].
    inversion H; subst; clear H. reflexivity.
Qed.

Lemma C10_confidence_score_witness :
  (_calculate_confidence_score (Sample.session 5) None == 1)%Q.
Proof.
  destruct (C10_confidence_score (Sample.session 5) None) as (_ & _ & _ & H & _).
  rewrite (H eq_refl). vm_compute. reflexivity.
Defined.

(** ** The SLA evaluator: C4 *)

Import PyFacts Enhanced EnhancedSpec EnhancedFacts.
Local Open Scope Z_scope.

(** C4. Given vehicles whose branch names hold no underscore (the evaluator
    keys its groups by branch, underscore, group), the evaluation returns, and
    for every branch and group with a limit that is not negative: when the
    number of vehicles of the group is at most the limit there is no
    deviation record for the group, and when it is greater there is exactly
    one, with that number as its count, the limit, the excess and the
    vehicles of the group; at the limit there is none, at the limit plus one
    there is one whose count is the limit plus one. *)
Theorem C4_sla_strictly_greater :
  forall (limites : gmap string (gmap string Z)) (veiculos_ativos : list Veiculo)
         (timestamp : datetime),
    Forall (fun v => contains "_" (filial v) = false) veiculos_ativos ->
    exists desvios,
      analisar_desvios_sla limites veiculos_ativos timestamp = Return desvios
      /\ forall f g limite,
           contains "_" f = false ->
           limite_de limites f g = Some limite ->
           0 <= limite ->
           let do_grupo_f_g := List.filter (no_grupo f g) veiculos_ativos in
           let n := Z.of_nat (length do_grupo_f_g) in
           (n <= limite -> List.filter (do_grupo f g) desvios = [])
           /\ (limite < n ->
               List.filter (do_grupo f g) desvios =
               [{| desvio_filial := f; desvio_grupo := g; qtd_veiculos := n;
                   limite_sla := limite; excesso := n - limite;
                   veiculos := do_grupo_f_g; timestamp_verificacao := timestamp |}])
           /\ (n = limite -> List.filter (do_grupo f g) desvios = [])
           /\ (n = limite + 1 ->
               exists desvio,
                 List.filter (do_grupo f g) desvios = [desvio]
                 /\ qtd_veiculos desvio = limite + 1).
Proof.
  intros limites veiculos ts Hall.
  destruct (analisar_desvios_sla_spec limites veiculos ts Hall) as (desvios & Hret & Hspec).
  exists desvios. split; [exact Hret|].
  intros f g limite Hf Hlim Hpos do_grupo_f_g n.
  assert (Hle : n <= limite -> List.filter (do_grupo f g) desvios = []).
  { intros Hn. rewrite (Hspec f g Hf). fold do_grupo_f_g.
    destruct do_grupo_f_g as [|v vs] eqn:E; [reflexivity|].
    unfold desvio_do_grupo. cbn [fst snd]. rewrite (split_underscore_app f g Hf), Hlim.
    fold n. destruct (limite <? n) eqn:Elt; [|reflexivity].
    apply Z.ltb_lt in Elt. lia. }
  assert (Hgt : limite < n ->
                List.filter (do_grupo f g) desvios =
                [{| desvio_filial := f; desvio_grupo := g; qtd_veiculos := n;
                    limite_sla := limite; excesso := n - limite;
                    veiculos := do_grupo_f_g; timestamp_verificacao := ts |}]).
  { intros Hn. rewrite (Hspec f g Hf). fold do_grupo_f_g.
    destruct do_grupo_f_g as [|v vs] eqn:E.
    - subst n. simpl in Hn. lia.
    - unfold desvio_do_grupo. cbn [fst snd]. rewrite (split_underscore_app f g Hf), Hlim.
      fold n. destruct (limite <? n) eqn:Elt; [reflexivity|].
      apply Z.ltb_ge in Elt. lia. }
  split; [exact Hle|]. split; [exact Hgt|]. split.
  - intros Hn. apply Hle. lia.
  - intros Hn. eexists. split; [apply Hgt; lia|]. exact Hn.
Qed.

Lemma C4_sla_strictly_greater_witness :
  (exists desvios,
      analisar_desvios_sla sla_limites SampleSLA.seis SampleSLA.agora = Return desvios
      /\ List.filter (do_grupo "RRP" "Fábrica") desvios = [])
  /\ (exists desvios desvio,
        analisar_desvios_sla sla_limites SampleSLA.sete SampleSLA.agora = Return desvios
        /\ List.filter (do_grupo "RRP" "Fábrica") desvios = [desvio]
        /\ qtd_veiculos desvio = 7).
Proof.
  split.
  - destruct (C4_sla_strictly_greater sla_limites SampleSLA.seis SampleSLA.agora)
      as (desvios & Hret & H); [repeat constructor|].
    exists desvios. split; [exact Hret|].
    destruct (H "RRP"%string "Fábrica"%string 6) as (_ & _ & Heq & _);
      [reflexivity | reflexivity | lia |].
    apply Heq. reflexivity.
  - destruct (C4_sla_strictly_greater sla_limites SampleSLA.sete SampleSLA.agora)
      as (desvios & Hret & H); [repeat constructor|].
    destruct (H "RRP"%string "Fábrica"%string 6) as (_ & _ & _ & Hone);
      [reflexivity | reflexivity | lia |].
    destruct Hone as (desvio & Hd & Hq); [reflexivity|].
    exists desvios, desvio. auto.
Defined.

Example sla_seis_sete :
  analisar_desvios_sla sla_limites SampleSLA.seis SampleSLA.agora = Return []
  /\ exists desvio,
       analisar_desvios_sla sla_limites SampleSLA.sete SampleSLA.agora = Return [desvio]
       /\ desvio_filial desvio = "RRP"%string /\ desvio_grupo desvio = "Fábrica"%string
       /\ qtd_veiculos desvio = 7 /\ limite_sla desvio = 6 /\ excesso desvio = 1.
Proof.
  split; [vm_compute; reflexivity|].
  eexists. split; [vm_compute; reflexivity|]. repeat split.
Qed.

(** ** The report generator: C7, C6 *)

Import Relatorio RelatorioSpec RelatorioFacts.
Local Open Scope Z_scope.

(** C7 as stated fails on the sentinel: with an empty table (no group file)
    every name is unresolved, and the result is the group "Não Classificado",
    not the sentinel "Não Mapeado"; the same holds for an empty name,
    although it is part of every key. *)
Lemma C7_counterexample_empty_table :
  obter_grupo_poi SampleGrupos.lower [] "Carregamento Fabrica" = "Não Classificado"%string
  /\ obter_grupo_poi SampleGrupos.lower [] "Carregamento Fabrica" <> "Não Mapeado"%string
  /\ obter_grupo_poi SampleGrupos.lower SampleGrupos.grupos "" = "Não Classificado"%string.
Proof. repeat split; vm_compute; first [reflexivity | discriminate]. Qed.

(** C7 (amended). With an empty table or an empty name the result is "Não
    Classificado".  Otherwise the result is the group of the exact entry when
    there is one; failing that, the group of the first key of the table that
    matches the name by containment, in lower case, one way or the other;
    failing that, "Não Mapeado".  The SLA evaluator, with the limits of the
    script, emits no deviation record for either sentinel group. *)
Theorem C7_group_resolution :
  forall (lower : string -> string) (grupos : list (string * string))
         (descricao_poi : string),
    (grupos = [] \/ descricao_poi = ""%string ->
     obter_grupo_poi lower grupos descricao_poi = "Não Classificado"%string)
    /\ (grupos <> [] -> descricao_poi <> ""%string ->
        (forall grupo, dict_get grupos descricao_poi = Some grupo ->
                       obter_grupo_poi lower grupos descricao_poi = grupo)
        /\ (dict_get grupos descricao_poi = None ->
            (forall before poi grupo after,
                grupos = before ++ (poi, grupo) :: after ->
                coincide lower descricao_poi poi = true ->
                (forall entry, In entry before ->
                               coincide lower descricao_poi (fst entry) = false) ->
                obter_grupo_poi lower grupos descricao_poi = grupo)
            /\ ((forall entry, In entry grupos ->
                               coincide lower descricao_poi (fst entry) = false) ->
                obter_grupo_poi lower grupos descricao_poi = "Não Mapeado"%string)))
    /\ (forall veiculos_ativos timestamp desvios,
           Enhanced.analisar_desvios_sla Enhanced.sla_limites veiculos_ativos timestamp
           = Return desvios ->
           forall desvio, In desvio desvios ->
             Enhanced.desvio_grupo desvio <> "Não Mapeado"%string
             /\ Enhanced.desvio_grupo desvio <> "Não Classificado"%string).
Proof.
  intros lower grupos descricao_poi. split; [|split].
  - apply obter_grupo_poi_guard.
  - intros Hg Hd. rewrite (obter_grupo_poi_unfold lower _ _ Hg Hd). split.
    + intros grupo ->. reflexivity.
    + intros ->. split.
      * intros before poi grupo after -> Hm Hb.
        rewrite (find_first _ before after (poi, grupo)); auto.
      * intros Hnone. rewrite find_nothing; auto.
  - intros veiculos ts desvios H desvio Hin. split.
    + apply (EnhancedFacts.sem_limite_sem_desvio _ _ _ _ _
               (fun f => proj1 (EnhancedFacts.sla_limites_sentinela f)) H).
      exact Hin.
    + apply (EnhancedFacts.sem_limite_sem_desvio _ _ _ _ _
               (fun f => proj2 (EnhancedFacts.sla_limites_sentinela f)) H).
      exact Hin.
Qed.

Lemma C7_group_resolution_witness :
  obter_grupo_poi SampleGrupos.lower SampleGrupos.grupos "Oficina JSL"
  = "Manutenção"%string
  /\ obter_grupo_poi SampleGrupos.lower SampleGrupos.grupos "DESCARGA INOCENCIA 2"
     = "Terminal"%string
  /\ obter_grupo_poi SampleGrupos.lower SampleGrupos.grupos "Posto Mutum"
     = "Não Mapeado"%string.
Proof.
  split; [|split].
  - destruct (C7_group_resolution SampleGrupos.lower SampleGrupos.grupos "Oficina JSL")
      as (_ & H & _).
    destruct H as [H _]; [discriminate | discriminate |].
    apply H. reflexivity.
  - destruct (C7_group_resolution SampleGrupos.lower SampleGrupos.grupos
                "DESCARGA INOCENCIA 2") as (_ & H & _).
    destruct H as [_ H]; [discriminate | discriminate |].
    destruct (H eq_refl) as [H1 _].
    apply (H1 [("Carregamento Fabrica RRP", "Fábrica")]%string "Descarga Inocencia"%string
              "Terminal"%string [("Oficina JSL", "Manutenção")]%string);
      [reflexivity | reflexivity |].
    intros entry [<-|[]]. reflexivity.
  - destruct (C7_group_resolution SampleGrupos.lower SampleGrupos.grupos "Posto Mutum")
      as (_ & H & _).
    destruct H as [_ H]; [discriminate | discriminate |].
    destruct (H eq_refl) as [_ H2]. apply H2.
    intros entry [<-|[<-|[<-|[]]]]; reflexivity.
Defined.

(** C6. For the events of one vehicle, sorted by entry (a stable sort, a
    missing or unreadable date first), the consolidation returns one session
    per maximal run of consecutive events at the same POI, in order: a run of
    one event gives that event unchanged; a longer run gives its first event
    with the exit of the event of the run that left last; the first event of
    a run is the one that entered first.  The whole consolidation is that of
    each vehicle, vehicle after vehicle.  Three events of one vehicle at one
    POI give one session, from the earliest of the three entries to the
    latest of the three exits. *)
Theorem C6_consecutive_same_poi :
  forall (strptime : string -> option Z) (round2 : Q -> Q),
    (forall eventos_veiculo,
        let ordenados := sort_by (parse_data_entrada strptime) eventos_veiculo in
        runs_maximais (runs_de ordenados)
        /\ flat_map eventos_da_run (runs_de ordenados) = ordenados
        /\ (forall rs,
               runs_maximais rs -> flat_map eventos_da_run rs = ordenados ->
               Relatorio.consolidar_veiculo strptime round2 eventos_veiculo
               = map (sessao_da_run strptime round2) rs
               /\ forall r, In r rs ->
                    let s := sessao_da_run strptime round2 r in
                    (snd r = [] -> s = fst r)
                    /\ Data_Entrada s = Data_Entrada (fst r)
                    /\ (forall e, In e (eventos_da_run r) ->
                                  parse_data_entrada strptime (fst r)
                                  <= parse_data_entrada strptime e)
                    /\ (exists ultimo,
                           In ultimo (eventos_da_run r)
                           /\ Data_Saida s = Data_Saida ultimo
                           /\ forall e, In e (eventos_da_run r) ->
                                        parse_data_saida strptime e
                                        <= parse_data_saida strptime ultimo)))
    /\ (forall eventos_processados,
           Relatorio.consolidar_eventos_consecutivos strptime round2 eventos_processados
           = flat_map (fun entry => Relatorio.consolidar_veiculo strptime round2 (snd entry))
               (group_by Placa_Veiculo eventos_processados)
           /\ forall placa,
                dict_get (group_by Placa_Veiculo eventos_processados) placa =
                match List.filter (fun e => String.eqb (Placa_Veiculo e) placa)
                        eventos_processados with
                | [] => None
                | eventos_veiculo => Some eventos_veiculo
                end)
    /\ (forall a b c,
           Placa_Veiculo a = Placa_Veiculo b -> Placa_Veiculo b = Placa_Veiculo c ->
           Descricao_POI a = Descricao_POI b -> Descricao_POI b = Descricao_POI c ->
           exists s,
             Relatorio.consolidar_eventos_consecutivos strptime round2 [a; b; c] = [s]
             /\ parse_data_entrada strptime s
                = Z.min (parse_data_entrada strptime a)
                    (Z.min (parse_data_entrada strptime b) (parse_data_entrada strptime c))
             /\ parse_data_saida strptime s
                = Z.max (parse_data_saida strptime a)
                    (Z.max (parse_data_saida strptime b) (parse_data_saida strptime c))).
Proof.
  intros strptime round2.
  assert (Hruns : forall eventos_veiculo rs,
             runs_maximais rs ->
             flat_map eventos_da_run rs
             = sort_by (parse_data_entrada strptime) eventos_veiculo ->
             Relatorio.consolidar_veiculo strptime round2 eventos_veiculo
             = map (sessao_da_run strptime round2) rs).
  { intros l rs Hmax Hflat. unfold Relatorio.consolidar_veiculo. rewrite <- Hflat.
    apply consolidar_sequencias_runs; [exact Hmax|]. lia. }
  split; [|split].
  - intros l ordenados.
    split; [apply runs_de_maximais|]. split; [apply runs_de_eventos|].
    intros rs Hmax Hflat. split; [apply Hruns; assumption|].
    intros r Hr s.
    destruct (sessao_da_run_spec strptime round2 r)
      as (H1 & _ & _ & _ & H2 & (u & Hu & Hs & _ & Hmaxu) & _).
    split; [exact H1|]. split; [exact H2|]. split.
    + apply (primeiro_da_run_sorted strptime rs r); [|exact Hr].
      rewrite Hflat. apply PySorting.sort_by_sorted.
    + exists u. auto.
  - intros eventos. split; [reflexivity|]. intros placa. apply PyFacts.dict_get_group_by.
  - intros a b c Hab Hbc Pab Pbc.
    unfold Relatorio.consolidar_eventos_consecutivos.
    rewrite (group_by_one_key Placa_Veiculo (Placa_Veiculo a) a [b; c]).
    2:{ intros y [<-|[<-|[<-|[]]]]; congruence. }
    cbn [flat_map snd]. rewrite app_nil_r.
    pose proof (PySorting.sort_by_length (parse_data_entrada strptime) [a; b; c]) as Hlen.
    pose proof (PySorting.sort_by_sorted (parse_data_entrada strptime) [a; b; c]) as Hsorted.
    pose proof (PySorting.sort_by_In (parse_data_entrada strptime) [a; b; c]) as Hin.
    destruct (sort_by (parse_data_entrada strptime) [a; b; c]) as [|x [|y [|z [|w l]]]] eqn:E;
      try discriminate Hlen.
    assert (Hpoi : forall e, In e [x; y; z] -> Descricao_POI e = Descricao_POI a).
    { intros e He. apply Hin in He as [<-|[<-|[<-|[]]]]; congruence. }
    rewrite (Hruns [a; b; c] [(x, [y; z])]).
    + cbn [map]. eexists. split; [reflexivity|].
      destruct (sessao_da_run_spec strptime round2 (x, [y; z]))
        as (_ & _ & _ & _ & Hent & (u & Hu & Hs & _ & Hmaxu) & _).
      unfold parse_data_entrada at 1. unfold parse_data_saida at 1.
      rewrite Hent, Hs.
      change (parse_data strptime (Data_Entrada (fst (x, [y; z]))))
        with (parse_data_entrada strptime x).
      change (parse_data strptime (Data_Saida u)) with (parse_data_saida strptime u).
      destruct Hsorted as (Hx & _).
      rewrite List.Forall_forall in Hx.
      assert (Hxa : forall e, In e [a; b; c] ->
                parse_data_entrada strptime x <= parse_data_entrada strptime e).
      { intros e He. apply Hin in He as [<-|He]; [lia|]. apply Hx. exact He. }
      assert (Hua : forall e, In e [a; b; c] ->
                parse_data_saida strptime e <= parse_data_saida strptime u).
      { intros e He. apply Hmaxu. apply Hin. exact He. }
      pose proof (Hxa a (or_introl eq_refl)).
      pose proof (Hxa b (or_intror (or_introl eq_refl))).
      pose proof (Hxa c (or_intror (or_intror (or_introl eq_refl)))).
      pose proof (Hua a (or_introl eq_refl)).
      pose proof (Hua b (or_intror (or_introl eq_refl))).
      pose proof (Hua c (or_intror (or_intror (or_introl eq_refl)))).
      assert (Hxin : In x [a; b; c]) by (apply Hin; left; reflexivity).
      assert (Huin : In u [a; b; c]) by (apply Hin; exact Hu).
      split.
      * destruct Hxin as [<-|[<-|[<-|[]]]]; lia.
      * destruct Huin as [<-|[<-|[<-|[]]]]; lia.
    + cbn. repeat split; auto. unfold mesma_poi. cbn [fst snd].
      constructor; [|constructor; [|constructor]].
      * rewrite (Hpoi y), (Hpoi x); [reflexivity| |]; simpl; auto.
      * rewrite (Hpoi z), (Hpoi x); [reflexivity| |]; simpl; auto.
    + rewrite E. reflexivity.
Qed.

Lemma C6_consecutive_same_poi_witness :
  exists s,
    Relatorio.consolidar_eventos_consecutivos SampleEventos.strptime SampleEventos.round2
      [SampleEventos.a; SampleEventos.b; SampleEventos.c] = [s]
    /\ Data_Entrada s = "07/08/2025 08:00:00"%string
    /\ Data_Saida s = "07/08/2025 11:45:00"%string.
Proof.
  destruct (C6_consecutive_same_poi SampleEventos.strptime SampleEventos.round2)
    as (_ & _ & H).
  destruct (H SampleEventos.a SampleEventos.b SampleEventos.c
              eq_refl eq_refl eq_refl eq_refl) as (s & Hs & _).
  exists s. split; [exact Hs|].
  assert (E : Relatorio.consolidar_eventos_consecutivos SampleEventos.strptime
                SampleEventos.round2
                [SampleEventos.a; SampleEventos.b; SampleEventos.c]
              = [{| Filial := "RRP"; Placa_Veiculo := "ABC1D23";
                    Descricao_POI := "Oficina JSL"; Grupo_POI := "Manutenção";
                    Data_Entrada := "07/08/2025 08:00:00";
                    Data_Saida := "07/08/2025 11:45:00";
                    Status := "Saiu da cerca"; Duracao := 15 # 4;
                    Data_Atualizacao := "07/08/2025 11:45:00";
                    Customer_Child_Id := "39450"; Vehicle_Id := "42";
                    Fence_Id := "7" |}])
    by (vm_compute; reflexivity).
  rewrite E in Hs. inversion Hs; subst. split; reflexivity.
Defined.

(** ** The earlier report generator: C5 *)

Import Relatorio RelatorioSpec RelatorioFacts Backup BackupSpec BackupFacts.
Local Open Scope Z_scope.

(** C5. For the events of one vehicle, sorted by entry, and a specific group
    of a related set that has events: the consolidation of the vehicle
    returns (nothing raises); the first event of the related set is the one
    that entered first; when the group has more than one event, or fewer
    events than the related set, the result holds exactly one session of the
    group: its first event, named after the group, with the entry of the
    first event of the whole related set, the exit of the event of the group
    that left last, and the duration between these two instants: the
    seconds from the entry to the exit, divided by 3600 and rounded to two
    decimals, 0 when the exit is before the entry or one of the two texts is
    empty or unreadable; when the group has one event and the related set no
    other, the result holds that event unchanged.  The whole consolidation is that of each vehicle, vehicle
    after vehicle. *)
Theorem C5_related_groups :
  forall (strptime : string -> option Z) (round2 : Q -> Q),
    (forall eventos_veiculo conjunto g s0 srest,
        In conjunto GRUPOS_RELACIONADOS -> In g conjunto ->
        let ordenados := sort_by (parse_data_entrada strptime) eventos_veiculo in
        let todos := List.filter (fun e => no_conjunto conjunto (Grupo_POI e)) ordenados in
        let do_grupo := List.filter (fun e => String.eqb (Grupo_POI e) g) ordenados in
        do_grupo = s0 :: srest ->
        exists saida_veiculo t0 trest,
          Backup.consolidar_veiculo strptime round2 eventos_veiculo = Return saida_veiculo
          /\ todos = t0 :: trest
          /\ (forall e, In e todos ->
                        parse_data_entrada strptime t0 <= parse_data_entrada strptime e)
          /\ let ultimo := max_by (parse_data_saida strptime) s0 srest in
             In ultimo do_grupo
             /\ (forall e, In e do_grupo ->
                           parse_data_saida strptime e <= parse_data_saida strptime ultimo)
             /\ (srest <> [] \/ (length do_grupo < length todos)%nat ->
                 exists sessao,
                   List.filter (fun o => String.eqb (Grupo_POI o) g) saida_veiculo = [sessao]
                   /\ sessao = sessao_consolidada strptime round2 g s0 t0 ultimo
                   /\ Data_Entrada sessao = Data_Entrada t0
                   /\ Data_Saida sessao = Data_Saida ultimo
                   /\ (forall entrada saida,
                          Data_Entrada t0 <> ""%string ->
                          Data_Saida ultimo <> ""%string ->
                          strptime (Data_Entrada t0) = Some entrada ->
                          strptime (Data_Saida ultimo) = Some saida ->
                          (entrada <= saida ->
                           Duracao sessao = round2 (Qmake (saida - entrada) 3600))
                          /\ (saida < entrada -> Duracao sessao = 0%Q))
                   /\ (Data_Entrada t0 = ""%string \/ Data_Saida ultimo = ""%string
                       \/ strptime (Data_Entrada t0) = None
                       \/ strptime (Data_Saida ultimo) = None ->
                       Duracao sessao = 0%Q))
             /\ (srest = [] -> length todos = 1%nat ->
                 List.filter (fun o => String.eqb (Grupo_POI o) g) saida_veiculo = [s0]))
    /\ (forall eventos_processados,
           Backup.consolidar_eventos_consecutivos strptime round2 eventos_processados
           = Return (flat_map (fun entry => saida_do_veiculo strptime round2 (snd entry))
                       (group_by Placa_Veiculo eventos_processados))).
Proof.
  intros strptime round2. split.
  - intros l conjunto g s0 srest Hc Hg ordenados todos do_grupo Hdo.
    pose proof (consolidar_veiculo_eq strptime round2 l) as Hret. cbn zeta in Hret.
    fold (saida_do_veiculo strptime round2 l) in Hret.
    pose proof (filter_saida_do_veiculo strptime round2 l conjunto g Hc Hg) as Hfil.
    cbn zeta in Hfil. fold ordenados in Hfil. fold do_grupo in Hfil.
    unfold todos_do_conjunto in Hfil. fold todos in Hfil.
    assert (Hng : no_conjunto conjunto g = true) by (apply PyFacts.existsb_eqb_In; exact Hg).
    assert (Hs0 : In s0 todos).
    { assert (H : In s0 do_grupo) by (rewrite Hdo; left; reflexivity).
      apply filter_In in H as [H Hgr]. apply String.eqb_eq in Hgr.
      apply filter_In. split; [exact H|]. rewrite Hgr. exact Hng. }
    assert (Hsorted : PySpec.sorted_by (parse_data_entrada strptime) todos).
    { apply PySorting.sorted_by_filter, PySorting.sort_by_sorted. }
    destruct todos as [|t0 trest] eqn:Etodos; [destruct Hs0|].
    exists (saida_do_veiculo strptime round2 l), t0, trest.
    split; [exact Hret|]. split; [reflexivity|]. split.
    { destruct Hsorted as [Hf _]. rewrite List.Forall_forall in Hf.
      intros e [<-|He]; [lia|apply Hf; exact He]. }
    cbn zeta. rewrite Hdo.
    split; [apply PySorting.max_by_In|]. split; [apply PySorting.max_by_ge|].
    rewrite Hdo in Hfil. unfold sessoes_do_grupo in Hfil. cbn [fst snd] in Hfil.
    rewrite (PySorting.min_by_sorted _ _ _ Hsorted) in Hfil.
    split.
    + intros Hcond.
      assert (Hb : (1 <? length (s0 :: srest))%nat
                   || (length (s0 :: srest) <? length (t0 :: trest))%nat = true).
      { apply orb_true_iff. destruct Hcond as [Hne|Hlt].
        - left. apply Nat.ltb_lt. destruct srest; [congruence|simpl; lia].
        - right. apply Nat.ltb_lt. exact Hlt. }
      rewrite Hb in Hfil. eexists. split; [exact Hfil|].
      split; [reflexivity|]. split; [reflexivity|]. split; [reflexivity|].
      cbn [sessao_consolidada Duracao]. split.
      * intros entrada saida. apply calcular_duracao_formatada_readable.
      * apply calcular_duracao_formatada_unreadable.
    + intros -> Hone.
      assert (Hb : (1 <? length [s0])%nat
                   || (length [s0] <? length (t0 :: trest))%nat = false).
      { rewrite Hone. reflexivity. }
      rewrite Hb in Hfil. exact Hfil.
  - intros eventos. unfold Backup.consolidar_eventos_consecutivos.
    apply PySorting.for_each_Return. intros entry _.
    apply (consolidar_veiculo_eq strptime round2 (snd entry)).
Qed.

Lemma C5_related_groups_witness :
  exists saida sessao,
    Backup.consolidar_veiculo SampleEventos.strptime SampleEventos.round2
      [SampleRelacionados.fabrica2; SampleRelacionados.carregamento;
       SampleRelacionados.fabrica1] = Return saida
    /\ List.filter (fun o => String.eqb (Grupo_POI o) "Fábrica") saida = [sessao]
    /\ Data_Entrada sessao = "07/08/2025 08:00:00"%string
    /\ Data_Saida sessao = "07/08/2025 10:15:00"%string
    /\ Duracao sessao = (9 # 4)%Q.
Proof.
  destruct (C5_related_groups SampleEventos.strptime SampleEventos.round2) as [H _].
  destruct (H [SampleRelacionados.fabrica2; SampleRelacionados.carregamento;
               SampleRelacionados.fabrica1]
              ["Fábrica"; "Carregamento"]%string "Fábrica"%string
              SampleRelacionados.fabrica1 [SampleRelacionados.fabrica2])
    as (saida & t0 & trest & Hret & Htodos & _ & _ & _ & Hcons & _).
  - left. reflexivity.
  - left. reflexivity.
  - vm_compute. reflexivity.
  - destruct Hcons as (sessao & Hfil & Hs & _ & _ & Hdur & _); [left; discriminate|].
    exists saida, sessao. split; [exact Hret|]. split; [exact Hfil|].
    assert (Et : t0 = SampleRelacionados.carregamento).
    { vm_compute in Htodos. inversion Htodos. reflexivity. }
    subst t0.
    split; [rewrite Hs; vm_compute; reflexivity|].
    split; [rewrite Hs; vm_compute; reflexivity|].
    destruct (Hdur (Py.days_from_civil 2025 8 7 * 86400 + 8 * 3600)
                (Py.days_from_civil 2025 8 7 * 86400 + 10 * 3600 + 15 * 60))
      as [Hle _]; try (vm_compute; congruence).
    rewrite Hle; vm_compute; congruence.
Defined.

(** * Other variants in the repository *)

(** The classifier of the SLA scripts resolves a name by its exact entry
    only (after the exception for the name with broken characters): a name
    with a trailing space is not mapped there, while the classifier of the
    report finds the key that it contains. *)
Example sla_classifier_exact_only :
  Enhanced.obter_grupo_poi "Carregamento Fabrica RRP" = "Fábrica"%string
  /\ Enhanced.obter_grupo_poi "Carregamento Fabrica RRP " = "Não Mapeado"%string
  /\ Relatorio.obter_grupo_poi SampleGrupos.lower SampleGrupos.grupos
       "Carregamento Fabrica RRP " = "Fábrica"%string.
Proof. repeat split; vm_compute; reflexivity. Qed.

(** The ladder of the enhanced script is on whole hours in deviation of a
    group, not on the dwell of a vehicle, and always names a level. *)
Example group_ladder :
  map Enhanced.calcular_proximo_nivel [0; 1; 2; 3; 4; 12]
  = [Detector.N1; Detector.N2; Detector.N3; Detector.N3; Detector.N4; Detector.N4].
Proof. reflexivity. Qed.

(** * Further properties of the code *)

(** ** The deviation detector: stored documents *)

Import DetectorServices DetectorServicesSpec.



(** X2. The detector never records an alert: the record that
    [store_deviation] builds for BigQuery holds datetime and date values,
    which the JSON load cannot serialise, so every call reports failure and
    leaves the collection of alert states as it is, whatever the services
    do.  A run stores nothing and reports 0 stored, runs leave the
    collection as they found it, and a later run emits what it would emit
    against the collection before the earlier run: starting from an empty
    collection, a session with a candidate level whose threshold is
    configured yields a deviation with no previous state in every run. *)
Theorem X2_detector_never_stores :
  forall (system_offset : Z) (io : Services) (alert_states : gmap string AlertState)
         (poi_thresholds : gmap string Thresholds) (detection_timestamp : datetime)
         (active_sessions : list Session),
    let first :=
      detect_poi_deviations system_offset io alert_states poi_thresholds
        detection_timestamp active_sessions in
    (forall deviation,
        existsb (fun entry => negb (json_serializable (snd entry)))
          (deviation_record deviation) = true
        /\ store_deviation system_offset io alert_states deviation = (alert_states, false))
    /\ stored_count system_offset io alert_states (fst first) = 0
    /\ snd first = alert_states
    /\ (forall runs, run_all system_offset alert_states runs = alert_states)
    /\ (forall io' poi_thresholds' later_timestamp sessions',
           detect_poi_deviations system_offset io' (snd first) poi_thresholds'
             later_timestamp sessions'
           = detect_poi_deviations system_offset io' alert_states poi_thresholds'
               later_timestamp sessions')
    /\ forall runs io' poi_thresholds' later_timestamp session level threshold,
         _calculate_alert_level (duration_hours session)
           (default default_thresholds (poi_thresholds' !! poi_name session))
         = Some level ->
         default default_thresholds (poi_thresholds' !! poi_name session) level
         = Some threshold ->
         exists deviation,
           _analyze_session_for_deviation session
             (_get_current_alert_states io' (run_all system_offset ∅ runs))
             poi_thresholds' later_timestamp
           = Return (Some deviation)
           /\ dev_current_level deviation = level
           /\ dev_previous_state deviation = None.
Proof.
  intros so io states th ts sessions first.
  assert (Hsnd : snd first = states) by apply run_never.
  split; [|split; [|split; [exact Hsnd|split; [|split]]]].
  - intros d. split; [|apply store_deviation_never].
    unfold deviation_record. destruct (dev_entry_timestamp d); reflexivity.
  - unfold stored_count. rewrite DetectorServicesFacts.stored_count_fold.
    cbn [snd]. induction (fst first) as [|d ds IH]; [reflexivity|].
    cbn [List.filter]. unfold loaded at 1. rewrite bigquery_load_never.
    destruct (dev_entry_timestamp d); exact IH.
  - intros runs. apply run_all_never.
  - intros io' th' ts' sessions'. rewrite Hsnd. reflexivity.
  - intros runs io' th' ts' session level q Hlevel Hq.
    rewrite run_all_never.
    assert (Hnone : _get_current_alert_states io' ∅ !! session_key session = None).
    { unfold _get_current_alert_states.
      destruct (firestore_read_ok io'); [|apply lookup_empty].
      rewrite map_filter_empty. apply lookup_empty. }
    destruct (analyze_alerts session (_get_current_alert_states io' ∅) th' ts' level q
                Hlevel Hq) as (d & Hd & Hl & Hp).
    { rewrite Hnone. reflexivity. }
    exists d. rewrite Hnone in Hp. auto.
Qed.

Lemma X2_detector_never_stores_witness :
  let first := detect_poi_deviations 0 Sample.all_up ∅ ∅ Sample.t0 [Sample.session 5] in
  let later :=
    detect_poi_deviations 0 Sample.all_up (snd first) ∅
      (Sample.plus_minutes Sample.t0 60) [Sample.session 5] in
  map dev_current_level (fst first) = [N2]
  /\ snd first = ∅
  /\ stored_count 0 Sample.all_up ∅ (fst first) = 0
  /\ map dev_current_level (fst later) = [N2].
Proof.
  intros first later.
  destruct (X2_detector_never_stores 0 Sample.all_up ∅ ∅ Sample.t0 [Sample.session 5])
    as (_ & Hcount & Hsnd & _ & Hlater & _).
  split; [vm_compute; reflexivity|]. split; [exact Hsnd|]. split; [exact Hcount|].
  unfold later. rewrite Hlater. vm_compute. reflexivity.
Defined.

(** X3. A document that is not active never suppresses an alert and is
    never made active again: after any runs it is still stored and still
    not active, the lookup of the stored states leaves it out, and a session
    with its key and a candidate level whose threshold is configured yields
    a deviation with no previous state in every run. *)
Theorem X3_inactive_document_alerts_every_run :
  forall (system_offset : Z) (alert_states : gmap string AlertState) (k : string)
         (st : AlertState) (runs : list Detector.Run),
    alert_states !! k = Some st ->
    st_active st = false ->
    let later := run_all system_offset alert_states runs in
    (exists st', later !! k = Some st' /\ st_active st' = false)
    /\ forall (io : Services) (poi_thresholds : gmap string Thresholds)
              (detection_timestamp : datetime) (session : Session) (level : Level)
              (threshold : Q),
         session_key session = k ->
         _calculate_alert_level (duration_hours session)
           (default default_thresholds (poi_thresholds !! poi_name session))
         = Some level ->
         default default_thresholds (poi_thresholds !! poi_name session) level
         = Some threshold ->
         exists d,
           _analyze_session_for_deviation session
             (_get_current_alert_states io later) poi_thresholds detection_timestamp
           = Return (Some d)
           /\ dev_current_level d = level
           /\ dev_previous_state d = None.
Proof.
  intros so states k st runs Hk Ha later.
  assert (Hin : inactive_at k later).
  { apply DetectorServicesFacts.run_all_inactive. exists st. auto. }
  split; [exact Hin|].
  intros io th ts session level q Hkey Hlevel Hq.
  pose proof (DetectorServicesFacts.current_states_inactive io later k Hin) as Hnone.
  destruct (analyze_alerts session (_get_current_alert_states io later) th ts level q
              Hlevel Hq) as (d & Hd & Hl & Hp).
  { rewrite Hkey, Hnone. reflexivity. }
  exists d. rewrite Hkey, Hnone in Hp. auto.
Qed.

Lemma X3_inactive_document_alerts_every_run_witness :
  let resolved : AlertState := {|
    st_filial := "RRP"; st_poi_name := "Carregamento Fabrica RRP";
    st_poi_normalized := "CarregamentoFabricaRRP"; st_vehicle_plate := "ABC1D23";
    st_vehicle_id := "42"; st_current_level := Some N4; st_active := false;
    st_first_detection := Sample.t0; st_last_updated := Sample.t0;
    st_escalation_history := []; st_alert_count := 3;
    st_last_alert_title := ""; st_consecutive_hours := 12;
    st_entry_timestamp := None; st_actual_duration_hours := 12;
    st_deviation_magnitude := 0; st_ttl := Sample.t0;
    st_last_alert_sent := IsoString Sample.t0 |} in
  let states : gmap string AlertState := {[ Sample.key := resolved ]} in
  let later := run_all 0 states [SampleRuns.run 3 0; SampleRuns.run 3 1] in
  (st_alert_count <$> later !! Sample.key) = Some 3
  /\ exists d,
       _analyze_session_for_deviation (Sample.session 3)
         (_get_current_alert_states Sample.all_up later) ∅
         (Sample.plus_minutes Sample.t0 2)
       = Return (Some d)
       /\ dev_current_level d = N1.
Proof.
  intros resolved states later.
  split; [vm_compute; reflexivity|].
  destruct (X3_inactive_document_alerts_every_run 0 states Sample.key resolved
              [SampleRuns.run 3 0; SampleRuns.run 3 1] eq_refl eq_refl)
    as [_ H].
  destruct (H Sample.all_up ∅ (Sample.plus_minutes Sample.t0 2) (Sample.session 3) N1 2%Q)
    as (d & Hd & Hl & _); [vm_compute; reflexivity | reflexivity | reflexivity |].
  exists d. split; [exact Hd | exact Hl].
Defined.

(** X4. A POI whose configured thresholds lack the key of the candidate
    level never yields a deviation: [_calculate_alert_level] falls back to
    the default for the missing key, but reading the threshold breached
    raises, and the run skips the session, leaving the deviations and the
    stored states as they are without it. *)
Theorem X4_missing_threshold_key_skips_session :
  forall (system_offset : Z) (io : Services) (alert_states : gmap string AlertState)
         (poi_thresholds : gmap string Thresholds) (detection_timestamp : datetime)
         (session : Session) (thresholds : Thresholds) (level : Level),
    poi_thresholds !! poi_name session = Some thresholds ->
    _calculate_alert_level (duration_hours session) thresholds = Some level ->
    thresholds level = None ->
    let current_states := _get_current_alert_states io alert_states in
    (default_hours level <= duration_hours session)%Q
    /\ (_should_escalate level (current_states !! session_key session)
          detection_timestamp = true ->
        _analyze_session_for_deviation session current_states poi_thresholds
          detection_timestamp = Raise)
    /\ (forall d,
          _analyze_session_for_deviation session current_states poi_thresholds
            detection_timestamp <> Return (Some d))
    /\ forall pre post,
         detect_poi_deviations system_offset io alert_states poi_thresholds
           detection_timestamp (pre ++ session :: post)
         = detect_poi_deviations system_offset io alert_states poi_thresholds
             detection_timestamp (pre ++ post).
Proof.
  intros so io states th ts session thr level Hth Hlevel Hnone current_states.
  assert (Hmet : (default_hours level <= duration_hours session)%Q).
  { apply calculate_alert_level_Some in Hlevel as [Hmet _].
    unfold met, threshold_in_force in Hmet. rewrite Hnone in Hmet.
    exact Hmet. }
  assert (Hraise : _should_escalate level (current_states !! session_key session) ts = true ->
                   _analyze_session_for_deviation session current_states th ts = Raise).
  { intros Hesc. unfold _analyze_session_for_deviation.
    rewrite Hth. simpl. rewrite Hlevel, Hesc, Hnone. reflexivity. }
  assert (Hno : forall d, _analyze_session_for_deviation session current_states th ts
                          <> Return (Some d)).
  { intros d. unfold _analyze_session_for_deviation.
    rewrite Hth. simpl. rewrite Hlevel, Hnone.
    destruct (_should_escalate level (current_states !! session_key session) ts);
      simpl; discriminate. }
  split; [exact Hmet|]. split; [exact Hraise|]. split; [exact Hno|].
  intros pre post. apply detect_poi_deviations_skip. exact Hno.
Qed.

Lemma X4_missing_threshold_key_skips_session_witness :
  let only_N1 : Thresholds := fun l => match l with N1 => Some 1%Q | _ => None end in
  let poi_thresholds : gmap string Thresholds :=
    {[ "Carregamento Fabrica RRP"%string := only_N1 ]} in
  _calculate_alert_level 13 only_N1 = Some N4
  /\ detect_poi_deviations 0 Sample.all_up ∅ poi_thresholds Sample.t0 [Sample.session 13]
     = detect_poi_deviations 0 Sample.all_up ∅ poi_thresholds Sample.t0 [].
Proof.
  intros only_N1 poi_thresholds.
  split; [reflexivity|].
  destruct (X4_missing_threshold_key_skips_session 0 Sample.all_up ∅ poi_thresholds
              Sample.t0 (Sample.session 13) only_N1 N4 eq_refl eq_refl eq_refl)
    as (_ & _ & _ & H).
  exact (H [] []).
Defined.

(** ** The deviation detector: publishing and configuration *)

(** X5. [publish_deviation_alerts] reports all or nothing: the count it
    returns is the number of deviations when every one has an entry
    timestamp and is published, and 0 otherwise, although the messages of
    the deviations before the first failure have been published. *)
Theorem X5_publish_count_all_or_nothing :
  forall (system_offset : Z) (publish_ok : Deviation -> bool) (deviations : list Deviation),
    let sent := fst (publish_deviation_alerts system_offset publish_ok deviations) in
    let count := snd (publish_deviation_alerts system_offset publish_ok deviations) in
    count = (if forallb (publishable publish_ok) deviations
             then Z.of_nat (length deviations) else 0)
    /\ map msg_deviation_id sent
       = map dev_deviation_id (take_while (publishable publish_ok) deviations)
    /\ Z.of_nat (length sent) <= Z.of_nat (length deviations)
    /\ (count = 0 \/ Z.of_nat (length sent) = count).
Proof.
  intros so publish_ok ds sent count. subst sent count.
  assert (Hmsg : forall l,
             map msg_deviation_id
               (messages so (take_while (publishable publish_ok) l))
             = map dev_deviation_id (take_while (publishable publish_ok) l)).
  { induction l as [|d l IH]; [reflexivity|]. simpl.
    unfold publishable at 1 3. unfold messages in *.
    destruct (dev_entry_timestamp d) eqn:E; [|reflexivity].
    destruct (publish_ok d); [|reflexivity].
    simpl. unfold message_data at 1. rewrite E. simpl. f_equal. exact IH. }
  assert (Hlen : forall l,
             (length (take_while (publishable publish_ok) l) <= length l)%nat
             /\ (forallb (publishable publish_ok) l = true ->
                 take_while (publishable publish_ok) l = l)).
  { induction l as [|d l [IH1 IH2]]; [split; auto|]. simpl.
    destruct (publishable publish_ok d); simpl; split; try lia; try discriminate.
    intros H. f_equal. auto. }
  unfold publish_deviation_alerts.
  destruct ds as [|d ds]; [simpl; repeat split; auto; lia|].
  rewrite DetectorServicesFacts.publish_loop_spec.
  cbn [fst snd].
  assert (Hl : length (messages so
                         (take_while (publishable publish_ok) (d :: ds)))
               = length (take_while (publishable publish_ok) (d :: ds))).
  { rewrite <- (length_map msg_deviation_id), Hmsg, length_map. reflexivity. }
  split; [|split; [apply Hmsg | split]].
  - destruct (forallb (publishable publish_ok) (d :: ds)); reflexivity.
  - rewrite Hl. destruct (Hlen (d :: ds)) as [H _]. lia.
  - destruct (forallb (publishable publish_ok) (d :: ds)) eqn:E; [right | left; reflexivity].
    rewrite Hl. destruct (Hlen (d :: ds)) as [_ H]. rewrite (H E). simpl. lia.
Qed.

(** X6. [_get_poi_thresholds] loads the configuration all or nothing: when
    the read fails, or the thresholds of some named document are not a
    dictionary, the result is empty and every POI falls back to the default
    ladder; otherwise a name maps to the thresholds of the last document
    that bears it (the defaults when that document gives none), and a name
    that no document bears maps to nothing. *)
Theorem X6_thresholds_loaded_all_or_nothing :
  forall (read_ok : bool) (docs : list PoiConfiguration),
    let poi_thresholds := _get_poi_thresholds read_ok docs in
    let named data := negb (cfg_poi_name data =? "")%string in
    let malformed data :=
      named data
      && match cfg_escalation_hours data with NotADictionary => true | _ => false end in
    if negb read_ok || existsb malformed docs
    then poi_thresholds = ∅
         /\ forall (poi : string) (dwell : Q),
              _calculate_alert_level dwell
                (default default_thresholds (poi_thresholds !! poi))
              = _calculate_alert_level dwell default_thresholds
    else forall poi : string,
           poi_thresholds !! poi =
           match last (List.filter (fun data => named data
                                                && String.eqb (cfg_poi_name data) poi) docs)
           with
           | Some data =>
               Some match cfg_escalation_hours data with
                    | EscalationHoursGiven th => th
                    | _ => default_thresholds
                    end
           | None => None
           end.
Proof.
  intros read_ok docs poi_thresholds named malformed. subst poi_thresholds.
  unfold _get_poi_thresholds.
  destruct read_ok; simpl.
  - change (existsb malformed docs) with (existsb DetectorServicesSpec.malformed docs).
    destruct (existsb DetectorServicesSpec.malformed docs) eqn:E.
    + rewrite (DetectorServicesFacts.load_thresholds_malformed docs ∅ E).
      split; [reflexivity|]. intros poi dwell. rewrite lookup_empty. reflexivity.
    + destruct (DetectorServicesFacts.load_thresholds_well_formed docs ∅ E)
        as (t & -> & Hlook).
      intros poi. rewrite Hlook.
      change (fun data => named data && String.eqb (cfg_poi_name data) poi)
        with (fun data => DetectorServicesSpec.named data
                          && String.eqb (cfg_poi_name data) poi).
      destruct (last _); [reflexivity | apply lookup_empty].
  - split; [reflexivity|]. intros poi dwell. rewrite lookup_empty. reflexivity.
Qed.


(** ** The deviation detector: the counts of a run *)



(** ** The deviation detector: the deviation records *)

(** X9. A deviation never reports a threshold that the dwell has not
    reached: every deviation of a run comes from a session of the run, has
    its key and its dwell, and reports as threshold breached the threshold
    of its level for the POI of the session, which the dwell reaches while
    it reaches the threshold of no higher level; its confidence score lies
    in (0, 1]; and the excess that the alert state records for it is not
    negative. *)
Theorem X9_deviation_breaches_its_threshold :
  forall (system_offset : Z) (io : Services) (alert_states : gmap string AlertState)
         (poi_thresholds : gmap string Thresholds) (detection_timestamp : datetime)
         (active_sessions : list Session) (d : Deviation),
    In d (fst (detect_poi_deviations system_offset io alert_states poi_thresholds
                 detection_timestamp active_sessions)) ->
    exists session,
      let thresholds := default default_thresholds (poi_thresholds !! poi_name session) in
      In session active_sessions
      /\ deviation_session_key d = session_key session
      /\ dev_duration_hours d = duration_hours session
      /\ thresholds (dev_current_level d) = Some (dev_threshold_breached d)
      /\ (dev_threshold_breached d <= dev_duration_hours d)%Q
      /\ (forall l,
            level_hierarchy (dev_current_level d) < level_hierarchy l ->
            (dev_duration_hours d < threshold_of thresholds l)%Q)
      /\ (0 < dev_confidence_score d /\ dev_confidence_score d <= 1)%Q
      /\ forall states,
           exists st,
             _update_alert_state system_offset d states !! session_key session = Some st
             /\ (0 <= st_deviation_magnitude st)%Q.
Proof.
  intros so io states th ts sessions d Hin.
  unfold detect_poi_deviations in Hin.
  destruct (asyncio_imported io); [|destruct Hin].
  apply in_detect_deviations in Hin as (session & Hs & Hd).
  exists session. cbv zeta.
  pose proof (analyze_emits _ _ _ _ _ Hd) as (Hk & Hl & _).
  pose proof (DeviationFacts.analyze_record _ _ _ _ _ Hd)
    as (Hdur & _ & _ & _ & _ & Hth & Hconf).
  apply calculate_alert_level_Some in Hl as [Hmet Hhigher].
  assert (Hle : (dev_threshold_breached d <= dev_duration_hours d)%Q).
  { unfold met, threshold_in_force in Hmet. rewrite Hth in Hmet.
    rewrite Hdur. exact Hmet. }
  split; [exact Hs|]. split; [exact Hk|]. split; [exact Hdur|]. split; [exact Hth|].
  split; [exact Hle|]. split; [|split].
  - intros l Hlt. rewrite Hdur. apply Qnot_le_lt. apply (Hhigher l Hlt).
  - rewrite Hconf.
    pose proof (confidence_score_eq session
                  (_get_current_alert_states io states !! session_key session)) as E.
    pose proof (confidence_of_range (entry_missing session) (group_unknown session)
                  (repeated_pattern
                     (_get_current_alert_states io states !! session_key session)))
      as [H0 H1].
    rewrite E. split; assumption.
  - intros states'.
    destruct (DeviationFacts.update_alert_state_magnitude so d states')
      as (st & Hst & _ & Hmag).
    exists st. rewrite <- Hk. split; [exact Hst|]. rewrite Hmag.
    apply (proj1 (Qle_minus_iff _ _)). exact Hle.
Qed.

Lemma X9_deviation_breaches_its_threshold_witness :
  exists session,
    In session [Sample.session 5]
    /\ dev_duration_hours (Sample.deviation Sample.t0) = duration_hours session
    /\ (dev_threshold_breached (Sample.deviation Sample.t0)
        <= dev_duration_hours (Sample.deviation Sample.t0))%Q.
Proof.
  destruct (X9_deviation_breaches_its_threshold 0 Sample.all_up ∅ ∅ Sample.t0
              [Sample.session 5] (Sample.deviation Sample.t0))
    as (session & Hs & _ & Hdur & _ & Hle & _).
  - left. vm_compute. reflexivity.
  - exists session. auto.
Defined.

(** ** The SLA script: from the events of the API to the deviations *)

Import EnhancedPipeline EnhancedPipelineSpec.

(** X10. Every vehicle that [processar_eventos_api] lets through is at a
    monitored POI, has a plate, a branch that is RRP or TLS, one of the four
    groups that have an SLA, a limit for its branch and group, and a dwell
    within the window of its group; on such vehicles the SLA evaluator never
    raises. *)
Theorem X10_processed_vehicles_have_an_sla :
  forall (system_offset : Z) (campo_grande : Z -> Z) (eventos : list ApiEvento)
         (janelas : list (string * Q)) (agora_local timestamp : datetime),
    let veiculos_ativos :=
      processar_eventos_api system_offset campo_grande eventos janelas agora_local in
    Forall (veiculo_valido janelas) veiculos_ativos
    /\ exists desvios,
         analisar_desvios_sla sla_limites veiculos_ativos timestamp = Return desvios.
Proof.
  intros so zone eventos janelas agora ts veiculos_ativos.
  pose proof (EnhancedPipelineFacts.processar_eventos_api_valido so zone eventos janelas
                agora) as Hval.
  split; [exact Hval|].
  destruct (analisar_desvios_sla_spec sla_limites veiculos_ativos ts) as (ds & Hds & _).
  - eapply List.Forall_impl; [|exact Hval].
    intros v Hv. apply (EnhancedPipelineFacts.veiculo_valido_filial _ _ Hv).
  - exists ds. exact Hds.
Qed.

(** X11. [buscar_veiculos_ativos] returns nothing or at least ten vehicles:
    the vehicles of the first window, among 2, 6, 24, 72 and 168 hours,
    whose events give ten or more.  Without a token, or when every window
    gives fewer than ten, it returns nothing and the SLA evaluator reports
    no deviation, whatever the count of a group is. *)
Theorem X11_fewer_than_ten_vehicles_none :
  forall (system_offset : Z) (campo_grande : Z -> Z) (token : bool)
         (api : Z -> option (list ApiEvento)) (agora_local timestamp : datetime),
    let veiculos_ativos :=
      buscar_veiculos_ativos system_offset campo_grande token api agora_local in
    let da_janela janela :=
      option_map
        (fun eventos =>
           processar_eventos_api system_offset campo_grande eventos janelas_grupo
             agora_local)
        (api janela) in
    (veiculos_ativos = [] \/ 10 <= Z.of_nat (length veiculos_ativos))
    /\ veiculos_ativos
       = (if token then
            match find (fun janela =>
                          match da_janela janela with
                          | Some veiculos => 10 <=? Z.of_nat (length veiculos)
                          | None => false
                          end) [2; 6; 24; 72; 168] with
            | Some janela => default [] (da_janela janela)
            | None => []
            end
          else [])
    /\ Forall (veiculo_valido janelas_grupo) veiculos_ativos
    /\ (veiculos_ativos <> [] ->
        exists janela,
          In janela [2; 6; 24; 72; 168] /\ da_janela janela = Some veiculos_ativos)
    /\ (token = false
        \/ (forall janela veiculos,
              In janela [2; 6; 24; 72; 168] -> da_janela janela = Some veiculos ->
              Z.of_nat (length veiculos) < 10) ->
        veiculos_ativos = []
        /\ analisar_desvios_sla sla_limites veiculos_ativos timestamp = Return []).
Proof.
  intros so zone token api agora ts veiculos_ativos da_janela.
  subst veiculos_ativos. unfold buscar_veiculos_ativos.
  destruct token; simpl negb; cbv iota.
  - destruct (EnhancedPipelineFacts.tentar_janelas_spec so zone api agora [2; 6; 24; 72; 168])
      as (H1 & H2 & H3).
    split; [exact H1|].
    split; [apply (EnhancedPipelineFacts.tentar_janelas_find so zone api agora)|].
    split; [|split].
    + destruct (tentar_janelas so zone api agora [2; 6; 24; 72; 168]) as [|v l] eqn:E;
        [constructor|].
      destruct (H2 ltac:(discriminate)) as (j & evs & _ & _ & ->).
      apply EnhancedPipelineFacts.processar_eventos_api_valido.
    + intros Hne. destruct (H2 Hne) as (j & evs & Hin & Hj & Heq).
      exists j. split; [exact Hin|]. unfold da_janela. rewrite Hj. simpl.
      rewrite <- Heq. reflexivity.
    + intros [Ht|Hall]; [discriminate|].
      rewrite H3; [split; reflexivity|].
      intros j evs Hin Hj. apply (Hall j); [exact Hin|].
      unfold da_janela. rewrite Hj. reflexivity.
  - split; [left; reflexivity|]. split; [reflexivity|]. split; [constructor|].
    split; [congruence|]. intros _. split; reflexivity.
Qed.

Lemma X11_fewer_than_ten_vehicles_none_witness :
  let veiculos :=
    processar_eventos_api 0 SamplePipeline.campo_grande SamplePipeline.seis_eventos
      janelas_grupo SamplePipeline.agora_local in
  length veiculos = 6%nat
  /\ (exists desvio,
        analisar_desvios_sla sla_limites veiculos SamplePipeline.agora_local
        = Return [desvio]
        /\ qtd_veiculos desvio = 6 /\ limite_sla desvio = 5)
  /\ buscar_veiculos_ativos 0 SamplePipeline.campo_grande true SamplePipeline.api
       SamplePipeline.agora_local = []
  /\ analisar_desvios_sla sla_limites
       (buscar_veiculos_ativos 0 SamplePipeline.campo_grande true SamplePipeline.api
          SamplePipeline.agora_local)
       SamplePipeline.agora_local = Return [].
Proof.
  intros veiculos.
  split; [vm_compute; reflexivity|].
  split; [eexists; split; [vm_compute; reflexivity | split; reflexivity]|].
  destruct (X11_fewer_than_ten_vehicles_none 0 SamplePipeline.campo_grande true
              SamplePipeline.api SamplePipeline.agora_local SamplePipeline.agora_local)
    as (_ & _ & _ & _ & H).
  apply H. right. intros janela vs _ Hj. unfold SamplePipeline.api in Hj. simpl in Hj.
  inversion Hj; subst vs. vm_compute. reflexivity.
Defined.

(** ** The SLA script: escalation of a group *)

(** X12. For a deviation with an active escalation whose start is read, the
    level depends on the time elapsed since that start alone: under one
    hour N2, from one hour to under three hours N3, from three hours on N4,
    and the hours in deviation are the whole hours elapsed plus one; N1 is
    the level of a deviation with no active escalation only. *)
Theorem X12_group_level_by_elapsed_time :
  forall (bq : Escalacoes) (desvio : Desvio),
    (nivel_atual_ativo bq (desvio_key desvio) = false ->
     nivel_e_horas bq desvio = (N1, 1))
    /\ forall (inicio : datetime) (elapsed_us : Z),
         nivel_atual_ativo bq (desvio_key desvio) = true ->
         timestamp_inicio_desvio bq (desvio_key desvio) = Some inicio ->
         dt_sub (agora_utc bq (desvio_key desvio)) inicio = Return elapsed_us ->
         0 <= elapsed_us ->
         let nivel := fst (nivel_e_horas bq desvio) in
         snd (nivel_e_horas bq desvio) = elapsed_us / us_per_hour + 1
         /\ nivel <> N1
         /\ (nivel = N2 <-> elapsed_us < us_per_hour)
         /\ (nivel = N3 <-> us_per_hour <= elapsed_us < 3 * us_per_hour)
         /\ (nivel = N4 <-> 3 * us_per_hour <= elapsed_us).
Proof.
  intros bq desvio. split.
  - intros Hna. unfold nivel_e_horas. rewrite Hna. reflexivity.
  - intros inicio us Ha Hi Hs Hpos nivel. subst nivel.
    unfold nivel_e_horas. rewrite Ha. cbn [fst snd].
    unfold obter_horas_desvio. rewrite Hi, Hs.
    rewrite (EnhancedPipelineFacts.int_of_hours us Hpos).
    set (h := us / us_per_hour).
    assert (Hh : 0 <= h) by (apply Z.div_pos; [exact Hpos | reflexivity]).
    assert (Hdiv : forall n, 0 <= n -> (n <= h <-> n * us_per_hour <= us)).
    { intros n Hn. unfold h. split; intros H.
      - pose proof (Z.mul_div_le us us_per_hour ltac:(reflexivity)).
        assert (n * us_per_hour <= us / us_per_hour * us_per_hour) by
          (apply Z.mul_le_mono_nonneg_r; [discriminate | exact H]).
        lia.
      - apply Z.div_le_lower_bound; [reflexivity | lia]. }
    pose proof (Hdiv 1 ltac:(lia)) as H1. pose proof (Hdiv 3 ltac:(lia)) as H3.
    destruct (EnhancedPipelineFacts.calcular_proximo_nivel_spec (h + 1))
      as (E1 & E2 & E3 & E4).
    split; [reflexivity|]. split; [rewrite E1; lia|].
    split; [rewrite E2; lia|]. split; [rewrite E3; lia | rewrite E4; lia].
Qed.

Lemma X12_group_level_by_elapsed_time_witness :
  let desvio := SamplePipeline.desvio SamplePipeline.agora_local in
  map (fun minutos => nivel_e_horas (SamplePipeline.escalacoes minutos) desvio)
    [30; 60; 120; 180]
  = [(N2, 1); (N3, 2); (N3, 3); (N4, 4)]
  /\ fst (nivel_e_horas (SamplePipeline.escalacoes 60) desvio) <> N1.
Proof.
  intros desvio. split; [vm_compute; reflexivity|].
  destruct (X12_group_level_by_elapsed_time (SamplePipeline.escalacoes 60) desvio)
    as [_ H].
  destruct (H SamplePipeline.inicio (60 * 60 * us_per_second)
              eq_refl eq_refl ltac:(vm_compute; reflexivity) ltac:(vm_compute; discriminate))
    as (_ & Hne & _).
  exact Hne.
Defined.

(** X13. [processar_escalonamento_niveis] generates one event per vehicle of
    each deviation, in order, all the events of a deviation carrying its
    key, level, action and hours in deviation; on the deviations of the SLA
    evaluator the number of events is the sum of the counts of the
    deviating groups. *)
Theorem X13_one_event_per_vehicle :
  forall (bq : Escalacoes) (limites : gmap string (gmap string Z))
         (veiculos_ativos : list Veiculo) (timestamp : datetime)
         (desvios : list Desvio) (execution_id : string),
    analisar_desvios_sla limites veiculos_ativos timestamp = Return desvios ->
    let eventos := processar_escalonamento_niveis bq desvios execution_id in
    eventos
    = flat_map
        (fun desvio =>
           map (evento_do_veiculo execution_id desvio (fst (nivel_e_horas bq desvio))
                  (snd (nivel_e_horas bq desvio)))
             (veiculos desvio))
        desvios
    /\ Z.of_nat (length eventos) = fold_right Z.add 0 (map qtd_veiculos desvios)
    /\ Z.of_nat (length eventos) <= Z.of_nat (length veiculos_ativos).
Proof.
  intros bq limites ativos ts desvios execution_id Hd eventos. subst eventos.
  assert (Heq : forall ds,
             processar_escalonamento_niveis bq ds execution_id
             = flat_map
                 (fun desvio =>
                    map (evento_do_veiculo execution_id desvio
                           (fst (nivel_e_horas bq desvio)) (snd (nivel_e_horas bq desvio)))
                      (veiculos desvio)) ds).
  { intros ds. unfold processar_escalonamento_niveis.
    apply flat_map_ext. intros desvio. destruct (nivel_e_horas bq desvio). reflexivity. }
  split; [apply Heq|].
  rewrite Heq.
  (* the deviations are those of the groups, each with its vehicles *)
  unfold analisar_desvios_sla in Hd.
  rewrite verificar_grupos_flat_map in Hd
    by (intros entry Hin; apply group_by_keys in Hin as (v & _ & <-);
        apply split_underscore_chave).
  inversion Hd as [Hds]. clear Hd.
  assert (Hgroups : Z.of_nat (length (flat_map snd (group_by chave_grupo ativos)))
                    <= Z.of_nat (length ativos)).
  { apply Nat2Z.inj_le. clear.
    induction ativos as [|v l IH] using rev_ind; [simpl; lia|].
    rewrite group_by_snoc, length_app. simpl.
    assert (forall d : list (string * list Veiculo),
               length (flat_map snd (dict_append (chave_grupo v) v d))
               = S (length (flat_map snd d))) as Happ.
    { induction d as [|[k xs] d IHd]; simpl; [reflexivity|].
      destruct (String.eqb k (chave_grupo v)); simpl.
      - rewrite !length_app. simpl. lia.
      - rewrite !length_app, IHd. lia. }
    rewrite Happ. lia. }
  revert Hgroups. generalize (group_by chave_grupo ativos). intros grupos Hgroups.
  assert (Hlen : forall gs,
             Z.of_nat (length (flat_map
                 (fun desvio =>
                    map (evento_do_veiculo execution_id desvio
                           (fst (nivel_e_horas bq desvio)) (snd (nivel_e_horas bq desvio)))
                      (veiculos desvio))
                 (flat_map (desvio_do_grupo limites ts) gs)))
             = fold_right Z.add 0
                 (map qtd_veiculos (flat_map (desvio_do_grupo limites ts) gs))
             /\ fold_right Z.add 0
                  (map qtd_veiculos (flat_map (desvio_do_grupo limites ts) gs))
                <= Z.of_nat (length (flat_map snd gs))).
  { induction gs as [|[k vs] gs [IH1 IH2]]; [simpl; lia|].
    cbn [flat_map]. rewrite !flat_map_app, !map_app, !length_app, Nat2Z.inj_add.
    assert (Hfold : forall a b : list Z,
               fold_right Z.add 0 (a ++ b) = fold_right Z.add 0 a + fold_right Z.add 0 b).
    { induction a as [|x a IHa]; intros b; simpl; [reflexivity|]. rewrite IHa. lia. }
    rewrite Hfold, IH1.
    unfold desvio_do_grupo at 1 3 5. cbn [fst snd].
    destruct (split_underscore k) as [[f g]|]; [|simpl; lia].
    destruct (limite_de limites f g) as [lim|]; [|simpl; lia].
    destruct (lim <? Z.of_nat (length vs)); [|simpl; lia].
    simpl. rewrite app_nil_r, length_map. lia. }
  destruct (Hlen grupos) as [H1 H2]. split; [exact H1 | lia].
Qed.

Lemma X13_one_event_per_vehicle_witness :
  let eventos :=
    processar_escalonamento_niveis (SamplePipeline.escalacoes 60)
      [{| desvio_filial := "RRP"; desvio_grupo := "Fábrica"; qtd_veiculos := 7;
          limite_sla := 6; excesso := 1; veiculos := SampleSLA.sete;
          timestamp_verificacao := SampleSLA.agora |}] "exec_20250807_100000" in
  length eventos = 7%nat
  /\ map ev_nivel_alerta eventos = [N3; N3; N3; N3; N3; N3; N3].
Proof.
  intros eventos.
  destruct (X13_one_event_per_vehicle (SamplePipeline.escalacoes 60) sla_limites
              SampleSLA.sete SampleSLA.agora
              [{| desvio_filial := "RRP"; desvio_grupo := "Fábrica"; qtd_veiculos := 7;
                  limite_sla := 6; excesso := 1; veiculos := SampleSLA.sete;
                  timestamp_verificacao := SampleSLA.agora |}] "exec_20250807_100000")
    as (Heq & Hlen & _); [vm_compute; reflexivity|].
  split.
  - apply Nat2Z.inj. subst eventos. rewrite Hlen. reflexivity.
  - subst eventos. rewrite Heq. vm_compute. reflexivity.
Defined.

(** ** The SLA script: rows and metrics *)

(** X14. The rows of active vehicles agree with the SLA evaluator where a
    limit exists and disagree where none does: a row counts the vehicles of
    its branch and group; with a limit it is flagged DESVIO exactly when the
    evaluator reports a deviation for that branch and group; with no limit
    it takes the limit 0 and is always flagged, although the evaluator
    reports nothing for it. *)
Theorem X14_rows_and_deviations :
  forall (limites : gmap string (gmap string Z)) (veiculos_ativos : list Veiculo)
         (timestamp : datetime) (desvios : list Desvio),
    Forall (fun v => contains "_" (filial v) = false) veiculos_ativos ->
    analisar_desvios_sla limites veiculos_ativos timestamp = Return desvios ->
    forall (i : nat) (veiculo : Veiculo),
      nth_error veiculos_ativos i = Some veiculo ->
      exists row,
        nth_error (rows_to_insert limites veiculos_ativos) i = Some row
        /\ linha_placa_veiculo row = placa veiculo
        /\ linha_qtd_grupo row
           = qtd_no_grupo veiculos_ativos (filial veiculo) (grupo veiculo)
        /\ linha_status_sla row = (if linha_em_desvio row then "DESVIO" else "OK")%string
        /\ match limite_de limites (filial veiculo) (grupo veiculo) with
           | Some limite =>
               linha_limite_sla row = limite
               /\ linha_em_desvio row
                  = existsb (do_grupo (filial veiculo) (grupo veiculo)) desvios
           | None =>
               linha_limite_sla row = 0
               /\ linha_em_desvio row = true
               /\ existsb (do_grupo (filial veiculo) (grupo veiculo)) desvios = false
           end.
Proof.
  intros limites veiculos ts desvios Hall Hd i v Hi.
  assert (Hin : In v veiculos) by (eapply nth_error_In; exact Hi).
  unfold rows_to_insert. rewrite nth_error_map, Hi. simpl.
  eexists. split; [reflexivity|]. cbn.
  rewrite (EnhancedPipelineFacts.qtd_grupo_da_linha veiculos v Hall Hin).
  rewrite (EnhancedPipelineFacts.existsb_do_grupo_veiculo limites veiculos ts desvios v
             Hall Hd Hin).
  split; [reflexivity|]. split; [reflexivity|]. split; [reflexivity|].
  destruct (limite_de limites (filial v) (grupo v)) as [limite|]; simpl.
  - split; reflexivity.
  - split; [reflexivity|]. split; [|reflexivity].
    apply Z.ltb_lt. unfold qtd_no_grupo.
    pose proof (EnhancedPipelineFacts.filter_no_grupo_self veiculos v Hin).
    destruct (List.filter (no_grupo (filial v) (grupo v)) veiculos); [congruence|].
    simpl. lia.
Qed.

Lemma X14_rows_and_deviations_witness :
  let sem_sla : Veiculo := {|
    placa := "XYZ9Z99"; poi := "Posto Mutum"; filial := "RRP"; grupo := "Não Mapeado";
    entrada := SampleSLA.agora; tempo_permanencia_horas := 1; evento_id := "1" |} in
  let veiculos := sem_sla :: SampleSLA.seis in
  analisar_desvios_sla sla_limites veiculos SampleSLA.agora = Return []
  /\ map linha_status_sla (rows_to_insert sla_limites veiculos)
     = ["DESVIO"; "OK"; "OK"; "OK"; "OK"; "OK"; "OK"]%string
  /\ exists row,
       nth_error (rows_to_insert sla_limites veiculos) 0 = Some row
       /\ linha_limite_sla row = 0 /\ linha_em_desvio row = true.
Proof.
  intros sem_sla veiculos.
  split; [vm_compute; reflexivity|]. split; [vm_compute; reflexivity|].
  destruct (X14_rows_and_deviations sla_limites veiculos SampleSLA.agora []) with
    (i := 0%nat) (veiculo := sem_sla) as (row & Hrow & _ & _ & _ & H).
  - repeat constructor.
  - vm_compute. reflexivity.
  - reflexivity.
  - exists row. split; [exact Hrow|].
    change (limite_de sla_limites (filial sem_sla) (grupo sem_sla))
      with (@None Z) in H.
    destruct H as (H0 & H1 & _). auto.
Defined.

(** X15. [calcular_metricas], on the deviations of the SLA evaluator, has
    an entry for each of the eight branch and group pairs of [sla_limites],
    in its order, whether or not the group has vehicles: the limit, the
    count of vehicles, the count over the limit in percent, the flag that
    the count exceeds the limit, and the level N1 exactly when flagged. *)
Theorem X15_metrics_of_the_eight_groups :
  forall (veiculos_ativos : list Veiculo) (timestamp : datetime),
    exists desvios,
      analisar_desvios_sla sla_limites veiculos_ativos timestamp = Return desvios
      /\ calcular_metricas veiculos_ativos desvios
         = map (metrica_esperada veiculos_ativos) grupos_sla.
Proof.
  intros veiculos ts.
  destruct (EnhancedPipelineFacts.analisar_desvios_sla_grupo sla_limites veiculos ts)
    as (desvios & Hd & _).
  exists desvios. split; [exact Hd|].
  unfold calcular_metricas.
  rewrite (EnhancedPipelineFacts.metricas_em_ordem
             (metrica_do_grupo (group_by chave_grupo veiculos) desvios)).
  apply map_ext_in. intros [[f g] limite] Hin.
  apply (EnhancedPipelineFacts.metrica_do_grupo_eq veiculos ts desvios f g limite Hd Hin).
Qed.

(** ** The SLA script: one detection cycle *)

Import EnhancedCycle.

(** X16. A detection cycle never raises in the analysis: when the three
    inserts into BigQuery return, [executar_deteccao_completa] returns a
    result.  Whenever it returns, the result either counts no vehicle, no
    deviation and no event, or counts ten vehicles or more, at most eight
    deviations, six events or more per deviation, and no more events than
    vehicles. *)
Theorem X16_cycle_counts :
  forall (system_offset : Z) (campo_grande : Z -> Z) (token : bool)
         (api : Z -> option (list ApiEvento))
         (agora_local inicio_processamento agora : datetime)
         (bq : Escalacoes) (tabelas : Insercoes),
    let ciclo :=
      executar_deteccao_completa system_offset campo_grande token api agora_local
        inicio_processamento agora bq tabelas in
    ((forall rows, insert_veiculos_ativos tabelas rows = true) ->
     (forall rows, insert_eventos_desvio tabelas rows = true) ->
     (forall rows, insert_metricas_sla tabelas rows = true) ->
     exists resultado, ciclo = Return resultado)
    /\ forall resultado,
         ciclo = Return resultado ->
         (total_veiculos resultado = 0 /\ total_desvios resultado = 0
          /\ total_eventos resultado = 0)
         \/ (10 <= total_veiculos resultado
             /\ total_desvios resultado <= 8
             /\ 6 * total_desvios resultado <= total_eventos resultado
             /\ total_eventos resultado <= total_veiculos resultado).
Proof.
  intros so zone token api agora_local inicio agora bq tabelas ciclo. subst ciclo.
  unfold executar_deteccao_completa.
  set (execution_id := ("exec_" +:+ strftime_Ymd_HMS inicio)%string).
  set (ts := replace_minute_second_microsecond_0 agora).
  set (ativos := buscar_veiculos_ativos so zone token api agora_local).
  assert (Hval : Forall (veiculo_valido janelas_grupo) ativos).
  { unfold ativos, buscar_veiculos_ativos. destruct token; simpl negb; cbv iota; [|constructor].
    destruct (EnhancedPipelineFacts.tentar_janelas_spec so zone api agora_local
                [2; 6; 24; 72; 168]) as (_ & H2 & _).
    destruct (tentar_janelas so zone api agora_local [2; 6; 24; 72; 168]) as [|v l] eqn:E;
      [constructor|].
    destruct (H2 ltac:(discriminate)) as (j & evs & _ & _ & ->).
    apply EnhancedPipelineFacts.processar_eventos_api_valido. }
  assert (Hten : ativos = [] \/ 10 <= Z.of_nat (length ativos)).
  { unfold ativos, buscar_veiculos_ativos. destruct token; simpl negb; cbv iota;
      [|left; reflexivity].
    apply (EnhancedPipelineFacts.tentar_janelas_spec so zone api agora_local
             [2; 6; 24; 72; 168]). }
  assert (Hd : analisar_desvios_sla sla_limites ativos ts
               = Return (flat_map (desvio_do_grupo sla_limites ts)
                           (group_by chave_grupo ativos))).
  { unfold analisar_desvios_sla. apply verificar_grupos_flat_map.
    intros entry Hin. apply group_by_keys in Hin as (v & _ & <-).
    apply split_underscore_chave. }
  set (desvios := flat_map (desvio_do_grupo sla_limites ts) (group_by chave_grupo ativos))
    in *.
  set (eventos := match desvios with
                  | [] => []
                  | _ => processar_escalonamento_niveis bq desvios execution_id
                  end).
  assert (Hev : eventos = processar_escalonamento_niveis bq desvios execution_id).
  { unfold eventos. destruct desvios; reflexivity. }
  split.
  - intros Hv He Hm.
    destruct ativos as [|v l] eqn:Ea; [eexists; reflexivity|].
    rewrite Hd. cbn [bind]. fold eventos.
    unfold persistir_dados_bigquery, persistir_veiculos_ativos, persistir_eventos_desvio,
      persistir_metricas_sla.
    rewrite Hv, EnhancedCycleFacts.metricas_chaves, Hm. cbn [bind].
    destruct eventos; [|rewrite He]; cbn [bind]; eexists; reflexivity.
  - intros resultado Hr.
    destruct Hten as [Hnil|Hten].
    { rewrite Hnil in Hr. inversion Hr. left. repeat split; reflexivity. }
    right.
    destruct ativos as [|v l] eqn:Ea; [simpl in Hten; lia|].
    rewrite Hd in Hr. cbn [bind] in Hr. fold eventos in Hr.
    destruct (persistir_dados_bigquery tabelas (v :: l) eventos
                (calcular_metricas (v :: l) desvios)); [|discriminate].
    cbn [bind] in Hr. inversion Hr; subst resultado. clear Hr.
    cbn [total_veiculos total_desvios total_eventos].
    pose proof (EnhancedCycleFacts.length_desvios sla_limites ts
                  (group_by chave_grupo (v :: l))) as H1.
    pose proof (EnhancedCycleFacts.length_grupos_validos janelas_grupo (v :: l) Hval) as H2.
    destruct (EnhancedCycleFacts.length_eventos bq sla_limites ts execution_id
                (group_by chave_grupo (v :: l))) as [H3 H4].
    pose proof (EnhancedCycleFacts.qtd_desvios_sla ts (group_by chave_grupo (v :: l)))
      as H5.
    pose proof (ConsolidationFacts.length_group_by chave_grupo (v :: l)) as H6.
    cbv zeta in H3, H4, H5. fold desvios in H1, H3, H4, H5.
    rewrite Hev. cbn [length] in H6, Hten |- *.
    split; [exact Hten|]. split; [lia|]. split; lia.
Qed.

Lemma X16_cycle_counts_witness :
  exists resultado,
    executar_deteccao_completa 0 SamplePipeline.campo_grande true SampleCycle.api
      SamplePipeline.agora_local SamplePipeline.inicio SamplePipeline.inicio
      (SamplePipeline.escalacoes 60) SampleCycle.tabelas
    = Return resultado
    /\ total_veiculos resultado = 10
    /\ total_desvios resultado = 1
    /\ total_eventos resultado = 10
    /\ 6 * total_desvios resultado <= total_eventos resultado.
Proof.
  destruct (X16_cycle_counts 0 SamplePipeline.campo_grande true SampleCycle.api
              SamplePipeline.agora_local SamplePipeline.inicio SamplePipeline.inicio
              (SamplePipeline.escalacoes 60) SampleCycle.tabelas) as [Hret Hcounts].
  destruct Hret as [resultado E]; try (intros rows; reflexivity).
  exists resultado. split; [exact E|].
  destruct (Hcounts resultado E) as [(Hv & _)|(_ & _ & H6 & _)].
  - vm_compute in E. inversion E; subst resultado. discriminate Hv.
  - vm_compute in E. inversion E; subst resultado.
    repeat split; try reflexivity. exact H6.
Defined.

(** ** The report generator: from the events of the API to the rows *)

(** X17. The report has no row of an unknown branch: [processar_eventos]
    keeps an event exactly when [obter_filial_poi] knows the branch of its
    POI, in the order of the input; the branch of every row is that of its
    POI, RRP or TLS, also after the consolidation; and it drops none of the
    events that [buscar_eventos_5hrs] returns. *)
Theorem X17_report_rows_have_a_branch :
  forall (lower : string -> string) (grupos : list (string * string))
         (strftime_local : string -> option string) (strptime : string -> option Z)
         (round2 : Q -> Q) (eventos : list RelatorioEventos.ApiEvento),
    let processar :=
      RelatorioEventos.processar_eventos lower grupos strftime_local strptime round2 in
    let conhecida poi :=
      negb (RelatorioEventos.obter_filial_poi poi =? "Desconhecida")%string in
    let da_filial evento :=
      Filial evento = RelatorioEventos.obter_filial_poi (Descricao_POI evento)
      /\ (Filial evento = "RRP"%string \/ Filial evento = "TLS"%string) in
    map Descricao_POI (processar eventos)
    = List.filter conhecida (map RelatorioEventos.fenceDescription eventos)
    /\ Forall da_filial (processar eventos)
    /\ Forall da_filial
         (Relatorio.consolidar_eventos_consecutivos strptime round2 (processar eventos))
    /\ forall (token : bool) (paginas : list (list RelatorioEventos.ApiEvento)),
         length (processar (RelatorioEventos.buscar_eventos_5hrs token paginas))
         = length (RelatorioEventos.buscar_eventos_5hrs token paginas).
Proof.
  intros lower grupos strftime_local strptime round2 eventos processar conhecida da_filial.
  pose proof (RelatorioEventosFacts.processar_eventos_da_filial lower grupos
                strftime_local strptime round2 eventos) as Hall.
  split; [apply RelatorioEventosFacts.processar_eventos_pois|].
  split; [exact Hall|]. split.
  - apply List.Forall_forall. intros s Hs.
    apply RelatorioEventosFacts.sessao_de_um_evento in Hs as (e & He & Hf & _ & Hd & _).
    rewrite List.Forall_forall in Hall. destruct (Hall e He) as [H1 H2].
    unfold da_filial. rewrite Hf, Hd. split; [exact H1 | exact H2].
  - intros token paginas.
    apply RelatorioEventosFacts.length_processar_filtrados.
    unfold RelatorioEventos.buscar_eventos_5hrs.
    destruct token; [|constructor]. cbn [negb].
    apply List.Forall_forall. intros e He.
    apply in_flat_map in He as (pagina & _ & He).
    apply filter_In in He as [_ He]. exact He.
Qed.

(** ** The report generator: the consolidation as a whole *)

(** X18. The consolidation is idempotent: consolidating its own result
    gives that result again, for the events of one vehicle and for the
    whole list. *)
Theorem X18_consolidation_idempotent :
  forall (strptime : string -> option Z) (round2 : Q -> Q)
         (eventos_processados : list Evento),
    Relatorio.consolidar_veiculo strptime round2
      (Relatorio.consolidar_veiculo strptime round2 eventos_processados)
    = Relatorio.consolidar_veiculo strptime round2 eventos_processados
    /\ Relatorio.consolidar_eventos_consecutivos strptime round2
         (Relatorio.consolidar_eventos_consecutivos strptime round2 eventos_processados)
       = Relatorio.consolidar_eventos_consecutivos strptime round2 eventos_processados.
Proof.
  intros strptime round2 l.
  split; [apply ConsolidationFacts.consolidar_veiculo_idem|].
  rewrite (ConsolidationFacts.consolidar_por_veiculo strptime round2 l).
  unfold Relatorio.consolidar_eventos_consecutivos at 1.
  rewrite ConsolidationFacts.group_by_por_veiculo.
  unfold ConsolidationSpec.por_veiculo.
  induction (group_by Placa_Veiculo l) as [|entry d IH]; [reflexivity|].
  cbn [map flat_map fst snd].
  rewrite ConsolidationFacts.consolidar_veiculo_idem, IH. reflexivity.
Qed.

(** X19. The consolidation loses no event and invents no session: the
    result is never longer than the input; every session has the plate, the
    POI and the entry of an event of the input, and the exit of an event of
    the input with that plate and POI; and every event of the input lies
    within a session of its plate and POI, which enters no later and leaves
    no earlier than the event. *)
Theorem X19_consolidation_covers_the_events :
  forall (strptime : string -> option Z) (round2 : Q -> Q)
         (eventos_processados : list Evento),
    let sessoes :=
      Relatorio.consolidar_eventos_consecutivos strptime round2 eventos_processados in
    (length sessoes <= length eventos_processados)%nat
    /\ (forall s, In s sessoes ->
          exists primeiro ultimo,
            In primeiro eventos_processados /\ In ultimo eventos_processados
            /\ Placa_Veiculo s = Placa_Veiculo primeiro
            /\ Descricao_POI s = Descricao_POI primeiro
            /\ Data_Entrada s = Data_Entrada primeiro
            /\ Placa_Veiculo ultimo = Placa_Veiculo primeiro
            /\ Descricao_POI ultimo = Descricao_POI primeiro
            /\ Data_Saida s = Data_Saida ultimo)
    /\ (forall e, In e eventos_processados ->
          exists s,
            In s sessoes
            /\ Placa_Veiculo s = Placa_Veiculo e
            /\ Descricao_POI s = Descricao_POI e
            /\ parse_data_entrada strptime s <= parse_data_entrada strptime e
            /\ parse_data_saida strptime e <= parse_data_saida strptime s).
Proof.
  intros strptime round2 l sessoes. subst sessoes.
  unfold Relatorio.consolidar_eventos_consecutivos.
  (* one vehicle *)
  assert (Hveiculo : forall k evs,
             In (k, evs) (group_by Placa_Veiculo l) ->
             let rs := runs_de (sort_by (parse_data_entrada strptime) evs) in
             Relatorio.consolidar_veiculo strptime round2 evs
             = map (sessao_da_run strptime round2) rs
             /\ (forall r e, In r rs -> In e (eventos_da_run r) ->
                   In e l /\ Placa_Veiculo e = k
                   /\ Descricao_POI e = Descricao_POI (fst r))
             /\ (forall e, In e evs -> exists r, In r rs /\ In e (eventos_da_run r))
             /\ PySpec.sorted_by (parse_data_entrada strptime) (flat_map eventos_da_run rs)).
  { intros k evs Hin rs.
    destruct (ConsolidationFacts.group_by_entry_key _ _ _ _ Hin) as [_ Hk].
    assert (Hflat : flat_map eventos_da_run rs
                    = sort_by (parse_data_entrada strptime) evs)
      by apply runs_de_eventos.
    assert (Hmax : runs_maximais rs) by apply runs_de_maximais.
    split; [apply ConsolidationFacts.consolidar_veiculo_runs|]. split; [|split].
    - intros r e Hr He.
      assert (Hes : In e (sort_by (parse_data_entrada strptime) evs)).
      { rewrite <- Hflat. apply in_flat_map. exists r. auto. }
      apply (proj1 (PySorting.sort_by_In (parse_data_entrada strptime) _ _)) in Hes.
      destruct (Hk e Hes) as [Hel Hek]. split; [exact Hel|]. split; [exact Hek|].
      clear -Hmax Hr He. induction rs as [|r0 rs IH]; [destruct Hr|].
      destruct Hmax as (Hm & _ & Hrest). destruct Hr as [->|Hr]; [|apply IH; auto].
      destruct He as [<-|He]; [reflexivity|].
      unfold mesma_poi in Hm. rewrite List.Forall_forall in Hm. apply Hm. exact He.
    - intros e He.
      assert (Hes : In e (flat_map eventos_da_run rs)).
      { rewrite Hflat. apply (proj2 (PySorting.sort_by_In (parse_data_entrada strptime) _ _)). exact He. }
      apply in_flat_map in Hes as (r & Hr & Her). exists r. auto.
    - rewrite Hflat. apply PySorting.sort_by_sorted. }
  split; [|split].
  - rewrite <- (ConsolidationFacts.length_group_by Placa_Veiculo l).
    assert (Hd : forall entry, In entry (group_by Placa_Veiculo l) ->
                   In entry (group_by Placa_Veiculo l)) by auto.
    revert Hd. generalize (group_by Placa_Veiculo l) at 1 3 4. intros d Hd.
    induction d as [|[k evs] d IH]; [simpl; lia|].
    cbn [flat_map snd]. rewrite !length_app.
    specialize (IH (fun entry H => Hd entry (or_intror H))).
    rewrite ConsolidationFacts.consolidar_veiculo_runs, length_map.
    pose proof (ConsolidationFacts.length_runs_de
                  (sort_by (parse_data_entrada strptime) evs)).
    rewrite PySorting.sort_by_length in H. lia.
  - intros s Hs. apply in_flat_map in Hs as ([k evs] & Hin & Hs). cbn [snd] in Hs.
    destruct (Hveiculo k evs Hin) as (Heq & Hrun & _ & _).
    rewrite Heq in Hs. apply in_map_iff in Hs as (r & <- & Hr).
    destruct (sessao_da_run_spec strptime round2 r)
      as (_ & Hp & Hd & _ & He & (u & Hu & Hus & _) & _).
    destruct (Hrun r (fst r) Hr (or_introl eq_refl)) as (Hfl & Hfk & _).
    destruct (Hrun r u Hr Hu) as (Hul & Huk & Hup).
    exists (fst r), u. repeat split; auto. congruence.
  - intros e He.
    apply (ConsolidationFacts.in_group_by Placa_Veiculo) in He as ([k evs] & Hin & He).
    cbn [snd] in He.
    destruct (Hveiculo k evs Hin) as (Heq & Hrun & Hcov & Hsorted).
    destruct (Hcov e He) as (r & Hr & Her).
    exists (sessao_da_run strptime round2 r). split.
    + apply in_flat_map. exists (k, evs). split; [exact Hin|]. cbn [snd].
      rewrite Heq. apply in_map. exact Hr.
    + destruct (sessao_da_run_spec strptime round2 r)
        as (_ & Hp & Hd & _ & Hen & (u & Hu & Hus & Hmaxu) & _).
      destruct (Hrun r e Hr Her) as (_ & Hek & Hep).
      destruct (Hrun r (fst r) Hr (or_introl eq_refl)) as (_ & Hfk & _).
      split; [congruence|]. split; [congruence|]. split.
      * unfold parse_data_entrada at 1. rewrite Hen.
        apply (primeiro_da_run_sorted strptime _ r Hsorted Hr e Her).
      * unfold parse_data_saida at 2. rewrite Hus. apply Hmaxu. exact Her.
Qed.

(** ** The earlier report generator and the current one *)

(** X20. When no event belongs to one of the related groups (Fábrica,
    Carregamento, Terminal, Descarga), the consolidation with related groups
    of the earlier script returns, without raising, what the consolidation
    of the current script returns. *)
Theorem X20_without_related_groups_same_result :
  forall (strptime : string -> option Z) (round2 : Q -> Q)
         (eventos_processados : list Evento),
    Forall (fun e => pertence_grupo_relacionado e = false) eventos_processados ->
    Backup.consolidar_eventos_consecutivos strptime round2 eventos_processados
    = Return (Relatorio.consolidar_eventos_consecutivos strptime round2
                eventos_processados).
Proof.
  intros strptime round2 l Hall.
  unfold Backup.consolidar_eventos_consecutivos,
    Relatorio.consolidar_eventos_consecutivos.
  apply PySorting.for_each_Return. intros [k evs] Hin. cbn [snd].
  destruct (ConsolidationFacts.group_by_entry_key _ _ _ _ Hin) as [_ Hk].
  rewrite (consolidar_veiculo_eq strptime round2 evs).
  rewrite (ConsolidationFacts.consolidar_veiculo_runs strptime round2 evs).
  set (ordenados := sort_by (parse_data_entrada strptime) evs).
  assert (Hnone : forall e, In e ordenados -> pertence_grupo_relacionado e = false).
  { intros e He. apply (proj1 (PySorting.sort_by_In (parse_data_entrada strptime) _ _)) in He.
    rewrite List.Forall_forall in Hall. apply Hall. apply (Hk e He). }
  assert (Hrest : List.filter (fun e => negb (pertence_grupo_relacionado e)) ordenados
                  = ordenados).
  { clear -Hnone. induction ordenados as [|e es IH]; [reflexivity|]. simpl.
    rewrite (Hnone e (or_introl eq_refl)). simpl. f_equal.
    apply IH. intros x Hx. apply Hnone. right. exact Hx. }
  assert (Hrel : forall conjunto,
             In conjunto GRUPOS_RELACIONADOS ->
             sessoes_do_conjunto strptime round2 ordenados conjunto = []).
  { intros conjunto Hc. unfold sessoes_do_conjunto, todos_do_conjunto.
    rewrite PySorting.filter_none; [reflexivity|].
    intros e He. specialize (Hnone e He).
    destruct (no_conjunto conjunto (Grupo_POI e)) eqn:E; [|reflexivity].
    rewrite (pertence_no_conjunto conjunto e Hc E) in Hnone. discriminate. }
  rewrite Hrest. f_equal.
  assert (Hflat : flat_map (sessoes_do_conjunto strptime round2 ordenados)
                    GRUPOS_RELACIONADOS = []).
  { induction GRUPOS_RELACIONADOS as [|c cs IH]; [reflexivity|]. simpl.
    rewrite (Hrel c (or_introl eq_refl)), IH; [reflexivity|].
    intros c' Hc'. apply Hrel. right. exact Hc'. }
  rewrite Hflat. reflexivity.
Qed.

Lemma X20_without_related_groups_same_result_witness :
  Backup.consolidar_eventos_consecutivos SampleEventos.strptime SampleEventos.round2
    [SampleEventos.a; SampleEventos.b; SampleEventos.c]
  = Return (Relatorio.consolidar_eventos_consecutivos SampleEventos.strptime
              SampleEventos.round2 [SampleEventos.a; SampleEventos.b; SampleEventos.c])
  /\ length (Relatorio.consolidar_eventos_consecutivos SampleEventos.strptime
               SampleEventos.round2 [SampleEventos.a; SampleEventos.b; SampleEventos.c])
     = 1%nat.
Proof.
  split; [|vm_compute; reflexivity].
  apply X20_without_related_groups_same_result.
  repeat constructor.
Defined.
